(** * Air-quality pipeline: fetch, predict, render

    A shallow embedding of the Python pipeline (fetch_aqi.py, fetch_aod.py,
    predict_aqi.py, map_builder.py, main.py) together with the properties
    its specification states about it.

    Conventions of the embedding:
    - a pandas DataFrame is the list of its rows, in index order;
    - a cell is a [value]: a number, a string, or NA (None / NaN);
    - numbers that the program only compares, clips or copies are exact
      rationals ([Qc], canonical, so that [=] is numeric equality);
    - Python's [random] module is the Mersenne Twister, modelled bit for
      bit, and the floats it produces are IEEE binary64 ([PrimFloat]);
    - NumPy's generator and scikit-learn's least-squares solver are
      parameters ([RandomState], [LeastSquares]): what the program does
      with their results is embedded, what they compute is not;
    - the requests of the point fetcher are answered by a parameter
      ([net]), and arrive in an order that is a parameter too;
    - a call either returns, raises, or exceeds the loop bound of the
      model ([outcome]). *)

From Stdlib Require Import ZArith QArith Qcanon Floats Lqa.
From stdpp Require Import gmap strings list numbers sorting.

Set Warnings "-abstract-large-number".

Local Open Scope string_scope.
Local Open Scope Z_scope.

(** ** Python values and control flow *)

Module Py.

Inductive exn : Type :=
| KeyError (key : string)
| ImportError (name : string)
| AttributeError (attr : string)
| TypeError
| ValueError (msg : string)
| NotFittedError
| IndexError
| OtherError (msg : string).

(** What a call does: return a value, raise, or run past the bound that
    the model puts on an unbounded loop. *)
Inductive outcome (A : Type) : Type :=
| Ok (a : A)
| Raise (e : exn)
| Timeout.
Arguments Ok {A} a.
Arguments Raise {A} e.
Arguments Timeout {A}.

Definition bind {A B} (m : outcome A) (k : A -> outcome B) : outcome B :=
  match m with
  | Ok a => k a
  | Raise e => Raise e
  | Timeout => Timeout
  end.

(** [try: m  except Exception: h] *)
Definition try_except {A} (m : outcome A) (h : exn -> outcome A) : outcome A :=
  match m with
  | Raise e => h e
  | other => other
  end.

Definition returns {A} (m : outcome A) : Prop := exists a, m = Ok a.

(** A cell of a table, or a JSON scalar. *)
Inductive value : Type :=
| VNA
| VNum (q : Qc)
| VStr (s : string).

Global Instance value_eq_dec : EqDecision value.
Proof. solve_decision. Defined.

Definition isna (v : value) : bool :=
  match v with VNA => true | _ => false end.

(** Python truthiness of a scalar, as used by [a or b]. *)
Definition truthy (v : value) : bool :=
  match v with
  | VNA => false
  | VNum q => negb (bool_decide (q = Q2Qc 0))
  | VStr s => negb (bool_decide (s = ""))
  end.

Definition qc (n : Z) (d : positive) : Qc := Q2Qc (n # d).
Definition num (n : Z) : value := VNum (qc n 1).

End Py.
Export Py.

(** [x ← m; k] sequences two calls: a raise (or a timeout) of [m] ends
    the sequence. *)
Global Instance outcome_ret : MRet outcome := @Ok.
Global Instance outcome_bind : MBind outcome := fun A B k m => Py.bind m k.
Global Instance outcome_fmap : FMap outcome := fun A B f m => Py.bind m (fun a => Ok (f a)).

(** ** The Mersenne Twister behind Python's [random] (MT19937) *)

Module MT19937.

Definition N : nat := 624.
Definition M : nat := 397.
Definition MATRIX_A : Z := 0x9908b0df.
Definition UPPER_MASK : Z := 0x80000000.
Definition LOWER_MASK : Z := 0x7fffffff.

(** Arithmetic on [uint32_t] wraps. *)
Definition u32 (z : Z) : Z := z mod 2 ^ 32.

Record state : Type := { mt : list Z; index : nat }.

Definition word (mt : list Z) (i : nat) : Z := default 0 (mt !! i).

Fixpoint init_words (n : nat) (prev : Z) (mti : Z) : list Z :=
  match n with
  | O => []
  | S n' =>
      let x := u32 (1812433253 * Z.lxor prev (Z.shiftr prev 30) + mti) in
      x :: init_words n' x (mti + 1)
  end.

Definition init_genrand (s : Z) : state :=
  {| mt := u32 s :: init_words (N - 1) (u32 s) 1; index := N |}.

(** After [i++]: wrap the cursor round the array. *)
Definition wrap (mt : list Z) (i : nat) : list Z * nat :=
  if decide (N ≤ i)%nat then (<[0%nat := word mt (N - 1)]> mt, 1%nat) else (mt, i).

Fixpoint key_loop (k : nat) (key : list Z) (mt : list Z) (i j : nat) : list Z * nat :=
  match k with
  | O => (mt, i)
  | S k' =>
      let p := word mt (i - 1) in
      let x := u32 (Z.lxor (word mt i) (u32 (Z.lxor p (Z.shiftr p 30) * 1664525))
                    + word key j + Z.of_nat j) in
      let '(mt', i') := wrap (<[i := x]> mt) (S i) in
      let j' := if decide (length key ≤ S j)%nat then 0%nat else S j in
      key_loop k' key mt' i' j'
  end.

Fixpoint mix_loop (k : nat) (mt : list Z) (i : nat) : list Z :=
  match k with
  | O => mt
  | S k' =>
      let p := word mt (i - 1) in
      let x := u32 (Z.lxor (word mt i) (u32 (Z.lxor p (Z.shiftr p 30) * 1566083941))
                    - Z.of_nat i) in
      let '(mt', i') := wrap (<[i := x]> mt) (S i) in
      mix_loop k' mt' i'
  end.

Definition init_by_array (key : list Z) : state :=
  let s := init_genrand 19650218 in
  let '(mt1, i) := key_loop (Nat.max N (length key)) key (mt s) 1 0 in
  let mt2 := mix_loop (N - 1) mt1 i in
  {| mt := <[0%nat := 0x80000000]> mt2; index := N |}.

(** One pass over the array: word [kk] becomes
    [mt[kk+M] ^ (y >> 1) ^ mag01[y & 1]] with the indices taken round
    the array, which is what the three loops of the C code compute. *)
Fixpoint regenerate (n : nat) (kk : nat) (mt : list Z) : list Z :=
  match n with
  | O => mt
  | S n' =>
      let y := Z.lor (Z.land (word mt kk) UPPER_MASK)
                     (Z.land (word mt (S kk mod N)) LOWER_MASK) in
      let x := Z.lxor (Z.lxor (word mt ((kk + M) mod N)) (Z.shiftr y 1))
                      (if Z.testbit y 0 then MATRIX_A else 0) in
      regenerate n' (S kk) (<[kk := x]> mt)
  end.

Definition temper (y : Z) : Z :=
  let y := Z.lxor y (Z.shiftr y 11) in
  let y := Z.lxor y (Z.land (Z.shiftl y 7) 0x9d2c5680) in
  let y := Z.lxor y (Z.land (Z.shiftl y 15) 0xefc60000) in
  Z.lxor y (Z.shiftr y 18).

Definition genrand_uint32 (s : state) : Z * state :=
  let s := if decide (N ≤ index s)%nat
           then {| mt := regenerate N 0 (mt s); index := 0 |} else s in
  (temper (word (mt s) (index s)), {| mt := mt s; index := S (index s) |}).

(** The next [n] words of the stream. *)
Fixpoint outputs (n : nat) (s : state) : list Z :=
  match n with
  | O => []
  | S n' => let '(y, s') := genrand_uint32 s in y :: outputs n' s'
  end.

End MT19937.

(** ** Python's [random] module (Lib/random.py over _randommodule.c) *)

Module Random.
Import MT19937.

(** A call on the module's hidden generator: state in, state out. *)
Definition rand (A : Type) : Type := state -> outcome (A * state).

(** [random.seed(a)] for an int: the 32-bit digits of [abs(a)], least
    significant first, key the generator. *)
Fixpoint key_digits (fuel : nat) (a : Z) : list Z :=
  match fuel with
  | O => []
  | S fuel' =>
      if a <? 2 ^ 32 then [a] else (a mod 2 ^ 32) :: key_digits fuel' (a / 2 ^ 32)
  end.

Definition seed (a : Z) : state :=
  init_by_array (key_digits (Z.to_nat (Z.log2 (Z.abs a) / 32 + 1)) (Z.abs a)).

(** [getrandbits(k)], [k > 0]: whole words, least significant first; the
    last one gives its top bits. *)
Fixpoint getrandbits_words (words : nat) (k : Z) (s : state) : Z * state :=
  match words with
  | O => (0, s)
  | S w =>
      let '(r, s1) := genrand_uint32 s in
      let r := if k <? 32 then Z.shiftr r (32 - k) else r in
      let '(hi, s2) := getrandbits_words w (k - 32) s1 in
      (r + Z.shiftl hi 32, s2)
  end.

Definition getrandbits (k : Z) (s : state) : Z * state :=
  getrandbits_words (Z.to_nat ((k - 1) / 32 + 1)) k s.

Definition float_of_Z (z : Z) : float :=
  if z <? 0 then PrimFloat.opp (PrimFloat.of_uint63 (Uint63.of_Z (- z)))
  else PrimFloat.of_uint63 (Uint63.of_Z z).

(** [random()]: 53 random bits scaled into [0, 1). *)
Definition random (s : state) : float * state :=
  let '(a, s1) := genrand_uint32 s in
  let '(b, s2) := genrand_uint32 s1 in
  let a := Z.shiftr a 5 in
  let b := Z.shiftr b 6 in
  (((float_of_Z a * 67108864 + float_of_Z b) * (1 / 9007199254740992))%float, s2).

(** The rejection loop of [_randbelow_with_getrandbits]; it has no bound
    in Python, [fuel] bounds it here. *)
Fixpoint randbelow_loop (fuel : nat) (n k : Z) (s : state) : outcome (Z * state) :=
  match fuel with
  | O => Timeout
  | S fuel' =>
      let '(r, s') := getrandbits k s in
      if n <=? r then randbelow_loop fuel' n k s' else Ok (r, s')
  end.

Definition rejection_bound : nat := 256.

Definition _randbelow (n : Z) : rand Z :=
  randbelow_loop rejection_bound n (Z.log2 n + 1).

Definition choice {A} (seq : list A) : rand A := fun s =>
  if decide (length seq = 0%nat) then Raise IndexError
  else
    '(i, s') ← _randbelow (Z.of_nat (length seq)) s;
    match seq !! Z.to_nat i with
    | Some x => Ok (x, s')
    | None => Raise IndexError
    end.

(** [uniform(a, b)] on two ints: [a + (b - a) * random()]. *)
Definition uniform (a b : Z) : rand float := fun s =>
  let '(r, s') := random s in
  Ok ((float_of_Z a + float_of_Z (b - a) * r)%float, s').

(** [randint(a, b)] is [randrange(a, b + 1)]. *)
Definition randint (a b : Z) : rand Z := fun s =>
  let width := b + 1 - a in
  if 0 <? width then
    '(r, s') ← _randbelow width s;
    Ok (a + r, s')
  else Raise (ValueError "empty range for randrange()").

(** The rational a finite float stands for; NA for a NaN (and, as no
    rational stands for them, for the infinities). *)
Definition value_of_float (f : float) : value :=
  match Prim2SF f with
  | S754_zero _ => VNum (qc 0 1)
  | S754_finite sg m e =>
      let mag := (inject_Z (Z.pos m) * Qpower 2 e)%Q in
      VNum (Q2Qc (if sg then Qopp mag else mag))
  | S754_infinity _ | S754_nan => VNA
  end.

End Random.

(** ** fetch_aqi.py: the point fetcher *)

Module FetchAqi.

(** Representative U.S. coordinates, one request each. *)
Definition COORDS : list (Qc * Qc) :=
  [ (qc 4761 100, qc (-12233) 100); (qc 3405 100, qc (-11824) 100);
    (qc 3616 100, qc (-11515) 100); (qc 3777 100, qc (-12242) 100);
    (qc 4076 100, qc (-11189) 100); (qc 3974 100, qc (-10499) 100);
    (qc 4188 100, qc (-8763) 100);  (qc 2976 100, qc (-9537) 100);
    (qc 3278 100, qc (-9680) 100);  (qc 3863 100, qc (-9020) 100);
    (qc 4071 100, qc (-7400) 100);  (qc 4236 100, qc (-7106) 100);
    (qc 3995 100, qc (-7516) 100);  (qc 3375 100, qc (-8439) 100);
    (qc 2576 100, qc (-8019) 100);  (qc 3890 100, qc (-7704) 100);
    (qc 4552 100, qc (-12268) 100); (qc 4495 100, qc (-9309) 100);
    (qc 4304 100, qc (-8790) 100);
    (qc 3033 100, qc (-8165) 100);  (qc 2942 100, qc (-9849) 100);
    (qc 3522 100, qc (-8084) 100);
    (qc 4687 100, qc (-9678) 100);  (qc 3515 100, qc (-9005) 100);
    (qc 3345 100, qc (-11207) 100) ].

(** What the endpoint's ["Category"] member can be. *)
Inductive category_member : Type :=
| CatAbsent
| CatFlat (v : value)
| CatNested (d : gmap string value).

(** One element of the flattened result list: a JSON object whose
    members are scalars, except ["Category"], which may itself be an
    object; or something that is not an object at all (and so has no
    [.get]). *)
Inductive item : Type :=
| Record_ (members : gmap string value) (cat : category_member)
| NotADict (v : value).

(** What [requests.get] gives for one coordinate: a response with a
    status code and a body ([r.json()] may raise), or an exception. *)
Inductive http : Type :=
| Response (status_code : Z) (json : outcome (list item))
| Failed (e : exn).

(** [_fetch_point(lat, lon)]: the records of a 200 response with a
    non-empty body; every other case is logged and gives []. *)
Definition _fetch_point (r : http) : list item :=
  match r with
  | Response 200 (Ok data) => if decide (data = []) then [] else data
  | Response 200 _ => []
  | Response _ _ => []
  | Failed _ => []
  end.

(** A row of the observation table.  [reportingArea] and [stateCode]
    are NA in the mock table, which has no such columns. *)
Record obs : Type := {
  latitude : value;
  longitude : value;
  parameter : value;
  aqi : value;
  category : value;
  unit : value;
  reportingArea : value;
  stateCode : value;
  utc : value;
  color : value;
  region : value
}.

(** [row.get(key)] *)
Definition get (members : gmap string value) (key : string) : value :=
  default VNA (members !! key).

(** [a or b] *)
Definition or_else (a b : value) : value := if truthy a then a else b.

(** The dict built from one raw element; [row.get] on a non-dict raises
    and the element is skipped. *)
Definition normalize (it : item) : option obs :=
  match it with
  | NotADict _ => None
  | Record_ row cat =>
      Some {|
        latitude := get row "Latitude";
        longitude := get row "Longitude";
        parameter := or_else (get row "ParameterName") (get row "Parameter");
        aqi := get row "AQI";
        category := match cat with
                    | CatNested d => get d "Name"
                    | CatFlat v => v
                    | CatAbsent => VNA
                    end;
        unit := get row "Unit";
        reportingArea := get row "ReportingArea";
        stateCode := get row "StateCode";
        utc := get row "DateObserved";
        color := VNA;
        region := VNA
      |}
  end.

(** [df.dropna(subset=["latitude", "longitude", "aqi"])] *)
Definition dropna (df : list obs) : list obs :=
  List.filter (fun r => negb (isna (latitude r) || isna (longitude r) || isna (aqi r))) df.

Definition key (r : obs) : value * value * value :=
  (latitude r, longitude r, parameter r).

(** [df.drop_duplicates(subset=[...])]: the first row of each key stays. *)
Fixpoint drop_duplicates_from (seen : list (value * value * value)) (df : list obs)
  : list obs :=
  match df with
  | [] => []
  | r :: rest =>
      if decide (key r ∈ seen) then drop_duplicates_from seen rest
      else r :: drop_duplicates_from (key r :: seen) rest
  end.

Definition drop_duplicates (df : list obs) : list obs := drop_duplicates_from [] df.

Definition color_map (cat : value) : value :=
  match cat with
  | VStr "Good" => VStr "green"
  | VStr "Moderate" => VStr "yellow"
  | VStr "Unhealthy for Sensitive Groups" => VStr "orange"
  | VStr "Unhealthy" => VStr "red"
  | VStr "Very Unhealthy" => VStr "purple"
  | VStr "Hazardous" => VStr "maroon"
  | _ => VNA
  end.

Definition fillna (d v : value) : value := if isna v then d else v.

(** [df["color"] = ...; df["region"] = "USA"] *)
Definition with_color_region (r : obs) : obs :=
  {| latitude := latitude r; longitude := longitude r; parameter := parameter r;
     aqi := aqi r; category := category r; unit := unit r;
     reportingArea := reportingArea r; stateCode := stateCode r; utc := utc r;
     color := fillna (VStr "gray") (color_map (category r));
     region := VStr "USA" |}.

(** One iteration of the loop of [_mock_aqi_data]. *)
Definition mock_row : Random.rand obs := fun s =>
  '(cat, s) ← Random.choice ["Good"; "Moderate"; "Unhealthy"] s;
  '(lat, s) ← Random.uniform 24 49 s;
  '(lon, s) ← Random.uniform (-125) (-67) s;
  '(par, s) ← Random.choice ["PM2.5"; "NO2"] s;
  '(a, s) ← Random.randint 5 150 s;
  Ok ({| latitude := Random.value_of_float lat;
         longitude := Random.value_of_float lon;
         parameter := VStr par;
         unit := VStr "UG/M3";
         aqi := num a;
         category := VStr cat;
         color := VStr (if String.eqb cat "Good" then "green"
                        else if String.eqb cat "Moderate" then "yellow" else "red");
         region := VStr "USA";
         utc := VStr "2025-10-04T12:00";
         reportingArea := VNA;
         stateCode := VNA |}, s).

Fixpoint mock_rows (n : nat) : Random.rand (list obs) := fun s =>
  match n with
  | O => Ok ([], s)
  | S n' =>
      '(r, s) ← mock_row s;
      '(rest, s) ← mock_rows n' s;
      Ok (r :: rest, s)
  end.

(** [_mock_aqi_data(n)]: reseed with 42, then [n] rows. *)
Definition _mock_aqi_data (n : nat) : outcome (list obs) :=
  '(rows, _) ← mock_rows n (Random.seed 42);
  Ok rows.

(** [net] is what the endpoint answers for a coordinate; [completion] is
    the order in which the 25 futures complete, which is the order
    [as_completed] yields them in. *)
Definition all_data (net : Qc * Qc -> http) (completion : list (Qc * Qc)) : list item :=
  concat (map (fun c => _fetch_point (net c)) completion).

(** [load_aqi_data(use_mock)] *)
Definition load_aqi_data (use_mock : bool) (net : Qc * Qc -> http)
    (completion : list (Qc * Qc)) : outcome (list obs) :=
  if use_mock then _mock_aqi_data 1000
  else
    let all_data := all_data net completion in
    if bool_decide (all_data = []) || bool_decide (length all_data < 10)%nat
    then _mock_aqi_data 1000
    else
      let rows := omap normalize all_data in
      (* pd.DataFrame([]) has no columns: dropna(subset=...) raises *)
      if decide (rows = []) then Raise (KeyError "latitude")
      else
        let df := drop_duplicates (dropna rows) in
        Ok (map with_color_region df).

End FetchAqi.

(** ** NumPy: arrays of floats and the legacy global generator *)

Module Numpy.

(** An element of a float array: a number or NaN. *)
Inductive number : Type :=
| NaN
| Num (q : Qc).

Global Instance number_eq_dec : EqDecision number.
Proof. solve_decision. Defined.

Definition isnan (x : number) : bool :=
  match x with NaN => true | Num _ => false end.

(** Comparisons of array elements with a constant: false on NaN. *)
Definition ge (x : number) (c : Qc) : bool :=
  match x with NaN => false | Num q => bool_decide (c ≤ q)%Qc end.
Definition le (x : number) (c : Qc) : bool :=
  match x with NaN => false | Num q => bool_decide (q ≤ c)%Qc end.

Definition maximum (a b : Qc) : Qc := if decide (a ≤ b)%Qc then b else a.
Definition minimum (a b : Qc) : Qc := if decide (a ≤ b)%Qc then a else b.

(** [np.clip(x, lo, hi)] is [minimum(maximum(x, lo), hi)]; NaN stays NaN. *)
Definition clip (x : number) (lo hi : Qc) : number :=
  match x with
  | NaN => NaN
  | Num q => Num (minimum (maximum q lo) hi)
  end.

(** [np.repeat(a, k)] and [np.tile(a, k)] *)
Definition repeat {A} (a : list A) (k : nat) : list A :=
  concat (map (replicate k) a).
Definition tile {A} (a : list A) (k : nat) : list A :=
  concat (replicate k a).

(** The global [np.random] generator.  Its normal deviates come out of
    logarithms and square roots of floats, so the stream is a parameter
    of the model: a state, how [seed] sets it, and what one draw of
    each kind returns. *)
Class RandomState : Type := {
  rng : Type;
  seed : Z -> rng;
  draw_uniform : Qc -> Qc -> rng -> Qc * rng;
  draw_normal : Qc -> Qc -> rng -> Qc * rng
}.

(** [size=n]: [n] draws, one after the other. *)
Fixpoint draws {S A : Type} (draw : S -> A * S) (n : nat) (s : S) : list A * S :=
  match n with
  | O => ([], s)
  | S n' =>
      let '(x, s1) := draw s in
      let '(xs, s2) := draws draw n' s1 in
      (x :: xs, s2)
  end.

Definition uniform `{RandomState} (lo hi : Qc) (n : nat) (s : rng) : list number * rng :=
  let '(xs, s') := draws (draw_uniform lo hi) n s in (map Num xs, s').
Definition normal `{RandomState} (mu sd : Qc) (n : nat) (s : rng) : list number * rng :=
  let '(xs, s') := draws (draw_normal mu sd) n s in (map Num xs, s').

(** A small generator to run the model on: a counter stepped through
    the hundredths. *)
Definition counter_fraction (s : Z) : Qc := qc ((s * 37) mod 100) 100.

Definition counter_state : RandomState := {|
  rng := Z;
  seed := fun a => a;
  draw_uniform := fun lo hi s => ((lo + (hi - lo) * counter_fraction s)%Qc, s + 1);
  draw_normal := fun mu sd s =>
    ((mu + sd * (qc 4 1 * counter_fraction s - qc 2 1))%Qc, s + 1)
|}.

End Numpy.
Export Numpy.

(** ** scikit-learn's LinearRegression *)

Module Sklearn.

Inductive model : Type :=
| Unfitted
| Fitted (coef : list Qc) (intercept : Qc).

(** The least-squares solver is the library's: coefficients and
    intercept for a feature matrix and a target vector. *)
Class LeastSquares : Type := {
  lstsq : list (list Qc) -> list Qc -> list Qc * Qc
}.

(** [LinearRegression().fit(X, y)] *)
Definition fit `{LeastSquares} (X : list (list Qc)) (y : list Qc) : model :=
  let '(coef, intercept) := lstsq X y in Fitted coef intercept.

Definition dot (coef x : list Qc) : Qc :=
  foldr Qcplus (qc 0 1) (zip_with Qcmult coef x).

Fixpoint all_numbers (x : list number) : option (list Qc) :=
  match x with
  | [] => Some []
  | NaN :: _ => None
  | Num q :: rest => cons q <$> all_numbers rest
  end.

(** Input validation: no NaN anywhere, then the width the model was
    fitted on. *)
Definition validate (n_features : nat) (X : list (list number)) : outcome (list (list Qc)) :=
  match mapM all_numbers X with
  | None => Raise (ValueError "Input X contains NaN.")
  | Some X' =>
      if decide (Forall (fun x => length x = n_features) X') then Ok X'
      else Raise (ValueError "X has a different number of features")
  end.

(** [model.predict(X)]: a model that was never fitted raises before it
    looks at [X]; an empty [X], a NaN, or a wrong width raise next. *)
Definition predict (m : model) (X : list (list number)) : outcome (list Qc) :=
  match m with
  | Unfitted => Raise NotFittedError
  | Fitted coef intercept =>
      if decide (X = []) then Raise (ValueError "Found array with 0 sample(s)")
      else
        X' ← validate (length coef) X;
        Ok (map (fun x => (dot coef x + intercept)%Qc) X')
  end.

(** A solver to run the model on: the mean of the targets, no slope. *)
Definition mean_solver : LeastSquares := {|
  lstsq := fun X y =>
    (replicate (length (default [] (head X))) (qc 0 1),
     (foldr Qcplus (qc 0 1) y / Qc_of_Z (Z.of_nat (length y)))%Qc)
|}.

End Sklearn.
Export Sklearn.

(** ** fetch_aod.py: the aerosol loader *)

Module FetchAod.

Record aod_row : Type := {
  latitude : number;
  longitude : number;
  aod : number
}.

(** What the archive path reads out of the granule: the two axes and
    the flattened first time slice of TOTEXTTAU. *)
Record granule : Type := {
  lat : list number;
  lon : list number;
  totexttau : list number
}.

Fixpoint zip3 (la lo a : list number) : list aod_row :=
  match la, lo, a with
  | x :: la', y :: lo', z :: a' =>
      {| latitude := x; longitude := y; aod := z |} :: zip3 la' lo' a'
  | _, _, _ => []
  end.

(** [pd.DataFrame({...})] of three columns: they must be equally long. *)
Definition frame (la lo a : list number) : outcome (list aod_row) :=
  if decide (length la = length lo ∧ length lo = length a) then Ok (zip3 la lo a)
  else Raise (ValueError "All arrays must be of the same length").

Definition _mock_aod_data `{RandomState} (n : nat) : list aod_row :=
  let s := seed 1 in
  let '(la, s) := uniform (qc 24 1) (qc 495 10) n s in
  let '(lo, s) := uniform (qc (-125) 1) (qc (-665) 10) n s in
  let '(a, s) := uniform (qc 0 1) (qc 1 1) n s in
  zip3 la lo a.

(** The crop to the continental U.S. *)
Definition in_box (r : aod_row) : bool :=
  ge (latitude r) (qc 24 1) && le (latitude r) (qc 495 10)
  && ge (longitude r) (qc (-125) 1) && le (longitude r) (qc (-665) 10).

(** [load_aod_data()].  [archive] is the outcome of the earthaccess
    steps (import, login, search, download, open): a granule, or the
    exception one of them raised. *)
Definition load_aod_data `{RandomState} (archive : outcome granule)
  : outcome (list aod_row) :=
  df ← try_except
         (g ← archive;
          frame (Numpy.repeat (lat g) (length (lon g)))
                (Numpy.tile (lon g) (length (lat g)))
                (totexttau g))
         (fun _ => Ok (_mock_aod_data 3000));
  Ok (List.filter in_box df).

End FetchAod.

(** ** predict_aqi.py: the historical fetcher and the weekly predictor *)

Module PredictAqi.

Record sample : Type := {
  date : Z;
  latitude : number;
  longitude : number;
  aqi : number
}.

Record prediction : Type := {
  pred_latitude : number;
  pred_longitude : number;
  aqi_pred : number
}.

(** [pd.date_range(start, end)]: every day from [start] to [end], both
    included.  Dates are day numbers. *)
Definition date_range (start stop : Z) : list Z := seqZ start (stop - start + 1).

(** The frame of one day: the day's date against every location. *)
Definition day_frame (d : Z) (lat lon a : list number) : list sample :=
  zip_with (fun p x => {| date := d; latitude := p.1; longitude := p.2; aqi := x |})
           (zip lat lon) a.

Fixpoint week_frames `{RandomState} (days : list Z) (lat lon : list number) (s : rng)
  : list sample :=
  match days with
  | [] => []
  | d :: rest =>
      let '(a, s') := normal (qc 70 1) (qc 25 1) (length lat) s in
      let a := map (fun x => clip x (qc 10 1) (qc 300 1)) a in
      day_frame d lat lon a ++ week_frames rest lat lon s'
  end.

(** [fetch_past_week_data(use_mock, force_refresh)] on the day [today].
    The other branch calls the function again with [use_mock=True]. *)
Definition fetch_past_week_data `{RandomState} (use_mock force_refresh : bool) (today : Z)
  : list sample :=
  let mock :=
    let s := seed 42 in
    let days := date_range (today - 7) today in
    let '(lat, s) := uniform (qc 25 1) (qc 49 1) 700 s in
    let '(lon, s) := uniform (qc (-124) 1) (qc (-67) 1) 700 s in
    week_frames days lat lon s in
  if use_mock then mock else mock.

(** *** Grouping by location *)

Definition location (r : sample) : option (Qc * Qc) :=
  match latitude r, longitude r with
  | Num la, Num lo => Some (la, lo)
  | _, _ => None
  end.

Definition location_le (a b : Qc * Qc) : Prop :=
  (a.1 < b.1)%Qc ∨ (a.1 = b.1 ∧ (a.2 ≤ b.2)%Qc).

Global Instance location_le_dec : RelDecision location_le.
Proof. intros a b. unfold location_le. apply _. Defined.

(** The keys of [df.groupby(["latitude", "longitude"])], sorted; rows
    with a NaN in the key belong to no group. *)
Definition locations (df : list sample) : list (Qc * Qc) :=
  merge_sort location_le (remove_dups (omap location df)).

Definition group (df : list sample) (k : Qc * Qc) : list sample :=
  List.filter (fun r => bool_decide (location r = Some k)) df.

(** *** Lag features *)

Record lagged : Type := {
  row : sample;
  lag1 : number;
  lag2 : number;
  lag3 : number
}.

(** [series.shift(k)] *)
Definition shift (k : nat) (xs : list number) : list number :=
  replicate (Nat.min k (length xs)) NaN ++ take (length xs - k) xs.

Definition date_le (a b : sample) : Prop := date a ≤ date b.
Global Instance date_le_dec : RelDecision date_le.
Proof. intros a b. unfold date_le. apply _. Defined.

Fixpoint zip_lags (g : list sample) (l1 l2 l3 : list number) : list lagged :=
  match g, l1, l2, l3 with
  | r :: g', a :: l1', b :: l2', c :: l3' =>
      {| row := r; lag1 := a; lag2 := b; lag3 := c |} :: zip_lags g' l1' l2' l3'
  | _, _, _, _ => []
  end.

Definition make_features (g : list sample) : list lagged :=
  let g := merge_sort date_le g in
  let a := map aqi g in
  zip_lags g (shift 1 a) (shift 2 a) (shift 3 a).

(** [.dropna()]: a row stays when none of its cells is NaN. *)
Definition complete (r : lagged) : bool :=
  negb (isnan (aqi (row r)) || isnan (lag1 r) || isnan (lag2 r) || isnan (lag3 r)).

Definition lag_frame (df : list sample) : list lagged :=
  List.filter complete (concat (map (fun k => make_features (group df k)) (locations df))).

Definition cell (x : number) : Qc := match x with Num q => q | NaN => qc 0 1 end.

Definition features (df : list lagged) : list (list Qc) :=
  map (fun r => [cell (lag1 r); cell (lag2 r); cell (lag3 r)]) df.
Definition target (df : list lagged) : list Qc :=
  map (fun r => cell (aqi (row r))) df.

(** [train_weekly_predictor(df_week)] *)
Definition train_weekly_predictor `{LeastSquares} (df_week : option (list sample)) : model :=
  match df_week with
  | None => Unfitted
  | Some df =>
      if decide (length df < 100)%nat then Unfitted
      else
        let grouped := lag_frame df in
        if decide (length grouped < 50)%nat then Unfitted
        else fit (features grouped) (target grouped)
  end.

(** *** Tomorrow's predictions *)

(** [df.groupby(...).tail(3)], one group at a time. *)
Definition tail (n : nat) {A} (l : list A) : list A := drop (length l - n) l.

Definition mock_predictions `{RandomState} : list prediction :=
  let s := seed 10 in
  let '(lats, s) := uniform (qc 25 1) (qc 49 1) 3000 s in
  let '(lons, s) := uniform (qc (-124) 1) (qc (-67) 1) 3000 s in
  let '(a, s) := normal (qc 75 1) (qc 20 1) 3000 s in
  let a := map (fun x => clip x (qc 10 1) (qc 300 1)) a in
  zip_with (fun p x => {| pred_latitude := p.1; pred_longitude := p.2; aqi_pred := x |})
           (zip lats lons) a.

(** The pivot: one row per location, with the AQI values of its last
    three samples; locations with fewer than three are left out. *)
Definition pivot (df : list sample) : list ((Qc * Qc) * list number) :=
  List.filter (fun p => bool_decide (length p.2 = 3%nat))
    (map (fun k => (k, map aqi (tail 3 (group df k)))) (locations df)).

(** [x[-1]], [x[-2]], [x[-3]] *)
Definition lags_of (x : list number) : list number :=
  match reverse x with
  | a :: b :: c :: _ => [a; b; c]
  | _ => []
  end.

(** [predict_tomorrow(df_week, model)] *)
Definition predict_tomorrow `{RandomState} (df_week : option (list sample))
    (model : option model) : outcome (list prediction) :=
  match model, df_week with
  | None, _ | _, None => Ok mock_predictions
  | Some m, Some df =>
      if decide (length df < 50)%nat then Ok mock_predictions
      else
        let pv := pivot df in
        y ← predict m (map (fun p => lags_of p.2) pv);
        Ok (zip_with (fun p v =>
                        {| pred_latitude := Num p.1.1; pred_longitude := Num p.1.2;
                           aqi_pred := clip (Num v) (qc 10 1) (qc 300 1) |})
                     pv y)
  end.

End PredictAqi.

(** ** map_builder.py: the map renderer *)

Module MapBuilder.

(** A row handed out by [iterrows]: its cells by column name. *)
Abbreviation row := (gmap string value).

Definition get_aqi_color (aqi : value) : outcome string :=
  match aqi with
  | VNum q =>
      Ok (if decide (q ≤ qc 50 1)%Qc then "green"
          else if decide (q ≤ qc 100 1)%Qc then "yellow"
          else if decide (q ≤ qc 150 1)%Qc then "orange"
          else if decide (q ≤ qc 200 1)%Qc then "red"
          else if decide (q ≤ qc 300 1)%Qc then "purple"
          else "maroon")
  | VNA => Ok "maroon"           (* every comparison with NaN is false *)
  | VStr _ => Raise TypeError    (* str <= int *)
  end.

(** [row.get(key, default)] and [row[key]] *)
Definition get (r : row) (key : string) (default_ : value) : value :=
  default default_ (r !! key).
Definition item (r : row) (key : string) : outcome value :=
  match r !! key with
  | Some v => Ok v
  | None => Raise (KeyError key)
  end.

(** The pieces of an f-string: literal text, a value shown as it is, a
    value shown with two decimals. *)
Inductive fragment : Type :=
| Lit (s : string)
| Shown (v : value)
| Fixed2 (v : value).

(** [f"{v:.2f}"] *)
Definition format_2f (v : value) : outcome fragment :=
  match v with
  | VStr _ => Raise (ValueError "Unknown format code 'f' for object of type 'str'")
  | _ => Ok (Fixed2 v)
  end.

(** What folium accepts as a coordinate or a heat weight: a number. *)
Definition validate_number (v : value) : outcome Qc :=
  match v with
  | VNum q => Ok q
  | VNA => Raise (ValueError "Location values cannot contain NaNs.")
  | VStr _ => Raise (ValueError "Location should consist of two numerical values")
  end.

Record circle_marker : Type := {
  location : Qc * Qc;
  radius : Z;
  color : string;
  fill : bool;
  fill_opacity : Qc;
  popup : list fragment
}.

Record heat_map : Type := {
  data : list (Qc * Qc * Qc);
  heat_name : string;
  min_opacity : Qc;
  heat_radius : Z;
  blur : Z;
  max_zoom : Z
}.

Inductive element : Type :=
| CircleMarker (c : circle_marker)
| HeatMap (h : heat_map).

Record feature_group : Type := {
  name : string;
  children : list element
}.

Record map_doc : Type := {
  center : Qc * Qc;
  zoom_start : Z;
  tiles : string;
  layers : list feature_group;
  layer_control_collapsed : bool
}.

(** The body of the loop over [df_aqi]. *)
Definition aqi_marker (r : row) : outcome element :=
  color ← get_aqi_color (get r "aqi" (num 0));
  la ← format_2f (get r "latitude" (num 0));
  lo ← format_2f (get r "longitude" (num 0));
  let city := match r !! "city" with
              | Some c => [Shown c]
              | None => [Lit "("; la; Lit ", "; lo; Lit ")"]
              end in
  let param := get r "parameter" (VStr "PM2.5") in
  a ← item r "aqi";
  let popup := ([Lit "<b>"] ++ city
                ++ [Lit "</b><br>AQI: "; Shown a; Lit "<br>Parameter: "; Shown param])%list in
  y ← item r "latitude";
  x ← item r "longitude";
  y ← validate_number y;
  x ← validate_number x;
  Ok (CircleMarker {| location := (y, x); radius := 4; color := color; fill := true;
                      fill_opacity := qc 85 100; popup := popup |}).

(** One line of [heat_data]. *)
Definition heat_line (r : row) : outcome (value * value * value) :=
  y ← item r "latitude";
  x ← item r "longitude";
  a ← item r "aod";
  Ok (y, x, a).

Definition validate_line (l : value * value * value) : outcome (Qc * Qc * Qc) :=
  y ← validate_number l.1.1;
  x ← validate_number l.1.2;
  a ← match l.2 with
      | VNum q => Ok q
      | VNA => Raise (ValueError "data may not contain NaNs.")
      | VStr _ => Raise TypeError
      end;
  Ok (y, x, a).

(** The body of the loop over [df_pred]. *)
Definition pred_marker (r : row) : outcome element :=
  color ← get_aqi_color (get r "aqi_pred" (num 0));
  y ← item r "latitude";
  x ← item r "longitude";
  p ← item r "aqi_pred";
  y ← validate_number y;
  x ← validate_number x;
  Ok (CircleMarker {| location := (y, x); radius := 4; color := color; fill := true;
                      fill_opacity := qc 75 100;
                      popup := [Lit "<b>Predicted AQI:</b> "; Shown p] |}).

(** [df is not None and len(df) > 0] *)
Definition present (df : option (list row)) : option (list row) :=
  match df with
  | Some (r :: rest) => Some (r :: rest)
  | _ => None
  end.

Definition aqi_layer (df_aqi : option (list row)) (show_pred : string)
  : outcome (list feature_group) :=
  match present df_aqi with
  | Some df =>
      if bool_decide (show_pred ∈ ["both"; "current"]) then
        ms ← mapM aqi_marker df;
        Ok [{| name := "Current AQI Levels"; children := ms |}]
      else Ok []
  | None => Ok []
  end.

Definition aod_layer (df_aod : option (list row)) : outcome (list feature_group) :=
  match present df_aod with
  | Some df =>
      heat_data ← mapM heat_line df;
      d ← mapM validate_line heat_data;
      Ok [{| name := "AOD (MERRA-2)";
             children := [HeatMap {| data := d; heat_name := "Aerosol Optical Depth";
                                     min_opacity := qc 3 10; heat_radius := 25;
                                     blur := 18; max_zoom := 6 |}] |}]
  | None => Ok []
  end.

Definition pred_layer (df_pred : option (list row)) (show_pred : string)
  : outcome (list feature_group) :=
  match present df_pred with
  | Some df =>
      if bool_decide (show_pred ∈ ["both"; "predicted"]) then
        ms ← mapM pred_marker df;
        Ok [{| name := "Predicted AQI (Tomorrow)"; children := ms |}]
      else Ok []
  | None => Ok []
  end.

(** [make_map(df_aqi, df_aod, df_pred, show_pred)] *)
Definition make_map (df_aqi df_aod df_pred : option (list row)) (show_pred : string)
  : outcome map_doc :=
  l1 ← aqi_layer df_aqi show_pred;
  l2 ← aod_layer df_aod;
  l3 ← pred_layer df_pred show_pred;
  Ok {| center := (qc 395 10, qc (-9835) 100); zoom_start := 5;
        tiles := "cartodbpositron";
        layers := (l1 ++ l2 ++ l3)%list;
        layer_control_collapsed := false |}.

Definition has_layer (n : string) (m : map_doc) : bool :=
  bool_decide (n ∈ map name (layers m)).

(** An aerosol record, as a row: three numeric cells. *)
Definition aod_record (r : row) : Prop :=
  ∃ y x a, r !! "latitude" = Some (VNum y) ∧ r !! "longitude" = Some (VNum x)
           ∧ r !! "aod" = Some (VNum a).

End MapBuilder.

(** ** main.py: the orchestrator *)

Module Main.

(** The stages [main] calls. *)
Inductive stage : Type :=
| FetchPastWeek
| MockWeekly
| LoadAod
| TrainPredictor
| PredictTomorrow
| BuildMap.

Global Instance stage_eq_dec : EqDecision stage.
Proof. solve_decision. Defined.

(** What a run leaves behind: the lines it prints and the stages it
    calls, in order. *)
Inductive event : Type :=
| Print (line : string)
| PrintExn (line : string) (e : exn)
| PrintCounts (aqi_points aod_points predictions : nat)
| Call (s : stage).

Global Instance exn_eq_dec : EqDecision exn.
Proof. solve_decision. Defined.
Global Instance event_eq_dec : EqDecision event.
Proof. solve_decision. Defined.

(** A computation that logs: its events, then how it ended. *)
Record io (A : Type) : Type := IO { trace : list event; result : outcome A }.
Arguments IO {A} trace result.
Arguments trace {A} i.
Arguments result {A} i.

Global Instance io_ret : MRet io := fun A a => IO [] (Ok a).
Global Instance io_bind : MBind io := fun A B k m =>
  match result m with
  | Ok a => IO (trace m ++ trace (k a)) (result (k a))
  | Raise e => IO (trace m) (Raise e)
  | Timeout => IO (trace m) Timeout
  end.

Definition print (line : string) : io unit := IO [Print line] (Ok ()).
Definition print_exn (line : string) (e : exn) : io unit := IO [PrintExn line e] (Ok ()).
Definition call {A} (s : stage) (r : outcome A) : io A := IO [Call s] r.

(** [try: m  except Exception as e: h e] *)
Definition try_ {A} (m : io A) (h : exn -> io A) : io A :=
  match result m with
  | Raise e => IO (trace m ++ trace (h e)) (result (h e))
  | _ => m
  end.

(** What the names [main] calls would do, were they bound: the body of
    [main] is embedded against them.  [DF] is whatever the stages pass
    for a table, [MODEL] what the trainer returns; [None] is a result
    like any other.  Nothing in the repository binds [build_map] or
    [_mock_weekly_data]: [imports] below is where that shows, and
    [program] is what running main.py does. *)
Record stages (DF MODEL : Type) : Type := {
  fetch_past_week_data : bool -> outcome (option DF);
  _mock_weekly_data : outcome (option DF);
  load_aod_data : outcome (option DF);
  train_predictor : option DF -> outcome (option MODEL);
  predict_tomorrow : MODEL -> option DF -> outcome (option DF);
  build_map : option DF -> option DF -> option DF -> outcome unit;
  len : DF -> nat
}.
Arguments fetch_past_week_data {DF MODEL} s.
Arguments _mock_weekly_data {DF MODEL} s.
Arguments load_aod_data {DF MODEL} s.
Arguments train_predictor {DF MODEL} s.
Arguments predict_tomorrow {DF MODEL} s.
Arguments build_map {DF MODEL} s.
Arguments len {DF MODEL} s.

Section main.
Context {DF MODEL : Type} (st : stages DF MODEL).

(** [df is None or df.empty] *)
Definition none_or_empty (df : option DF) : bool :=
  match df with
  | None => true
  | Some d => bool_decide (len st d = 0%nat)
  end.

Definition safe_len (df : option DF) : nat :=
  match df with
  | None => 0%nat      (* len(None) raises, caught *)
  | Some d => len st d
  end.

(** [main()], with [--force-refresh] as its argument. *)
Definition main (force_refresh : bool) : io unit :=
  print "🌎 Loading data...";;
  (* Step 1 *)
  df_aqi ← call FetchPastWeek (fetch_past_week_data st force_refresh);
  df_aqi ← (if none_or_empty df_aqi then
              print "⚠️ No AQI data available — using fallback mock dataset.";;
              call MockWeekly (_mock_weekly_data st)
            else mret df_aqi);
  (* Step 2 *)
  df_aod ← try_ (call LoadAod (load_aod_data st))
                (fun e => print_exn "⚠️ Failed to load AOD data: " e;; mret None);
  (* Step 3 *)
  print "🤖 Training AQI predictor...";;
  model ← try_ (call TrainPredictor (train_predictor st df_aqi))
               (fun e => print_exn "⚠️ Model training failed: " e;; mret None);
  (* Step 4 *)
  df_pred ← match model with
            | Some m =>
                try_ (call PredictTomorrow (predict_tomorrow st m df_aqi))
                     (fun e => print_exn "⚠️ Prediction failed: " e;; mret None)
            | None => mret None
            end;
  (* Step 5 *)
  IO [PrintCounts (safe_len df_aqi) (safe_len df_aod) (safe_len df_pred)] (Ok ());;
  (* Step 6 *)
  print "🗺️ Building map...";;
  built ← try_ (call BuildMap (build_map st df_aqi df_aod df_pred);; mret true)
               (fun e => print_exn "⚠️ Map generation failed: " e;; mret false);
  if built : bool then
    print "✅ Done — Open 'air_quality_map.html' to view your interactive map!"
  else mret ().

Definition called (s : stage) (r : io unit) : Prop := Call s ∈ trace r.

End main.

(** The exit status of [python main.py] when [main()] ends this way. *)
Definition exit_status (r : outcome unit) : option Z :=
  match r with
  | Ok _ => Some 0
  | Raise _ => Some 1
  | Timeout => None
  end.

(** The top-level names of the modules [main.py] imports from. *)
Definition fetch_aod_names : list string :=
  ["np"; "pd"; "load_aod_data"; "_mock_aod_data"].
Definition predict_aqi_names : list string :=
  ["datetime"; "np"; "pd"; "LinearRegression"; "train_test_split"; "r2_score";
   "fetch_past_week_data"; "train_predictor"; "train_weekly_predictor";
   "predict_tomorrow"].
Definition map_builder_names : list string :=
  ["folium"; "HeatMap"; "get_aqi_color"; "make_map"].

(** [from module import name] *)
Definition import_from (names : list string) (name : string) : outcome unit :=
  if decide (name ∈ names) then Ok () else Raise (ImportError name).

(** The import statements at the top of main.py. *)
Definition imports : outcome unit :=
  import_from fetch_aod_names "load_aod_data";;
  import_from predict_aqi_names "fetch_past_week_data";;
  import_from predict_aqi_names "train_predictor";;
  import_from predict_aqi_names "predict_tomorrow";;
  import_from map_builder_names "build_map".

(** [python main.py]: the import statements at the top of the module
    run first; [main()], under [if __name__ == "__main__"], is called
    only once they have all succeeded. *)
Definition program {DF MODEL : Type} (st : stages DF MODEL) (force_refresh : bool)
  : io unit :=
  IO [] imports;; main st force_refresh.

End Main.

(** ** Frames to run the model on *)

Module Samples.
Import PredictAqi.

(** [days] days of history for [locs] stations along a meridian, a day
    at a time, as the historical fetcher lays its rows out. *)
Definition station_row (d i : nat) : sample :=
  {| date := Z.of_nat d;
     latitude := Num (qc (25 + Z.of_nat i) 1);
     longitude := Num (qc (-100) 1);
     aqi := Num (qc (40 + Z.of_nat d + Z.of_nat i) 1) |}.

Definition stations (locs days : nat) : list sample :=
  flat_map (fun d => map (station_row d) (seq 0 locs)) (seq 0 days).

(** One station near Seattle answers with ten records, the last of
    them without an AQI; every other request fails. *)
Definition seattle_record (i : Z) : FetchAqi.item :=
  FetchAqi.Record_
    {[ "Latitude" := VNum (qc (4700 + i) 100); "Longitude" := VNum (qc (-12233) 100);
       "ParameterName" := VStr "PM2.5"; "AQI" := num (40 + i);
       "ReportingArea" := VStr "Seattle"; "StateCode" := VStr "WA" ]}
    (FetchAqi.CatNested {[ "Number" := num 1; "Name" := VStr "Good" ]}).

Definition seattle_no_aqi : FetchAqi.item :=
  FetchAqi.Record_
    {[ "Latitude" := VNum (qc 4761 100); "Longitude" := VNum (qc (-12233) 100);
       "ParameterName" := VStr "O3" ]}
    (FetchAqi.CatFlat (VStr "Good")).

Definition seattle_only (c : Qc * Qc) : FetchAqi.http :=
  if decide (c = (qc 4761 100, qc (-12233) 100))
  then FetchAqi.Response 200
         (Ok (map seattle_record [0; 1; 2; 3; 4; 5; 6; 7; 8] ++ [seattle_no_aqi])%list)
  else FetchAqi.Failed (OtherError "timed out").

(** Rows for the renderer: aerosol points, observations, predictions. *)
Definition aod_point (i : Z) : MapBuilder.row :=
  {[ "latitude" := VNum (qc (30 + i) 1); "longitude" := VNum (qc (-100) 1);
     "aod" := VNum (qc i 10) ]}.
Definition aqi_point (i : Z) : MapBuilder.row :=
  {[ "latitude" := VNum (qc (30 + i) 1); "longitude" := VNum (qc (-90) 1);
     "aqi" := num (40 * i) ]}.
Definition pred_point (i : Z) : MapBuilder.row :=
  {[ "latitude" := VNum (qc (30 + i) 1); "longitude" := VNum (qc (-80) 1);
     "aqi_pred" := num (60 * i) ]}.

Definition five_aod : list MapBuilder.row := map aod_point [1; 2; 3; 4; 5].

(** A granule whose variable is one value short of its two-by-two grid. *)
Definition short_granule : FetchAod.granule :=
  {| FetchAod.lat := [Num (qc 30 1); Num (qc 40 1)];
     FetchAod.lon := [Num (qc (-100) 1); Num (qc (-90) 1)];
     FetchAod.totexttau := [Num (qc 1 10); Num (qc 2 10); Num (qc 3 10)] |}.

(** A two-by-two aerosol grid with one point over the continental U.S. *)
Definition small_granule : FetchAod.granule :=
  {| FetchAod.lat := [Num (qc 20 1); Num (qc 30 1)];
     FetchAod.lon := [Num (qc (-100) 1); Num (qc (-60) 1)];
     FetchAod.totexttau := [Num (qc 1 10); Num (qc 2 10); Num (qc 3 10); NaN] |}.

(** A row of observations that lost its columns. *)
Definition bare_row : MapBuilder.row := {[ "city" := VStr "Nowhere" ]}.

(** Every request times out; every request is answered 503. *)
Definition all_timed_out (c : Qc * Qc) : FetchAqi.http :=
  FetchAqi.Failed (OtherError "timed out").
Definition all_unavailable (c : Qc * Qc) : FetchAqi.http :=
  FetchAqi.Response 503 (Raise (ValueError "Expecting value")).

(** Stages for the orchestrator: a table is its number of rows.  One
    run in which every stage works, and runs in which one stage raises. *)
Definition all_fine : Main.stages nat unit :=
  {| Main.fetch_past_week_data := fun _ => Ok (Some 5600%nat);
     Main._mock_weekly_data := Raise (ImportError "_mock_weekly_data");
     Main.load_aod_data := Ok (Some 3000%nat);
     Main.train_predictor := fun _ => Ok (Some ());
     Main.predict_tomorrow := fun _ _ => Ok (Some 3000%nat);
     Main.build_map := fun _ _ _ => Ok ();
     Main.len := fun n => n |}.

Definition fetch_raises : Main.stages nat unit :=
  {| Main.fetch_past_week_data := fun _ => Raise (OtherError "connection reset");
     Main._mock_weekly_data := Main._mock_weekly_data all_fine;
     Main.load_aod_data := Main.load_aod_data all_fine;
     Main.train_predictor := Main.train_predictor all_fine;
     Main.predict_tomorrow := Main.predict_tomorrow all_fine;
     Main.build_map := Main.build_map all_fine;
     Main.len := Main.len all_fine |}.

Definition training_raises : Main.stages nat unit :=
  {| Main.fetch_past_week_data := Main.fetch_past_week_data all_fine;
     Main._mock_weekly_data := Main._mock_weekly_data all_fine;
     Main.load_aod_data := Main.load_aod_data all_fine;
     Main.train_predictor := fun _ => Raise (KeyError "latitude");
     Main.predict_tomorrow := Main.predict_tomorrow all_fine;
     Main.build_map := Main.build_map all_fine;
     Main.len := Main.len all_fine |}.

Definition aod_and_map_raise : Main.stages nat unit :=
  {| Main.fetch_past_week_data := Main.fetch_past_week_data all_fine;
     Main._mock_weekly_data := Main._mock_weekly_data all_fine;
     Main.load_aod_data := Raise (OtherError "no netrc");
     Main.train_predictor := Main.train_predictor all_fine;
     Main.predict_tomorrow := Main.predict_tomorrow all_fine;
     Main.build_map := fun _ _ _ => Raise (KeyError "aqi");
     Main.len := Main.len all_fine |}.

(** The fetch comes back with an empty table. *)
Definition fetch_empty : Main.stages nat unit :=
  {| Main.fetch_past_week_data := fun _ => Ok (Some 0%nat);
     Main._mock_weekly_data := Main._mock_weekly_data all_fine;
     Main.load_aod_data := Main.load_aod_data all_fine;
     Main.train_predictor := Main.train_predictor all_fine;
     Main.predict_tomorrow := Main.predict_tomorrow all_fine;
     Main.build_map := Main.build_map all_fine;
     Main.len := Main.len all_fine |}.

(** Two neighbouring requests answer, and their areas overlap: sites 3
    to 5 are reported by both, with a later reading in the second. *)
Definition overlap_record (i : Z) : FetchAqi.item :=
  FetchAqi.Record_
    {[ "Latitude" := VNum (qc (4700 + i) 100); "Longitude" := VNum (qc (-12233) 100);
       "ParameterName" := VStr "PM2.5"; "AQI" := num (60 + i);
       "ReportingArea" := VStr "Tacoma"; "StateCode" := VStr "WA" ]}
    (FetchAqi.CatFlat (VStr "Moderate")).

Definition two_stations (c : Qc * Qc) : FetchAqi.http :=
  if decide (c = (qc 4761 100, qc (-12233) 100))
  then FetchAqi.Response 200 (Ok (map seattle_record [0; 1; 2; 3; 4; 5]))
  else if decide (c = (qc 4552 100, qc (-12268) 100))
  then FetchAqi.Response 200 (Ok (map overlap_record [3; 4; 5; 6; 7; 8]))
  else FetchAqi.Failed (OtherError "timed out").

(** Every request is answered 200 with an error object in place of the
    list of observations: extending the list with it adds its one key,
    a string. *)
Definition all_errors (c : Qc * Qc) : FetchAqi.http :=
  FetchAqi.Response 200 (Ok [FetchAqi.NotADict (VStr "WebServiceError")]).

End Samples.

(** ** Deciding distinctness by computation *)

Module Distinct.

Definition value_eqb (a b : value) : bool :=
  match a, b with
  | VNA, VNA => true
  | VNum p, VNum q => Z.eqb (Qnum p) (Qnum q) && Pos.eqb (Qden p) (Qden q)
  | VStr s, VStr t => String.eqb s t
  | _, _ => false
  end.

Definition key_eqb (a b : value * value * value) : bool :=
  value_eqb a.1.1 b.1.1 && value_eqb a.1.2 b.1.2 && value_eqb a.2 b.2.

Fixpoint distinctb (l : list (value * value * value)) : bool :=
  match l with
  | [] => true
  | k :: rest => negb (existsb (key_eqb k) rest) && distinctb rest
  end.

End Distinct.

(** ** Predicates the properties are stated with *)

Module Props.

(** The continental bounding box of the aerosol loader. *)
Definition inside_box (r : FetchAod.aod_row) : Prop :=
  ∃ la lo, FetchAod.latitude r = Num la ∧ FetchAod.longitude r = Num lo
           ∧ (qc 24 1 ≤ la)%Qc ∧ (la ≤ qc 495 10)%Qc
           ∧ (qc (-125) 1 ≤ lo)%Qc ∧ (lo ≤ qc (-665) 10)%Qc.

(** A historical sample whose AQI is a number. *)
Definition numeric (r : PredictAqi.sample) : Prop :=
  isnan (PredictAqi.aqi r) = false.

(** A prediction within the AQI range the predictor clips to. *)
Definition clipped (p : PredictAqi.prediction) : Prop :=
  ∃ q, PredictAqi.aqi_pred p = Num q ∧ (qc 10 1 ≤ q)%Qc ∧ (q ≤ qc 300 1)%Qc.

(** The names of the three layers of the map. *)
Definition AQI_LAYER : string := "Current AQI Levels".
Definition AOD_LAYER : string := "AOD (MERRA-2)".
Definition PRED_LAYER : string := "Predicted AQI (Tomorrow)".

(** An input of the renderer that is [None] or has no rows. *)
Definition absent (df : option (list MapBuilder.row)) : Prop :=
  df = None ∨ df = Some [].

(** The map with no data layer on it. *)
Definition bare_map : MapBuilder.map_doc :=
  {| MapBuilder.center := (qc 395 10, qc (-9835) 100);
     MapBuilder.zoom_start := 5;
     MapBuilder.tiles := "cartodbpositron";
     MapBuilder.layers := [];
     MapBuilder.layer_control_collapsed := false |}.

(** What [try: x = stage() except: x = None] leaves in [x]. *)
Definition recovered {A} (o : outcome (option A)) : option A :=
  match o with
  | Ok v => v
  | Raise _ | Timeout => None
  end.

(** The predictions [main] hands to the map: those of the model the
    trainer returned, if it returned one and predicting did not raise. *)
Definition predictions_for {DF MODEL} (st : Main.stages DF MODEL) (df_aqi : option DF)
  : option DF :=
  match Main.train_predictor st df_aqi with
  | Ok (Some m) => recovered (Main.predict_tomorrow st m df_aqi)
  | _ => None
  end.

(** The last line of a run that reached the map stage. *)
Definition closing_line (built : outcome unit) : Main.event :=
  match built with
  | Ok _ =>
      Main.Print "✅ Done — Open 'air_quality_map.html' to view your interactive map!"
  | Raise e => Main.PrintExn "⚠️ Map generation failed: " e
  | Timeout => Main.Call Main.BuildMap
  end.

End Props.
Export Props.

(** ** Predicates on the rendered map *)

Module MapProps.
Import MapBuilder.

(** The circle the renderer draws for a row of observations: at the
    row's coordinates, in the colour of the bucket of its AQI. *)
Definition observation_marker (r : row) (e : element) : Prop :=
  ∃ c y x a, e = CircleMarker c
    ∧ r !! "latitude" = Some (VNum y) ∧ r !! "longitude" = Some (VNum x)
    ∧ r !! "aqi" = Some a
    ∧ location c = (y, x) ∧ get_aqi_color a = Ok (color c).

(** The same for a row of predictions. *)
Definition prediction_marker (r : row) (e : element) : Prop :=
  ∃ c y x a, e = CircleMarker c
    ∧ r !! "latitude" = Some (VNum y) ∧ r !! "longitude" = Some (VNum x)
    ∧ r !! "aqi_pred" = Some a
    ∧ location c = (y, x) ∧ get_aqi_color a = Ok (color c).

(** A point of the heat map against the aerosol row it comes from. *)
Definition heat_point (r : row) (t : Qc * Qc * Qc) : Prop :=
  r !! "latitude" = Some (VNum t.1.1) ∧ r !! "longitude" = Some (VNum t.1.2)
  ∧ r !! "aod" = Some (VNum t.2).

End MapProps.
Export MapProps.

(** ** Predicates on a run of the orchestrator *)

Module MainProps.
Import Main.

(** The stages a run called, in the order it called them. *)
Definition calls (t : list event) : list stage :=
  omap (fun e => match e with Call s => Some s | _ => None end) t.

End MainProps.
Export MainProps.

(** ** Predicates on the historical frame *)

Module PredictProps.
Import PredictAqi.

(** A sample whose AQI is a number in the range the fetcher clips to. *)
Definition in_aqi_range (r : sample) : Prop :=
  ∃ q, aqi r = Num q ∧ (qc 10 1 ≤ q)%Qc ∧ (q ≤ qc 300 1)%Qc.

(** Where a sample, and where a prediction, was taken. *)
Definition coords (r : sample) : number * number := (latitude r, longitude r).
Definition pred_coords (p : prediction) : number * number :=
  (pred_latitude p, pred_longitude p).

(** A location as the cells of a table hold it. *)
Definition cells (k : Qc * Qc) : number * number := (Num k.1, Num k.2).

(** A location with at least three samples in the frame. *)
Definition has_three (df : list sample) (k : Qc * Qc) : bool :=
  bool_decide (3 ≤ length (group df k))%nat.

(** The AQI of the sample [k] places before the [i]-th one of a series,
    NaN when there is none. *)
Definition earlier (s : list sample) (i k : nat) : number :=
  if decide (k ≤ i)%nat then from_option aqi NaN (s !! (i - k)%nat) else NaN.

(** The row [r] is a sample of one location with a numeric AQI [a],
    and [l1], [l2], [l3] are the AQI of the samples one, two and three
    places before it in the samples of that location taken in date
    order. *)
Definition three_lags (df : list sample) (r : lagged) (l1 l2 l3 a : Qc) : Prop :=
  ∃ k s j, k ∈ locations df ∧ s ≡ₚ group df k ∧ Sorted date_le s
    ∧ s !! (j + 3)%nat = Some (row r) ∧ aqi (row r) = Num a
    ∧ aqi <$> s !! (j + 2)%nat = Some (Num l1)
    ∧ aqi <$> s !! (j + 1)%nat = Some (Num l2)
    ∧ aqi <$> s !! j = Some (Num l3).

End PredictProps.
Export PredictProps.

(** ** Predicates on the observation table *)

Module FetchAqiProps.
Import FetchAqi.

(** Whatever [m] returns, if it returns, satisfies [P]. *)
Definition yields {A} (m : outcome A) (P : A -> Prop) : Prop :=
  ∀ a, m = Ok a -> P a.

(** A row with the three cells no returned row may lack. *)
Definition located (r : obs) : Prop :=
  isna (latitude r) = false ∧ isna (longitude r) = false ∧ isna (aqi r) = false.

(** The colour of a category: the palette's, gray for a category the
    palette does not list. *)
Definition palette (cat : value) : value := fillna (VStr "gray") (color_map cat).

(** A cell that holds a number between two integers. *)
Definition between (lo hi : Z) (v : value) : Prop :=
  ∃ q, v = VNum q ∧ (qc lo 1 ≤ q)%Qc ∧ (q ≤ qc hi 1)%Qc.

Definition betweenb (lo hi : Z) (v : value) : bool :=
  match v with
  | VNum q => Qle_bool (lo # 1) q && Qle_bool q (hi # 1)
  | _ => false
  end.

(** Where the synthetic points are drawn: the continental box. *)
Definition in_box (r : obs) : Prop :=
  between 24 49 (latitude r) ∧ between (-125) (-67) (longitude r).

Definition in_boxb (r : obs) : bool :=
  betweenb 24 49 (latitude r) && betweenb (-125) (-67) (longitude r).

(** The cells of a synthetic row that are drawn from finite sets or
    written as constants. *)
Definition synthetic (r : obs) : Prop :=
  category r ∈ [VStr "Good"; VStr "Moderate"; VStr "Unhealthy"]
  ∧ parameter r ∈ [VStr "PM2.5"; VStr "NO2"]
  ∧ (∃ a, aqi r = num a ∧ 5 ≤ a ≤ 150)
  ∧ color r = palette (category r)
  ∧ unit r = VStr "UG/M3"
  ∧ region r = VStr "USA"
  ∧ utc r = VStr "2025-10-04T12:00".

(** The table a list of normalised records is turned into. *)
Definition table_of (rows : list obs) : list obs :=
  map with_color_region (drop_duplicates (dropna rows)).

End FetchAqiProps.
Export FetchAqiProps.

(** * Properties *)

(** ** The generator against CPython *)

Module RandomSpec.

(** [random.seed(42)] followed by [getrandbits(32)] five times. *)
Example seed_42_words :
  MT19937.outputs 5 (Random.seed 42)
  = [2746317213; 478163327; 107420369; 3184935163; 1181241943].
Proof. vm_compute. reflexivity. Qed.

(** [random.seed(42); random.random()] is 0.6394267984578837. *)
Example seed_42_random :
  (Random.random (Random.seed 42)).1 = 0x1.4762f307200c5p-1%float.
Proof. vm_compute. reflexivity. Qed.

(** The first draws of the synthetic table: 'Unhealthy',
    26.78327670414201, -81.9900710139297, 'PM2.5', 62. *)
Example seed_42_first_row :
  match FetchAqi._mock_aqi_data 1 with
  | Ok [r] =>
      (FetchAqi.category r, FetchAqi.latitude r, FetchAqi.longitude r,
       FetchAqi.parameter r, FetchAqi.aqi r)
      = (VStr "Unhealthy",
         Random.value_of_float 0x1.ac884d2740234p+4%float,
         Random.value_of_float (-0x1.47f5d52d062ebp+6)%float,
         VStr "PM2.5", num 62)
  | _ => False
  end.
Proof. vm_compute. reflexivity. Qed.

End RandomSpec.

(** ** The aerosol loader *)

Module FetchAodSpec.
Import FetchAod.

Lemma ge_true x c : ge x c = true -> ∃ q, x = Num q ∧ (c ≤ q)%Qc.
Proof.
  destruct x as [|q]; simpl; [discriminate|].
  intros Hc. apply bool_decide_eq_true in Hc. eauto.
Qed.

Lemma le_true x c : le x c = true -> ∃ q, x = Num q ∧ (q ≤ c)%Qc.
Proof.
  destruct x as [|q]; simpl; [discriminate|].
  intros Hc. apply bool_decide_eq_true in Hc. eauto.
Qed.

Lemma in_box_inside r : in_box r = true -> inside_box r.
Proof.
  unfold in_box. rewrite !andb_true_iff.
  intros [[[H1 H2] H3] H4].
  apply ge_true in H1 as (la & Hla & H1).
  apply le_true in H2 as (la' & Hla' & H2).
  apply ge_true in H3 as (lo & Hlo & H3).
  apply le_true in H4 as (lo' & Hlo' & H4).
  rewrite Hla in Hla'. rewrite Hlo in Hlo'.
  injection Hla' as <-. injection Hlo' as <-.
  exists la, lo. auto 10.
Qed.

(** Of the four points of the small grid, the one inside the box is
    returned; when the archive fails, the synthetic points are. *)
Example load_aod_data_small_granule `{RandomState} :
  load_aod_data (Ok Samples.small_granule)
  = Ok [{| latitude := Num (qc 30 1); longitude := Num (qc (-100) 1);
           aod := Num (qc 3 10) |}].
Proof. vm_compute. reflexivity. Qed.

Example load_aod_data_archive_down :
  length <$> (@load_aod_data counter_state (Raise (ImportError "earthaccess")))
  = Ok 3000%nat.
Proof. vm_compute. reflexivity. Qed.

(** The loader returns a table whatever the archive does, short of
    hanging. *)
Lemma load_aod_data_returns `{RandomState} (archive : outcome granule) :
  archive ≠ Timeout -> returns (load_aod_data archive).
Proof.
  intros Harch. unfold load_aod_data, returns.
  destruct archive as [g|e|]; [| |done]; simpl; [|eauto].
  unfold frame. destruct (decide _); simpl; eauto.
Qed.

(** C5: every row of the table that [load_aod_data] returns lies in the
    box 24 <= latitude <= 49.5, -125 <= longitude <= -66.5, whether the
    rows come from the archive or from the mock generator. *)
Theorem load_aod_data_in_box `{RandomState} (archive : outcome granule)
    (df : list aod_row) :
  load_aod_data archive = Ok df -> Forall inside_box df.
Proof.
  unfold load_aod_data. intros Hdf.
  destruct (try_except _ _) as [rows| |]; simpl in Hdf; try discriminate.
  injection Hdf as <-. apply Forall_forall. intros r Hr.
  apply list_elem_of_In, filter_In in Hr as [_ Hr].
  by apply in_box_inside.
Qed.

Lemma load_aod_data_in_box_witness :
  ∃ df, @load_aod_data counter_state (Ok Samples.small_granule) = Ok df
        ∧ length df = 1%nat ∧ Forall inside_box df.
Proof.
  eexists. split; [vm_compute; reflexivity|]. split; [reflexivity|].
  apply (@load_aod_data_in_box counter_state (Ok Samples.small_granule)).
  vm_compute. reflexivity.
Defined.

End FetchAodSpec.

(** ** The historical fetcher and the weekly predictor *)

Module PredictAqiSpec.
Import PredictAqi.

(** *** Arrays drawn from the generator *)

Lemma draws_length {S A} (draw : S -> A * S) n s :
  length (draws draw n s).1 = n.
Proof.
  revert s. induction n as [|n IH]; intros s; simpl; [done|].
  destruct (draw s) as [x s1]. specialize (IH s1).
  destruct (draws draw n s1) as [xs s2]. simpl in *. by rewrite IH.
Qed.

Lemma uniform_length `{RandomState} lo hi n s : length (uniform lo hi n s).1 = n.
Proof.
  unfold uniform. pose proof (draws_length (draw_uniform lo hi) n s) as Hl.
  destruct (draws _ n s) as [xs s']. simpl in *. by rewrite length_map.
Qed.

Lemma normal_length `{RandomState} mu sd n s : length (normal mu sd n s).1 = n.
Proof.
  unfold normal. pose proof (draws_length (draw_normal mu sd) n s) as Hl.
  destruct (draws _ n s) as [xs s']. simpl in *. by rewrite length_map.
Qed.

Lemma normal_numbers `{RandomState} mu sd n s :
  Forall (fun x => isnan x = false) (normal mu sd n s).1.
Proof.
  unfold normal. destruct (draws _ n s) as [xs s']. simpl.
  apply Forall_forall. intros x Hx. apply list_elem_of_fmap in Hx as (q & -> & _). done.
Qed.

(** *** Clipping *)

Lemma clip_range (x : number) :
  isnan x = false ->
  ∃ q, clip x (qc 10 1) (qc 300 1) = Num q ∧ (qc 10 1 ≤ q)%Qc ∧ (q ≤ qc 300 1)%Qc.
Proof.
  destruct x as [|q]; [discriminate|]. intros _. simpl.
  eexists; split; [reflexivity|].
  assert (qc 10 1 ≤ qc 300 1)%Qc as H10 by (by vm_compute).
  unfold minimum, maximum.
  destruct (decide (q ≤ qc 10 1)%Qc) as [Hq|Hq].
  - destruct (decide (qc 10 1 ≤ qc 300 1)%Qc); [|done].
    split; [apply Qcle_refl | done].
  - apply Qcnot_le_lt, Qclt_le_weak in Hq.
    destruct (decide (q ≤ qc 300 1)%Qc) as [Hq'|Hq']; split; try done;
      try apply Qcle_refl.
Qed.

Lemma zip_clipped (ps : list (number * number)) (a : list number) :
  Forall (fun x => isnan x = false) a ->
  Forall clipped
    (zip_with (fun p x => {| pred_latitude := p.1; pred_longitude := p.2; aqi_pred := x |})
              ps (map (fun x => clip x (qc 10 1) (qc 300 1)) a)).
Proof.
  intros Ha. revert ps. induction Ha as [|x a Hx Ha IH]; intros [|p ps]; simpl; try constructor.
  - by apply clip_range.
  - apply IH.
Qed.

Lemma mock_predictions_clipped `{RandomState} : Forall clipped mock_predictions.
Proof.
  unfold mock_predictions.
  destruct (uniform (qc 25 1) (qc 49 1) 3000 (seed 10)) as [lats s1].
  destruct (uniform (qc (-124) 1) (qc (-67) 1) 3000 s1) as [lons s2].
  pose proof (normal_numbers (qc 75 1) (qc 20 1) 3000 s2) as Hn.
  destruct (normal (qc 75 1) (qc 20 1) 3000 s2) as [a s3]. simpl in Hn.
  by apply zip_clipped.
Qed.

Lemma mock_predictions_length `{RandomState} : length mock_predictions = 3000%nat.
Proof.
  unfold mock_predictions.
  pose proof (uniform_length (qc 25 1) (qc 49 1) 3000 (seed 10)) as H1.
  destruct (uniform (qc 25 1) (qc 49 1) 3000 (seed 10)) as [lats s1].
  pose proof (uniform_length (qc (-124) 1) (qc (-67) 1) 3000 s1) as H2.
  destruct (uniform (qc (-124) 1) (qc (-67) 1) 3000 s1) as [lons s2].
  pose proof (normal_length (qc 75 1) (qc 20 1) 3000 s2) as H3.
  destruct (normal (qc 75 1) (qc 20 1) 3000 s2) as [a s3]. simpl in *.
  rewrite length_zip_with, length_zip, length_map. lia.
Qed.

Lemma real_predictions_clipped (pv : list ((Qc * Qc) * list number)) (y : list Qc) :
  Forall clipped
    (zip_with (fun p v => {| pred_latitude := Num p.1.1; pred_longitude := Num p.1.2;
                             aqi_pred := clip (Num v) (qc 10 1) (qc 300 1) |}) pv y).
Proof.
  revert y. induction pv as [|p pv IH]; intros [|v y]; simpl; try constructor.
  - by apply (clip_range (Num v)).
  - apply IH.
Qed.

(** C8: whatever table [predict_tomorrow] returns, from the fitted model
    or from the synthetic fallback, every [aqi_pred] in it is a number
    between 10 and 300. *)
Theorem predict_tomorrow_clipped `{RandomState} (df_week : option (list sample))
    (m : option model) (r : list prediction) :
  predict_tomorrow df_week m = Ok r -> Forall clipped r.
Proof.
  unfold predict_tomorrow. intros Hr.
  destruct m as [m|], df_week as [df|];
    try (injection Hr as <-; apply mock_predictions_clipped).
  destruct (decide (length df < 50)%nat).
  { injection Hr as <-. apply mock_predictions_clipped. }
  destruct (predict m _) as [y| |] eqn:Hy; simpl in Hr; try discriminate.
  injection Hr as <-. apply real_predictions_clipped.
Qed.

Lemma predict_tomorrow_clipped_witness :
  ∃ r, @predict_tomorrow counter_state (Some (Samples.stations 20 3))
         (Some (Fitted [qc 1 1; qc 1 1; qc 1 1] (qc 5 1))) = Ok r
       ∧ length r = 20%nat ∧ Forall clipped r.
Proof.
  eexists. split; [vm_compute; reflexivity|].
  split; [reflexivity|].
  apply (@predict_tomorrow_clipped counter_state (Some (Samples.stations 20 3))
           (Some (Fitted [qc 1 1; qc 1 1; qc 1 1] (qc 5 1)))).
  vm_compute. reflexivity.
Defined.

(** *** The fallback of [predict_tomorrow] *)

(** With no model at all, no history, or fewer than 50 rows of it, the
    synthetic predictions are returned: 3000 of them. *)
Lemma predict_tomorrow_fallback `{RandomState} (df_week : option (list sample))
    (m : option model) :
  m = None ∨ df_week = None ∨ (∃ df, df_week = Some df ∧ (length df < 50)%nat) ->
  predict_tomorrow df_week m = Ok mock_predictions
  ∧ length mock_predictions = 3000%nat.
Proof.
  intros Hc. split; [|apply mock_predictions_length].
  unfold predict_tomorrow.
  destruct m as [m|], df_week as [df|]; try done.
  destruct Hc as [?|[?|(df' & [= <-] & Hlen)]]; try done.
  by destruct (decide (length df < 50)%nat).
Qed.

(** A model that was never fitted is not [None]: with 50 rows or more it
    reaches [model.predict], which raises. *)
Lemma predict_tomorrow_unfitted `{RandomState} (df : list sample) :
  (50 ≤ length df)%nat ->
  predict_tomorrow (Some df) (Some Unfitted) = Raise NotFittedError.
Proof.
  intros Hlen. unfold predict_tomorrow.
  destruct (decide (length df < 50)%nat); [lia|]. reflexivity.
Qed.

(** C3, at 60 rows of history (20 stations, 3 days): the trainer falls
    back to the model it never fitted, and [predict_tomorrow], given that
    model, raises NotFittedError where the synthetic predictions were
    promised. *)
Theorem predict_tomorrow_untrained_model_raises :
  length (Samples.stations 20 3) = 60%nat
  ∧ @train_weekly_predictor mean_solver (Some (Samples.stations 20 3)) = Unfitted
  ∧ @predict_tomorrow counter_state (Some (Samples.stations 20 3))
      (Some (@train_weekly_predictor mean_solver (Some (Samples.stations 20 3))))
    = Raise NotFittedError.
Proof.
  assert (@train_weekly_predictor mean_solver (Some (Samples.stations 20 3)) = Unfitted)
    as Htrain by reflexivity.
  split; [reflexivity|]. split; [exact Htrain|].
  rewrite Htrain. apply (@predict_tomorrow_unfitted counter_state).
  apply Nat.leb_le. reflexivity.
Qed.

(** *** The historical fetcher *)

Lemma day_frame_dates d (lat lon a : list number) :
  length lon = length lat -> length a = length lat ->
  map date (day_frame d lat lon a) = replicate (length lat) d.
Proof.
  revert lon a. induction lat as [|x lat IH]; intros [|y lon] [|z a]; simpl;
    try done.
  intros [= Hlon] [= Ha]. f_equal. by apply IH.
Qed.

Lemma week_frames_dates `{RandomState} days (lat lon : list number) s :
  length lon = length lat ->
  map date (week_frames days lat lon s) = concat (map (replicate (length lat)) days).
Proof.
  intros Hlon. revert s. induction days as [|d days IH]; intros s; simpl; [done|].
  pose proof (normal_length (qc 70 1) (qc 25 1) (length lat) s) as Hn.
  destruct (normal (qc 70 1) (qc 25 1) (length lat) s) as [a s']. simpl in Hn.
  rewrite map_app, IH, day_frame_dates; [done|done|].
  by rewrite length_map.
Qed.

Lemma date_range_week today :
  date_range (today - 7) today =
  [today - 7; today - 6; today - 5; today - 4; today - 3; today - 2; today - 1; today].
Proof.
  unfold date_range. replace (today - (today - 7) + 1) with 8 by lia.
  unfold seqZ. simpl. repeat (f_equal; try lia).
Qed.

(** C4, as the code has it: the frame holds a row for each of 700
    locations on each of EIGHT days, [today - 7] up to [today], 5600 rows
    in all (a week up to and including today would be 4900); the two
    values of [use_mock] give the same frame. *)
Theorem fetch_past_week_data_eight_days `{RandomState} (use_mock force_refresh : bool)
    (today : Z) :
  map date (fetch_past_week_data use_mock force_refresh today)
  = concat (map (replicate 700)
      [today - 7; today - 6; today - 5; today - 4; today - 3; today - 2; today - 1; today])
  ∧ length (fetch_past_week_data use_mock force_refresh today) = 5600%nat
  ∧ fetch_past_week_data false force_refresh today
    = fetch_past_week_data true force_refresh today.
Proof.
  assert (map date (fetch_past_week_data use_mock force_refresh today)
          = concat (map (replicate 700) (date_range (today - 7) today))) as Hdates.
  { unfold fetch_past_week_data.
    pose proof (uniform_length (qc 25 1) (qc 49 1) 700 (seed 42)) as H1.
    destruct (uniform (qc 25 1) (qc 49 1) 700 (seed 42)) as [lat s1].
    pose proof (uniform_length (qc (-124) 1) (qc (-67) 1) 700 s1) as H2.
    destruct (uniform (qc (-124) 1) (qc (-67) 1) 700 s1) as [lon s2].
    simpl in H1, H2.
    destruct use_mock; (rewrite week_frames_dates; [by rewrite H1 | congruence]). }
  rewrite date_range_week in Hdates.
  split; [exact Hdates|]. split; [|reflexivity].
  rewrite <- (length_map date), Hdates. reflexivity.
Qed.

(** *** The weekly trainer *)

Lemma fit_fitted `{LeastSquares} X y : ∃ coef b, fit X y = Fitted coef b.
Proof. unfold fit. destruct (lstsq X y) as [coef b]. eauto. Qed.

(** *** Rows with a complete lag history *)

Lemma zip_lags_complete (rest : list sample) (l1 l2 l3 : list number) :
  Forall numeric rest ->
  Forall (fun x => isnan x = false) l1 ->
  Forall (fun x => isnan x = false) l2 ->
  Forall (fun x => isnan x = false) l3 ->
  length l1 = length rest -> length l2 = length rest -> length l3 = length rest ->
  length (List.filter complete (zip_lags rest l1 l2 l3)) = length rest.
Proof.
  intros Hrest. revert l1 l2 l3.
  induction Hrest as [|r rest Hr _ IH]; intros l1 l2 l3 H1 H2 H3 E1 E2 E3; [done|].
  destruct H1 as [|a l1 Ha H1], H2 as [|b l2 Hb H2], H3 as [|c l3 Hc H3]; try done.
  simpl. unfold complete at 1. simpl. unfold numeric in Hr. rewrite Hr, Ha, Hb, Hc. simpl.
  f_equal. apply IH; auto; simpl in *; congruence.
Qed.

Lemma incomplete_without_lag3 r a b :
  complete {| row := r; lag1 := a; lag2 := b; lag3 := NaN |} = false.
Proof. unfold complete. simpl. by rewrite !orb_true_r. Qed.

(** Within one location whose AQI values are all numbers, the rows that
    survive [dropna] are all but the three earliest. *)
Lemma make_features_complete (g : list sample) :
  Forall numeric g ->
  length (List.filter complete (make_features g)) = (length g - 3)%nat.
Proof.
  intros Hg. unfold make_features.
  pose proof (merge_sort_Permutation date_le g) as Hperm.
  rewrite <- (Permutation_length Hperm).
  apply (Permutation_Forall (Permutation_sym Hperm)) in Hg.
  destruct Hg as [|r0 ? H0 [|r1 ? H1 [|r2 rest H2 Hrest]]]; try done.
  - simpl. by rewrite incomplete_without_lag3.
  - simpl. by rewrite !incomplete_without_lag3.
  - unfold shift. rewrite !length_map. simpl.
    rewrite !incomplete_without_lag3, Nat.sub_0_r.
    assert (Forall (fun x => isnan x = false) (map aqi rest)) as Ha.
    { apply Forall_fmap. eapply Forall_impl; [exact Hrest|done]. }
    apply zip_lags_complete; try done.
    + apply Forall_take. by constructor.
    + apply Forall_take. by repeat constructor.
    + apply Forall_take. by repeat constructor.
    + rewrite length_take. simpl. rewrite length_map. lia.
    + rewrite length_take. simpl. rewrite length_map. lia.
    + rewrite length_take. simpl. rewrite length_map. lia.
Qed.

(** *** What the lag columns hold *)

Lemma date_le_total : Total date_le.
Proof. intros a b. unfold date_le. lia. Qed.

Lemma shift_lookup (k : nat) (xs : list number) (i : nat) :
  (i < length xs)%nat ->
  shift k xs !! i
  = Some (if decide (k ≤ i)%nat then default NaN (xs !! (i - k)%nat) else NaN).
Proof.
  intros Hi. unfold shift. destruct (decide (k ≤ i)%nat) as [Hk|Hk].
  - rewrite lookup_app_r by (rewrite length_replicate; lia).
    rewrite length_replicate, Nat.min_l by lia.
    rewrite lookup_take_lt by lia.
    destruct (lookup_lt_is_Some_2 xs (i - k)%nat) as [x Hx]; [lia|]. by rewrite Hx.
  - rewrite lookup_app_l by (rewrite length_replicate; lia).
    apply lookup_replicate_2. lia.
Qed.

Lemma zip_lags_lookup (g : list sample) (l1 l2 l3 : list number) (i : nat) (x : lagged) :
  zip_lags g l1 l2 l3 !! i = Some x ->
  g !! i = Some (row x) ∧ l1 !! i = Some (lag1 x) ∧ l2 !! i = Some (lag2 x)
  ∧ l3 !! i = Some (lag3 x).
Proof.
  revert l1 l2 l3 i.
  induction g as [|r g IH]; intros [|a l1] [|b l2] [|c l3] i; simpl; try done.
  destruct i as [|i]; simpl; [by intros [= <-]|]. apply IH.
Qed.

(** The features of one location: its samples in date order, each with
    the AQI of the sample one, two and three places earlier, NaN where
    the series does not reach back that far. *)
Lemma make_features_lags (g : list sample) (i : nat) (x : lagged) :
  make_features g !! i = Some x ->
  merge_sort date_le g !! i = Some (row x)
  ∧ lag1 x = earlier (merge_sort date_le g) i 1
  ∧ lag2 x = earlier (merge_sort date_le g) i 2
  ∧ lag3 x = earlier (merge_sort date_le g) i 3
  ∧ Sorted date_le (merge_sort date_le g)
  ∧ merge_sort date_le g ≡ₚ g.
Proof.
  unfold make_features. generalize (merge_sort_Permutation date_le g).
  generalize (@Sorted_merge_sort _ date_le _ date_le_total g).
  generalize (merge_sort date_le g). intros s Hsorted Hperm Hx.
  apply zip_lags_lookup in Hx as (Hrow & H1 & H2 & H3).
  assert (i < length (map aqi s))%nat as Hi.
  { rewrite length_map. by eapply lookup_lt_Some. }
  rewrite shift_lookup in H1, H2, H3 by done.
  injection H1 as H1. injection H2 as H2. injection H3 as H3.
  unfold earlier. rewrite <- H1, <- H2, <- H3, !list_lookup_fmap.
  clear H1 H2 H3. repeat split; try done.
  all: destruct (decide _); [|done]; by destruct (s !! (i - _)%nat).
Qed.

(** *** The rows the regression is fitted to *)

Lemma lag_frame_rows (df : list sample) (r : lagged) :
  r ∈ lag_frame df ->
  complete r = true
  ∧ ∃ k j, k ∈ locations df ∧ make_features (group df k) !! j = Some r.
Proof.
  unfold lag_frame. intros Hr.
  apply list_elem_of_In, filter_In in Hr as [Hr Hc]. split; [exact Hc|].
  apply in_concat in Hr as (l & Hl & Hr).
  apply in_map_iff in Hl as (k & <- & Hk).
  apply list_elem_of_In, list_elem_of_lookup in Hr as [j Hj].
  exists k, j. split; [by apply list_elem_of_In|exact Hj].
Qed.

Lemma earlier_number (s : list sample) (i k : nat) (q : Qc) :
  earlier s i k = Num q -> (k ≤ i)%nat ∧ aqi <$> s !! (i - k)%nat = Some (Num q).
Proof.
  unfold earlier. destruct (decide (k ≤ i)%nat) as [Hk|Hk]; [|discriminate].
  destruct (s !! (i - k)%nat) as [x|]; simpl; [|discriminate].
  intros ->. by split.
Qed.

Lemma complete_numbers (r : lagged) :
  complete r = true ->
  ∃ l1 l2 l3 a, lag1 r = Num l1 ∧ lag2 r = Num l2 ∧ lag3 r = Num l3
                ∧ aqi (row r) = Num a.
Proof.
  unfold complete.
  destruct (aqi (row r)) as [|a], (lag1 r) as [|l1], (lag2 r) as [|l2],
    (lag3 r) as [|l3]; simpl; try discriminate.
  intros _. by exists l1, l2, l3, a.
Qed.

Lemma lag_frame_three_lags (df : list sample) (r : lagged) :
  r ∈ lag_frame df ->
  ∃ l1 l2 l3 a, lag1 r = Num l1 ∧ lag2 r = Num l2 ∧ lag3 r = Num l3
                ∧ aqi (row r) = Num a ∧ three_lags df r l1 l2 l3 a.
Proof.
  intros Hr. apply lag_frame_rows in Hr as (Hc & k & j & Hk & Hj).
  apply complete_numbers in Hc as (l1 & l2 & l3 & a & H1 & H2 & H3 & Ha).
  exists l1, l2, l3, a. repeat (split; [assumption|]).
  apply make_features_lags in Hj as (Hrow & E1 & E2 & E3 & Hsorted & Hperm).
  rewrite H1 in E1. rewrite H2 in E2. rewrite H3 in E3.
  symmetry in E1, E2, E3.
  apply earlier_number in E1 as [_ E1], E2 as [_ E2], E3 as [Hj3 E3].
  exists k, (merge_sort date_le (group df k)), (j - 3)%nat.
  replace (j - 3 + 3)%nat with j by lia.
  replace (j - 3 + 2)%nat with (j - 1)%nat by lia.
  replace (j - 3 + 1)%nat with (j - 2)%nat by lia.
  repeat split; assumption.
Qed.

(** C6: [train_weekly_predictor] returns the model it never fitted when
    it is given no frame, fewer than 100 rows, or rows of which fewer
    than 50 survive the lag construction.  Otherwise it returns the
    regression fitted to a matrix [X] and a vector [y] with one row for
    each surviving row of the lag frame: the row of [X] holds the AQI of
    the three samples before it at its location, the latest first, and
    the entry of [y] the AQI of the sample itself. *)
Theorem train_weekly_predictor_thresholds `{LeastSquares} (df_week : option (list sample)) :
  (df_week = None
   ∨ (∃ df, df_week = Some df
            ∧ ((length df < 100)%nat ∨ (length (lag_frame df) < 50)%nat)) ->
   train_weekly_predictor df_week = Unfitted)
  ∧ (∀ df, df_week = Some df -> (100 ≤ length df)%nat -> (50 ≤ length (lag_frame df))%nat ->
     ∃ X y,
       train_weekly_predictor df_week = fit X y
       ∧ length X = length (lag_frame df) ∧ length y = length (lag_frame df)
       ∧ (∀ i r, lag_frame df !! i = Some r ->
            ∃ l1 l2 l3 a,
              lag1 r = Num l1 ∧ lag2 r = Num l2 ∧ lag3 r = Num l3
              ∧ three_lags df r l1 l2 l3 a
              ∧ X !! i = Some [l1; l2; l3] ∧ y !! i = Some a)
       ∧ ∃ coef b, train_weekly_predictor df_week = Fitted coef b).
Proof.
  split.
  - intros [->|(df & -> & Hc)]; [done|]. unfold train_weekly_predictor.
    destruct (decide (length df < 100)%nat); [done|].
    destruct (decide (length (lag_frame df) < 50)%nat); [done|]. lia.
  - intros df -> H100 H50. unfold train_weekly_predictor.
    destruct (decide (length df < 100)%nat); [lia|].
    destruct (decide (length (lag_frame df) < 50)%nat); [lia|].
    exists (features (lag_frame df)), (target (lag_frame df)).
    split; [reflexivity|]. unfold features, target. rewrite !length_map.
    split; [reflexivity|]. split; [reflexivity|]. split; [|apply fit_fitted].
    intros i r Hi.
    destruct (lag_frame_three_lags df r) as (l1 & l2 & l3 & a & H1 & H2 & H3 & Ha & Hl).
    { by eapply list_elem_of_lookup_2. }
    exists l1, l2, l3, a. repeat (split; [assumption|]).
    rewrite !list_lookup_fmap, Hi. simpl. by rewrite H1, H2, H3, Ha.
Qed.

Lemma train_weekly_predictor_thresholds_witness :
  @train_weekly_predictor mean_solver (Some (Samples.stations 14 7)) = Unfitted
  ∧ length (Samples.stations 15 7) = 105%nat
  ∧ length (lag_frame (Samples.stations 15 7)) = 60%nat
  ∧ ∃ X y, @train_weekly_predictor mean_solver (Some (Samples.stations 15 7))
           = @fit mean_solver X y
           ∧ length X = 60%nat ∧ length y = 60%nat
           ∧ X !! 0%nat = Some [qc 42 1; qc 41 1; qc 40 1]
           ∧ y !! 0%nat = Some (qc 43 1)
           ∧ ∃ coef b, @train_weekly_predictor mean_solver (Some (Samples.stations 15 7))
                       = Fitted coef b.
Proof.
  split.
  { apply (proj1 (@train_weekly_predictor_thresholds mean_solver
                    (Some (Samples.stations 14 7)))).
    right. eexists. split; [reflexivity|]. left. apply Nat.ltb_lt. reflexivity. }
  split; [reflexivity|].
  assert (length (lag_frame (Samples.stations 15 7)) = 60%nat) as Hlen
    by (vm_compute; reflexivity).
  split; [exact Hlen|].
  destruct (proj2 (@train_weekly_predictor_thresholds mean_solver
                     (Some (Samples.stations 15 7))) _ eq_refl)
    as (X & y & Hfit & HX & Hy & Hrows & Hfitted).
  - apply Nat.leb_le. reflexivity.
  - rewrite Hlen. apply Nat.leb_le. reflexivity.
  - exists X, y.
    destruct (Hrows 0%nat
                {| row := Samples.station_row 3 0;
                   lag1 := Num (qc 42 1); lag2 := Num (qc 41 1); lag3 := Num (qc 40 1) |})
      as (l1 & l2 & l3 & a & H1 & H2 & H3 & (k & s & j & _ & _ & _ & _ & Ha & _) & HX0 & Hy0).
    { vm_compute. reflexivity. }
    cbn [lag1 lag2 lag3 row] in H1, H2, H3, Ha.
    injection H1 as <-. injection H2 as <-. injection H3 as <-.
    assert (a = qc 43 1) as -> by (vm_compute in Ha; injection Ha as <-; vm_compute; reflexivity).
    split; [exact Hfit|]. split; [by rewrite HX|]. split; [by rewrite Hy|].
    split; [exact HX0|]. split; [exact Hy0|exact Hfitted].
Defined.

End PredictAqiSpec.

(** ** The point fetcher *)

Module FetchAqiSpec.
Import FetchAqi Distinct.

(** *** Deduplication *)

Lemma drop_duplicates_from_spec seen df :
  NoDup (map key (drop_duplicates_from seen df))
  ∧ ∀ r, r ∈ drop_duplicates_from seen df -> key r ∉ seen.
Proof.
  revert seen. induction df as [|r df IH]; intros seen; simpl.
  { split; [constructor|]. intros r Hr. by apply elem_of_nil in Hr. }
  destruct (decide (key r ∈ seen)) as [Hin|Hin]; [apply IH|].
  destruct (IH (key r :: seen)) as [Hnd Hseen]. split.
  - simpl. constructor; [|done].
    intros Hk. apply list_elem_of_fmap in Hk as (r' & Hkey & Hr').
    apply Hseen in Hr'. apply Hr'. rewrite Hkey. left.
  - intros r' Hr'. apply elem_of_cons in Hr' as [->|Hr']; [done|].
    apply Hseen in Hr'. intros Hk. apply Hr'. by right.
Qed.

Lemma drop_duplicates_nodup df : NoDup (map key (drop_duplicates df)).
Proof. apply drop_duplicates_from_spec. Qed.

Lemma with_color_region_keys df :
  map key (map with_color_region df) = map key df.
Proof. rewrite <- list_fmap_compose. by apply list_fmap_ext. Qed.

(** *** The synthetic table *)

Lemma value_eqb_refl v : value_eqb v v = true.
Proof.
  destruct v as [|q|s]; simpl; [done| |apply String.eqb_refl].
  by rewrite Z.eqb_refl, Pos.eqb_refl.
Qed.

Lemma key_eqb_refl k : key_eqb k k = true.
Proof. unfold key_eqb. by rewrite !value_eqb_refl. Qed.

Lemma distinctb_nodup l : distinctb l = true -> NoDup l.
Proof.
  induction l as [|k l IH]; simpl; [constructor|].
  rewrite andb_true_iff, negb_true_iff. intros [Hk Hl].
  constructor; [|by apply IH].
  intros Hin. apply list_elem_of_In in Hin.
  assert (existsb (key_eqb k) l = true) as Hex; [|congruence].
  apply existsb_exists. exists k. split; [done|apply key_eqb_refl].
Qed.

(** The thousand rows come out within the loop bound, and no two of them
    share a key. *)
Lemma mock_table_checked :
  match _mock_aqi_data 1000 with
  | Ok df => Nat.eqb (length df) 1000 && distinctb (map key df)
  | _ => false
  end = true.
Proof. vm_compute. reflexivity. Qed.

Lemma mock_table :
  ∃ df, _mock_aqi_data 1000 = Ok df ∧ length df = 1000%nat ∧ NoDup (map key df).
Proof.
  pose proof mock_table_checked as Hc.
  destruct (_mock_aqi_data 1000) as [df| |]; try discriminate.
  apply andb_true_iff in Hc as [Hlen Hd].
  exists df. split; [done|]. split; [by apply Nat.eqb_eq | by apply distinctb_nodup].
Qed.

(** *** The table [load_aqi_data] returns *)

(** C7: a table that [load_aqi_data] returns, fetched or synthetic, has
    no two rows with the same (latitude, longitude, parameter). *)
Theorem load_aqi_data_no_duplicates (use_mock : bool) (net : Qc * Qc -> http)
    (completion : list (Qc * Qc)) (df : list obs) :
  load_aqi_data use_mock net completion = Ok df -> NoDup (map key df).
Proof.
  destruct mock_table as (mock & Hmock & _ & Hnd).
  unfold load_aqi_data. rewrite Hmock.
  destruct use_mock; [by intros [= <-]|].
  destruct (_ || _); [by intros [= <-]|].
  destruct (decide (omap normalize (all_data net completion) = [])); [done|].
  intros [= <-]. rewrite with_color_region_keys. apply drop_duplicates_nodup.
Qed.

Lemma load_aqi_data_no_duplicates_witness :
  ∃ df, load_aqi_data false Samples.seattle_only COORDS = Ok df
        ∧ length df = 9%nat ∧ NoDup (map key df).
Proof.
  eexists. split; [vm_compute; reflexivity|]. split; [vm_compute; reflexivity|].
  apply (load_aqi_data_no_duplicates false Samples.seattle_only COORDS).
  vm_compute. reflexivity.
Defined.

(** C1 as stated fails: ten records came back, nine of them usable (one
    has no AQI), and the nine are returned, not the synthetic table. *)
Lemma load_aqi_data_counts_raw_records :
  length (all_data Samples.seattle_only COORDS) = 10%nat
  ∧ length (dropna (omap normalize (all_data Samples.seattle_only COORDS))) = 9%nat
  ∧ (∃ df, load_aqi_data false Samples.seattle_only COORDS = Ok df ∧ length df = 9%nat)
  ∧ load_aqi_data false Samples.seattle_only COORDS ≠ _mock_aqi_data 1000.
Proof.
  split; [vm_compute; reflexivity|]. split; [vm_compute; reflexivity|].
  assert (∃ df, load_aqi_data false Samples.seattle_only COORDS = Ok df
                ∧ length df = 9%nat) as (df & Hdf & Hlen).
  { eexists. split; vm_compute; reflexivity. }
  split; [exists df; split; assumption|].
  destruct mock_table as (mock & Hmock & Hlen' & _).
  intros Heq.
  pose proof (eq_trans (eq_sym Hdf) (eq_trans Heq Hmock)) as Hsame.
  injection Hsame as ->.
  rewrite Hlen in Hlen'. vm_compute in Hlen'. discriminate Hlen'.
Qed.

(** C1, amended: when fewer than ten raw records were fetched in all, the
    fetched records are discarded and the synthetic table of seed 42 is
    returned, 1000 rows, the same table in any two such runs. *)
Theorem load_aqi_data_fallback (net net' : Qc * Qc -> http)
    (completion completion' : list (Qc * Qc)) :
  (length (all_data net completion) < 10)%nat ->
  (length (all_data net' completion') < 10)%nat ->
  ∃ df, load_aqi_data false net completion = Ok df
        ∧ load_aqi_data false net' completion' = Ok df
        ∧ _mock_aqi_data 1000 = Ok df
        ∧ length df = 1000%nat.
Proof.
  intros H1 H2. destruct mock_table as (mock & Hmock & Hlen & _).
  exists mock. unfold load_aqi_data. rewrite Hmock.
  rewrite !(bool_decide_eq_true_2 (length _ < 10)%nat), !orb_true_r by assumption.
  repeat split; assumption || reflexivity.
Qed.

Lemma load_aqi_data_fallback_witness :
  ∃ df, load_aqi_data false Samples.all_timed_out COORDS = Ok df
        ∧ load_aqi_data false Samples.all_unavailable (reverse COORDS) = Ok df
        ∧ _mock_aqi_data 1000 = Ok df
        ∧ length df = 1000%nat.
Proof.
  apply (load_aqi_data_fallback Samples.all_timed_out Samples.all_unavailable
           COORDS (reverse COORDS)); apply Nat.ltb_lt; vm_compute; reflexivity.
Defined.

(** A request that fails, or is answered with anything but 200, or with
    an empty or unreadable body, contributes no record. *)
Lemma all_failed_no_data (net : Qc * Qc -> http) (completion : list (Qc * Qc)) :
  (∀ c, _fetch_point (net c) = []) -> all_data net completion = [].
Proof.
  intros Hnet. unfold all_data.
  induction completion as [|c cs IH]; simpl; [done|]. by rewrite Hnet, IH.
Qed.

End FetchAqiSpec.

(** ** The map renderer *)

Module MapBuilderSpec.
Import MapBuilder.

Lemma absent_present df : absent df -> present df = None.
Proof. by intros [-> | ->]. Qed.

Lemma present_Some df l : present df = Some l -> df = Some l ∧ l ≠ [].
Proof. destruct df as [[|r rest]|]; simpl; intros [= <-]; done. Qed.

(** *** What each layer step can produce *)

Lemma aqi_layer_names df s l n :
  aqi_layer df s = Ok l -> n ∈ map name l -> n = AQI_LAYER.
Proof.
  unfold aqi_layer. destruct (present df) as [rows|]; [|by intros [= <-] ?%elem_of_nil].
  destruct (bool_decide _); [|by intros [= <-] ?%elem_of_nil].
  destruct (mapM aqi_marker rows) as [ms| |]; simpl; try done.
  intros [= <-]. simpl. by intros ->%list_elem_of_singleton.
Qed.

Lemma pred_layer_names df s l n :
  pred_layer df s = Ok l -> n ∈ map name l -> n = PRED_LAYER.
Proof.
  unfold pred_layer. destruct (present df) as [rows|]; [|by intros [= <-] ?%elem_of_nil].
  destruct (bool_decide _); [|by intros [= <-] ?%elem_of_nil].
  destruct (mapM pred_marker rows) as [ms| |]; simpl; try done.
  intros [= <-]. simpl. by intros ->%list_elem_of_singleton.
Qed.

Lemma aod_layer_cases df l :
  aod_layer df = Ok l ->
  (present df = None ∧ l = [])
  ∨ (∃ rows h, present df = Some rows ∧ length (data h) = length rows
               ∧ l = [{| name := AOD_LAYER; children := [HeatMap h] |}]).
Proof.
  unfold aod_layer. destruct (present df) as [rows|]; [|intros [= <-]; by left].
  destruct (mapM heat_line rows) as [hd| |] eqn:Hhd; simpl; try done.
  destruct (mapM validate_line hd) as [d| |] eqn:Hd; simpl; try done.
  intros [= <-]. right. eexists rows, _. split; [done|]. split; [|done]. simpl.
  assert (∀ {A B} (f : A -> outcome B) xs ys, mapM f xs = Ok ys -> length ys = length xs)
    as Hlen.
  { intros A B f xs. induction xs as [|x xs IH]; intros ys; simpl.
    - by intros [= <-].
    - destruct (f x) as [y| |]; simpl; try done.
      destruct (mapM f xs) as [ys'| |]; simpl; try done.
      intros [= <-]. simpl. f_equal. by apply IH. }
  rewrite (Hlen _ _ _ _ _ Hd). by apply Hlen in Hhd.
Qed.

Lemma make_map_layers a d p s m :
  make_map a d p s = Ok m ->
  ∃ l1 l2 l3, aqi_layer a s = Ok l1 ∧ aod_layer d = Ok l2 ∧ pred_layer p s = Ok l3
              ∧ layers m = (l1 ++ l2 ++ l3)%list.
Proof.
  unfold make_map.
  destruct (aqi_layer a s) as [l1| |]; simpl; try done.
  destruct (aod_layer d) as [l2| |]; simpl; try done.
  destruct (pred_layer p s) as [l3| |]; simpl; try done.
  intros [= <-]. by exists l1, l2, l3.
Qed.

(** *** Absent and empty inputs *)

Lemma heat_line_record (r : row) y x a :
  r !! "latitude" = Some (VNum y) -> r !! "longitude" = Some (VNum x) ->
  r !! "aod" = Some (VNum a) ->
  heat_line r = Ok (VNum y, VNum x, VNum a).
Proof. intros Hy Hx Ha. unfold heat_line, item. by rewrite Hy, Hx, Ha. Qed.

Lemma aod_records_heat (rows : list row) :
  Forall aod_record rows ->
  ∃ hd d, mapM heat_line rows = Ok hd ∧ mapM validate_line hd = Ok d
          ∧ length d = length rows.
Proof.
  induction 1 as [|r rows (y & x & a & Hy & Hx & Ha) _ (hd & d & Hhd & Hd & Hlen)].
  { by exists [], []. }
  exists ((VNum y, VNum x, VNum a) :: hd), ((y, x, a) :: d).
  split; [|split]; simpl.
  - by rewrite (heat_line_record r y x a Hy Hx Ha), Hhd.
  - by rewrite Hd.
  - by rewrite Hlen.
Qed.

Lemma aod_layer_records (rows : list row) :
  rows ≠ [] -> Forall aod_record rows ->
  ∃ h, aod_layer (Some rows) = Ok [{| name := AOD_LAYER; children := [HeatMap h] |}]
       ∧ length (data h) = length rows.
Proof.
  intros Hne (hd & d & Hhd & Hd & Hlen)%aod_records_heat.
  unfold aod_layer. destruct rows as [|r rest]; [done|]. simpl present. cbv iota.
  rewrite Hhd. simpl. rewrite Hd. simpl. eexists. split; [reflexivity|]. done.
Qed.

Lemma absent_layers a d p s :
  (absent a -> aqi_layer a s = Ok [])
  ∧ (absent d -> aod_layer d = Ok [])
  ∧ (absent p -> pred_layer p s = Ok []).
Proof.
  unfold aqi_layer, aod_layer, pred_layer.
  repeat split; intros ->%absent_present; done.
Qed.

(** C9: with no observations and no predictions, five aerosol records
    give a map with exactly one data layer, the aerosol heat map over the
    five points.  In general the step of an input that is [None] or empty
    adds no layer and raises nothing: the returned map has no layer of
    that name, and with all three inputs absent the bare map is
    returned. *)
Theorem make_map_absent_inputs :
  (∀ (df_aod : list row) (show_pred : string),
     length df_aod = 5%nat -> Forall aod_record df_aod ->
     ∃ m h, make_map None (Some df_aod) None show_pred = Ok m
            ∧ layers m = [{| name := AOD_LAYER; children := [HeatMap h] |}]
            ∧ length (data h) = 5%nat)
  ∧ (∀ a d p s,
       (absent a -> aqi_layer a s = Ok [])
       ∧ (absent d -> aod_layer d = Ok [])
       ∧ (absent p -> pred_layer p s = Ok []))
  ∧ (∀ a d p s m, make_map a d p s = Ok m ->
       (absent a -> has_layer AQI_LAYER m = false)
       ∧ (absent d -> has_layer AOD_LAYER m = false)
       ∧ (absent p -> has_layer PRED_LAYER m = false))
  ∧ (∀ a d p s, absent a -> absent d -> absent p -> make_map a d p s = Ok bare_map).
Proof.
  split; [|split; [|split]].
  - intros df_aod s Hlen Hrec.
    destruct (aod_layer_records df_aod) as (h & Hl & Hdata); [by intros ->|done|].
    unfold make_map. rewrite Hl. simpl.
    eexists _, h. split; [reflexivity|]. split; [reflexivity|]. congruence.
  - apply absent_layers.
  - intros a d p s m (l1 & l2 & l3 & H1 & H2 & H3 & Hl)%make_map_layers.
    unfold has_layer. rewrite Hl, !map_app.
    repeat split; intros Habs; apply bool_decide_eq_false;
      rewrite !elem_of_app; intros [Hin|[Hin|Hin]].
    all: try (apply (aqi_layer_names _ _ _ _ H1) in Hin; done).
    all: try (apply (pred_layer_names _ _ _ _ H3) in Hin; done).
    all: try (apply aod_layer_cases in H2 as [[_ ->]|(rows & h & _ & _ & ->)];
              [by apply elem_of_nil in Hin|by apply list_elem_of_singleton in Hin]).
    + destruct (absent_layers a d p s) as (Ha & _ & _).
      rewrite (Ha Habs) in H1. injection H1 as <-. by apply elem_of_nil in Hin.
    + destruct (absent_layers a d p s) as (_ & Hd & _).
      rewrite (Hd Habs) in H2. injection H2 as <-. by apply elem_of_nil in Hin.
    + destruct (absent_layers a d p s) as (_ & _ & Hp).
      rewrite (Hp Habs) in H3. injection H3 as <-. by apply elem_of_nil in Hin.
  - intros a d p s Ha Hd Hp. unfold make_map.
    destruct (absent_layers a d p s) as (-> & -> & ->); done.
Qed.

Lemma make_map_absent_inputs_witness :
  ∃ m h, make_map None (Some Samples.five_aod) None "both" = Ok m
         ∧ layers m = [{| name := AOD_LAYER; children := [HeatMap h] |}]
         ∧ length (data h) = 5%nat.
Proof.
  apply (proj1 make_map_absent_inputs Samples.five_aod "both"); [reflexivity|].
  repeat constructor; unfold aod_record; eexists _, _, _;
    repeat split; vm_compute; reflexivity.
Defined.

(** *** The selector and the aerosol layer *)

Lemma has_aod_layer_iff a d p s m :
  make_map a d p s = Ok m ->
  has_layer AOD_LAYER m = true ↔ ∃ r rest, d = Some (r :: rest).
Proof.
  intros (l1 & l2 & l3 & H1 & H2 & H3 & Hl)%make_map_layers.
  unfold has_layer. rewrite bool_decide_eq_true, Hl, !map_app, !elem_of_app.
  apply aod_layer_cases in H2 as [[Hd ->]|(rows & h & Hd & _ & ->)].
  - split.
    + intros [Hin|[Hin|Hin]].
      * by apply (aqi_layer_names _ _ _ _ H1) in Hin.
      * by apply elem_of_nil in Hin.
      * by apply (pred_layer_names _ _ _ _ H3) in Hin.
    + intros (r & rest & ->). done.
  - split.
    + intros _. apply present_Some in Hd as [-> Hne].
      destruct rows as [|r rest]; [done|]. by exists r, rest.
    + intros _. right. left. simpl. apply list_elem_of_singleton. reflexivity.
Qed.

Lemma selector_gates_markers a d p s m :
  make_map a d p s = Ok m ->
  (s ∉ ["both"; "current"] -> has_layer AQI_LAYER m = false)
  ∧ (s ∉ ["both"; "predicted"] -> has_layer PRED_LAYER m = false).
Proof.
  intros (l1 & l2 & l3 & H1 & H2 & H3 & Hl)%make_map_layers.
  unfold has_layer. rewrite Hl, !map_app.
  split; intros Hs; apply bool_decide_eq_false; rewrite !elem_of_app;
    intros [Hin|[Hin|Hin]].
  all: try (apply (aqi_layer_names _ _ _ _ H1) in Hin; done).
  all: try (apply (pred_layer_names _ _ _ _ H3) in Hin; done).
  all: try (apply aod_layer_cases in H2 as [[_ ->]|(rows & h & _ & _ & ->)];
            [by apply elem_of_nil in Hin|by apply list_elem_of_singleton in Hin]).
  - unfold aqi_layer in H1. destruct (present a); [|injection H1 as <-; by apply elem_of_nil in Hin].
    rewrite bool_decide_eq_false_2 in H1 by done.
    injection H1 as <-. by apply elem_of_nil in Hin.
  - unfold pred_layer in H3. destruct (present p); [|injection H3 as <-; by apply elem_of_nil in Hin].
    rewrite bool_decide_eq_false_2 in H3 by done.
    injection H3 as <-. by apply elem_of_nil in Hin.
Qed.

(** C10: for fixed tables, the maps built under any two values of
    [show_pred] both carry the aerosol layer or both lack it, and they
    carry it exactly when [df_aod] has a row.  The selector only takes
    away marker layers: the observations unless it is 'both' or
    'current', the predictions unless it is 'both' or 'predicted'. *)
Theorem aod_layer_independent_of_selector
    (df_aqi df_aod df_pred : option (list row)) (s1 s2 : string) (m1 m2 : map_doc) :
  make_map df_aqi df_aod df_pred s1 = Ok m1 ->
  make_map df_aqi df_aod df_pred s2 = Ok m2 ->
  has_layer AOD_LAYER m1 = has_layer AOD_LAYER m2
  ∧ (has_layer AOD_LAYER m1 = true ↔ ∃ r rest, df_aod = Some (r :: rest))
  ∧ (s1 ∉ ["both"; "current"] -> has_layer AQI_LAYER m1 = false)
  ∧ (s1 ∉ ["both"; "predicted"] -> has_layer PRED_LAYER m1 = false).
Proof.
  intros Hm1 Hm2.
  pose proof (has_aod_layer_iff _ _ _ _ _ Hm1) as Hiff1.
  pose proof (has_aod_layer_iff _ _ _ _ _ Hm2) as Hiff2.
  split; [|split; [exact Hiff1|exact (selector_gates_markers _ df_aod _ _ _ Hm1)]].
  clear Hm1 Hm2.
  destruct Hiff1 as [Hfwd1 Hback1], Hiff2 as [Hfwd2 Hback2].
  destruct (has_layer AOD_LAYER m1), (has_layer AOD_LAYER m2); try done.
  - exact (eq_sym (Hback2 (Hfwd1 eq_refl))).
  - exact (Hback1 (Hfwd2 eq_refl)).
Qed.

Lemma aod_layer_independent_of_selector_witness :
  ∃ m1 m2,
    make_map (Some [Samples.aqi_point 1; Samples.aqi_point 3]) (Some Samples.five_aod)
             (Some [Samples.pred_point 2]) "current" = Ok m1
    ∧ make_map (Some [Samples.aqi_point 1; Samples.aqi_point 3]) (Some Samples.five_aod)
               (Some [Samples.pred_point 2]) "predicted" = Ok m2
    ∧ map name (layers m1) = [AQI_LAYER; AOD_LAYER]
    ∧ map name (layers m2) = [AOD_LAYER; PRED_LAYER]
    ∧ has_layer AOD_LAYER m1 = has_layer AOD_LAYER m2.
Proof.
  eexists _, _. split; [vm_compute; reflexivity|].
  split; [vm_compute; reflexivity|].
  split; [vm_compute; reflexivity|]. split; [vm_compute; reflexivity|].
  refine (proj1 (aod_layer_independent_of_selector
                   (Some [Samples.aqi_point 1; Samples.aqi_point 3])
                   (Some Samples.five_aod) (Some [Samples.pred_point 2])
                   "current" "predicted" _ _ _ _));
    vm_compute; reflexivity.
Defined.

End MapBuilderSpec.

(** ** The orchestrator *)

Module MainSpec.
Import Main.

(** The module cannot be loaded as it stands: [map_builder] defines
    [make_map], and [build_map] is what main.py asks it for. *)
Lemma imports_fail : imports = Raise (ImportError "build_map").
Proof. reflexivity. Qed.

(** C2: the program does not get as far as the claim.  The import on
    line 8 of main.py asks [map_builder] for [build_map], which it does
    not define, and raises ImportError: [main()] is never called, no
    stage runs, nothing is caught, logged or printed, and the process
    exits 1, whatever the stages would have done and also when none of
    them would have failed. *)
Theorem program_import_error {DF MODEL : Type} (st : stages DF MODEL)
    (force_refresh : bool) :
  result (program st force_refresh) = Raise (ImportError "build_map")
  ∧ trace (program st force_refresh) = []
  ∧ (∀ s, ¬ called s (program st force_refresh))
  ∧ exit_status (result (program st force_refresh)) = Some 1.
Proof.
  assert (program st force_refresh = IO [] (Raise (ImportError "build_map"))) as ->.
  { unfold program. rewrite imports_fail. reflexivity. }
  unfold called. cbn [result trace exit_status].
  repeat split. intros s Hs. by apply elem_of_nil in Hs.
Qed.

(** *** The body of [main]

    What follows is about the body of [main] alone, run against stage
    functions bound to the names it calls. *)

(** Not every stage is contained.  An exception raised by the historical
    fetch is not caught: the body ends with it, and no later stage is
    called.  And when training raises, the prediction stage is not
    called. *)
Lemma main_not_every_stage_contained :
  (result (main Samples.fetch_raises false) = Raise (OtherError "connection reset")
   ∧ trace (main Samples.fetch_raises false)
     = [Print "🌎 Loading data..."; Call FetchPastWeek]
   ∧ exit_status (result (main Samples.fetch_raises false)) = Some 1)
  ∧ (result (main Samples.training_raises false) = Ok ()
     ∧ ¬ called PredictTomorrow (main Samples.training_raises false)
     ∧ called BuildMap (main Samples.training_raises false)).
Proof.
  split; [by vm_compute|].
  split; [by vm_compute|]. unfold called.
  split.
  - apply (bool_decide_unpack
             (Call PredictTomorrow ∉ trace (main Samples.training_raises false))).
    vm_compute. exact I.
  - apply (bool_decide_unpack
             (Call BuildMap ∈ trace (main Samples.training_raises false))).
    vm_compute. exact I.
Qed.

(** An event is in an explicit trace; an event is not. *)
Ltac in_trace :=
  repeat first [apply list_elem_of_here | apply list_elem_of_further].
Ltac not_in_trace H :=
  repeat (apply elem_of_cons in H as [H|H]; [discriminate H|]);
  by apply elem_of_nil in H.

(** An exception raised by the historical fetch is not caught: the run
    ends with it, before any other stage is called. *)
Lemma main_fetch_exception_propagates {DF MODEL : Type} (st : stages DF MODEL)
    (force_refresh : bool) (e : exn) :
  fetch_past_week_data st force_refresh = Raise e ->
  result (main st force_refresh) = Raise e
  ∧ ∀ s, called s (main st force_refresh) -> s = FetchPastWeek.
Proof.
  intros He. unfold called, main. simpl. rewrite He. simpl. split; [done|].
  intros s Hs. apply elem_of_cons in Hs as [?|Hs]; [done|].
  apply list_elem_of_singleton in Hs. congruence.
Qed.

(** When the historical fetch returns a non-empty table (and the
    stages terminate), the body of [main] returns without raising; the
    aerosol load, the training and the map build are always
    called; a failure of the aerosol load, of the training or of the
    prediction is logged and its result is None; the prediction is called
    exactly when training returned a model; and the run closes with the
    success line when the map was built, with the warning when building
    it raised. *)
Theorem main_contains_later_stage_failures {DF MODEL : Type} (st : stages DF MODEL)
    (force_refresh : bool) (df : DF) :
  fetch_past_week_data st force_refresh = Ok (Some df) ->
  len st df ≠ 0%nat ->
  load_aod_data st ≠ Timeout ->
  train_predictor st (Some df) ≠ Timeout ->
  (∀ m, predict_tomorrow st m (Some df) ≠ Timeout) ->
  (∀ a p, build_map st (Some df) a p ≠ Timeout) ->
  result (main st force_refresh) = Ok ()
  ∧ exit_status (result (main st force_refresh)) = Some 0
  ∧ called LoadAod (main st force_refresh)
  ∧ called TrainPredictor (main st force_refresh)
  ∧ called BuildMap (main st force_refresh)
  ∧ (called PredictTomorrow (main st force_refresh)
     ↔ ∃ m, train_predictor st (Some df) = Ok (Some m))
  ∧ (∀ e, load_aod_data st = Raise e ->
       PrintExn "⚠️ Failed to load AOD data: " e ∈ trace (main st force_refresh))
  ∧ (∀ e, train_predictor st (Some df) = Raise e ->
       PrintExn "⚠️ Model training failed: " e ∈ trace (main st force_refresh))
  ∧ (∀ m e, train_predictor st (Some df) = Ok (Some m) ->
       predict_tomorrow st m (Some df) = Raise e ->
       PrintExn "⚠️ Prediction failed: " e ∈ trace (main st force_refresh))
  ∧ last (trace (main st force_refresh))
    = Some (closing_line (build_map st (Some df) (recovered (load_aod_data st))
                            (predictions_for st (Some df)))).
Proof.
  intros He Hne Haod Htrain Hpred Hmap.
  unfold called, predictions_for, main, none_or_empty. simpl. rewrite He. simpl.
  rewrite bool_decide_eq_false_2 by done. simpl.
  destruct (load_aod_data st) as [aod|ea|] eqn:Ea; [| |done]; simpl;
    (destruct (train_predictor st (Some df)) as [[m|]|et|] eqn:Et; [| | |done]); simpl;
    try (destruct (predict_tomorrow st m (Some df)) as [pr|ep|] eqn:Ep;
         [| |by destruct (Hpred m)]; simpl);
    match goal with
    | |- context [build_map st ?a ?b ?c] =>
        destruct (build_map st a b c) as [u|eb|] eqn:Eb; [| |by destruct (Hmap b c)]
    end; simpl.
  all: repeat split; try done; intros.
  all: repeat match goal with H : ∃ _, _ |- _ => destruct H end; simplify_eq.
  all: try match goal with
           | H1 : ?o = _, H2 : ?o = _ |- _ => rewrite H1 in H2; simplify_eq
           end.
  all: try (in_trace; fail).
  all: try (eexists; reflexivity).
  all: match goal with H : _ ∈ _ |- _ => not_in_trace H end.
Qed.

Lemma main_contains_later_stage_failures_witness :
  result (main Samples.aod_and_map_raise true) = Ok ()
  ∧ exit_status (result (main Samples.aod_and_map_raise true)) = Some 0
  ∧ called PredictTomorrow (main Samples.aod_and_map_raise true)
  ∧ PrintExn "⚠️ Failed to load AOD data: " (OtherError "no netrc")
    ∈ trace (main Samples.aod_and_map_raise true)
  ∧ last (trace (main Samples.aod_and_map_raise true))
    = Some (PrintExn "⚠️ Map generation failed: " (KeyError "aqi")).
Proof.
  destruct (main_contains_later_stage_failures Samples.aod_and_map_raise true
              5600%nat eq_refl)
    as (Hres & Hexit & _ & _ & _ & Hpred & Haod & _ & _ & Hlast);
    try (simpl; discriminate).
  split; [exact Hres|]. split; [exact Hexit|].
  split; [apply Hpred; by exists ()|].
  split; [by apply Haod|exact Hlast].
Defined.

End MainSpec.

(** * Further properties *)

(** ** The map renderer, layer by layer *)

Module MapBuilderMore.
Import MapBuilder MapBuilderSpec.

(** Order facts about the bucket bounds, by linear arithmetic on the
    underlying rationals. *)
Ltac qc_consts :=
  repeat match goal with
         | |- context [Qred ?x] =>
             let y := eval vm_compute in (Qred x) in change (Qred x) with y
         | H : context [Qred ?x] |- _ =>
             let y := eval vm_compute in (Qred x) in change (Qred x) with y in H
         end.
Ltac qc_order :=
  unfold Qcle, Qclt in *; simpl in *; qc_consts; lra.

(** *** The palette *)

(** A number is coloured by the bucket whose interval holds it, upper
    bounds included. *)
Theorem get_aqi_color_buckets (q : Qc) :
  ∃ c, get_aqi_color (VNum q) = Ok c
    ∧ (c = "green" ↔ (q ≤ qc 50 1)%Qc)
    ∧ (c = "yellow" ↔ (qc 50 1 < q)%Qc ∧ (q ≤ qc 100 1)%Qc)
    ∧ (c = "orange" ↔ (qc 100 1 < q)%Qc ∧ (q ≤ qc 150 1)%Qc)
    ∧ (c = "red" ↔ (qc 150 1 < q)%Qc ∧ (q ≤ qc 200 1)%Qc)
    ∧ (c = "purple" ↔ (qc 200 1 < q)%Qc ∧ (q ≤ qc 300 1)%Qc)
    ∧ (c = "maroon" ↔ (qc 300 1 < q)%Qc).
Proof.
  unfold get_aqi_color. eexists. split; [reflexivity|].
  repeat destruct (decide _) as [?|?%Qcnot_le_lt];
    repeat split; intros; repeat split;
    first [assumption | discriminate | reflexivity
          | destruct_and?; qc_order | exfalso; destruct_and?; qc_order].
Qed.

(** *** Layers, markers and heat points *)

Lemma mapM_Ok_Forall2 {A B} (f : A -> outcome B) (xs : list A) (ys : list B) :
  mapM f xs = Ok ys -> Forall2 (fun x y => f x = Ok y) xs ys.
Proof.
  revert ys. induction xs as [|x xs IH]; intros ys; simpl.
  { intros [= <-]. constructor. }
  destruct (f x) as [y| |] eqn:Ey; simpl; try done.
  destruct (mapM f xs) as [ys'| |]; simpl; try done.
  intros [= <-]. constructor; [done|by apply IH].
Qed.

Lemma aqi_marker_Ok (r : row) (e : element) :
  aqi_marker r = Ok e -> observation_marker r e.
Proof.
  unfold aqi_marker, item, get, validate_number, format_2f, observation_marker.
  intros He.
  destruct (r !! "aqi") as [a|]; cbn -[get_aqi_color] in He;
    destruct (get_aqi_color _) as [c| |] eqn:Ec; cbn -[get_aqi_color] in He; try done;
    destruct (r !! "latitude") as [[|y|?]|]; cbn in He; try done;
    destruct (r !! "longitude") as [[|x|?]|]; cbn in He; try done.
  injection He as <-. by eexists _, y, x, a.
Qed.

Lemma pred_marker_Ok (r : row) (e : element) :
  pred_marker r = Ok e -> prediction_marker r e.
Proof.
  unfold pred_marker, item, get, validate_number, prediction_marker. intros He.
  destruct (r !! "aqi_pred") as [a|]; cbn -[get_aqi_color] in He;
    destruct (get_aqi_color _) as [c| |] eqn:Ec; cbn -[get_aqi_color] in He; try done;
    destruct (r !! "latitude") as [[|y|?]|]; cbn in He; try done;
    destruct (r !! "longitude") as [[|x|?]|]; cbn in He; try done.
  injection He as <-. by eexists _, y, x, a.
Qed.

Lemma heat_line_Ok (r : row) (l : value * value * value) (t : Qc * Qc * Qc) :
  heat_line r = Ok l -> validate_line l = Ok t -> heat_point r t.
Proof.
  unfold heat_line, validate_line, item, validate_number, heat_point.
  destruct (r !! "latitude") as [vy|]; simpl; try done.
  destruct (r !! "longitude") as [vx|]; simpl; try done.
  destruct (r !! "aod") as [va|]; simpl; try done.
  intros [= <-]. simpl.
  destruct vy as [|y|?], vx as [|x|?], va as [|a|?]; simpl; try done.
  by intros [= <-].
Qed.

(** The layers come in a fixed order, each at most once: observations,
    aerosol, predictions. *)
Theorem make_map_layer_order (df_aqi df_aod df_pred : option (list row))
    (show_pred : string) (m : map_doc) :
  make_map df_aqi df_aod df_pred show_pred = Ok m ->
  sublist (map name (layers m)) [AQI_LAYER; AOD_LAYER; PRED_LAYER].
Proof.
  intros (l1 & l2 & l3 & H1 & H2 & H3 & ->)%make_map_layers.
  rewrite !map_app.
  apply (sublist_app _ [AQI_LAYER]); [|apply (sublist_app _ [AOD_LAYER] _ [PRED_LAYER])].
  - unfold aqi_layer in H1.
    destruct (present df_aqi); [|injection H1 as <-; apply sublist_nil_l].
    destruct (bool_decide _); [|injection H1 as <-; apply sublist_nil_l].
    destruct (mapM _ _); simpl in H1; try done. by injection H1 as <-.
  - apply aod_layer_cases in H2 as [[_ ->]|(? & ? & _ & _ & ->)]; [|done].
    apply sublist_nil_l.
  - unfold pred_layer in H3.
    destruct (present df_pred); [|injection H3 as <-; apply sublist_nil_l].
    destruct (bool_decide _); [|injection H3 as <-; apply sublist_nil_l].
    destruct (mapM _ _); simpl in H3; try done. by injection H3 as <-.
Qed.

Lemma make_map_layer_order_witness :
  ∃ m, make_map (Some [Samples.aqi_point 1]) None (Some [Samples.pred_point 2]) "both"
       = Ok m
       ∧ map name (layers m) = [AQI_LAYER; PRED_LAYER]
       ∧ sublist (map name (layers m)) [AQI_LAYER; AOD_LAYER; PRED_LAYER].
Proof.
  eexists. split; [vm_compute; reflexivity|]. split; [vm_compute; reflexivity|].
  apply (make_map_layer_order (Some [Samples.aqi_point 1]) None
           (Some [Samples.pred_point 2]) "both").
  vm_compute. reflexivity.
Defined.

Lemma heat_points (rows : list row) (hd : list (value * value * value))
    (d : list (Qc * Qc * Qc)) :
  mapM heat_line rows = Ok hd -> mapM validate_line hd = Ok d ->
  Forall2 heat_point rows d.
Proof.
  intros H1%mapM_Ok_Forall2 H2%mapM_Ok_Forall2. revert d H2.
  induction H1 as [|r l rows hd Hr _ IH]; intros d H2; inversion H2; subst;
    constructor; eauto using heat_line_Ok.
Qed.

(** Each circle of a marker layer is drawn for one row of its table, in
    row order, at the row's coordinates and in the colour of its AQI
    bucket; a table that is present and selected does get its layer. *)
Theorem make_map_markers (df_aqi df_aod df_pred : option (list row))
    (show_pred : string) (m : map_doc) :
  make_map df_aqi df_aod df_pred show_pred = Ok m ->
  (∀ ms, {| name := AQI_LAYER; children := ms |} ∈ layers m ->
     ∃ rows, df_aqi = Some rows ∧ Forall2 observation_marker rows ms)
  ∧ (∀ ms, {| name := PRED_LAYER; children := ms |} ∈ layers m ->
       ∃ rows, df_pred = Some rows ∧ Forall2 prediction_marker rows ms)
  ∧ (∀ rows, present df_aqi = Some rows -> show_pred ∈ ["both"; "current"] ->
       ∃ ms, {| name := AQI_LAYER; children := ms |} ∈ layers m)
  ∧ (∀ rows, present df_pred = Some rows -> show_pred ∈ ["both"; "predicted"] ->
       ∃ ms, {| name := PRED_LAYER; children := ms |} ∈ layers m).
Proof.
  intros (l1 & l2 & l3 & H1 & H2 & H3 & Hl)%make_map_layers. rewrite Hl.
  assert (∀ g, g ∈ l2 -> name g = AOD_LAYER) as Hl2.
  { intros g Hg. apply aod_layer_cases in H2 as [[_ ->]|(? & ? & _ & _ & ->)].
    - by apply elem_of_nil in Hg.
    - by apply list_elem_of_singleton in Hg as ->. }
  assert (∀ g, g ∈ l1 -> name g = AQI_LAYER) as Hl1.
  { intros g Hg. apply (aqi_layer_names _ _ _ _ H1), list_elem_of_fmap. eauto. }
  assert (∀ g, g ∈ l3 -> name g = PRED_LAYER) as Hl3.
  { intros g Hg. apply (pred_layer_names _ _ _ _ H3), list_elem_of_fmap. eauto. }
  unfold aqi_layer in H1. unfold pred_layer in H3.
  repeat split.
  - intros ms. rewrite !elem_of_app. intros [Hin|[Hin%Hl2|Hin%Hl3]]; [|done..].
    destruct (present df_aqi) as [rows|] eqn:Hp; [|injection H1 as <-; by apply elem_of_nil in Hin].
    destruct (bool_decide (show_pred ∈ ["both"; "current"]));
      [|injection H1 as <-; by apply elem_of_nil in Hin].
    destruct (mapM aqi_marker rows) as [ms'| |] eqn:Hms; simpl in H1; try done.
    injection H1 as <-. apply list_elem_of_singleton in Hin.
    apply (f_equal children) in Hin. simpl in Hin. subst ms'.
    apply present_Some in Hp as [-> _]. exists rows. split; [done|].
    apply mapM_Ok_Forall2 in Hms.
    eapply Forall2_impl; [exact Hms|]. apply aqi_marker_Ok.
  - intros ms. rewrite !elem_of_app. intros [Hin%Hl1|[Hin%Hl2|Hin]]; [done..|].
    destruct (present df_pred) as [rows|] eqn:Hp; [|injection H3 as <-; by apply elem_of_nil in Hin].
    destruct (bool_decide (show_pred ∈ ["both"; "predicted"]));
      [|injection H3 as <-; by apply elem_of_nil in Hin].
    destruct (mapM pred_marker rows) as [ms'| |] eqn:Hms; simpl in H3; try done.
    injection H3 as <-. apply list_elem_of_singleton in Hin.
    apply (f_equal children) in Hin. simpl in Hin. subst ms'.
    apply present_Some in Hp as [-> _]. exists rows. split; [done|].
    apply mapM_Ok_Forall2 in Hms.
    eapply Forall2_impl; [exact Hms|]. apply pred_marker_Ok.
  - intros rows Hp Hs. rewrite Hp, bool_decide_eq_true_2 in H1 by done.
    destruct (mapM aqi_marker rows) as [ms| |]; simpl in H1; try done.
    injection H1 as <-. exists ms. rewrite !elem_of_app. left. by left.
  - intros rows Hp Hs. rewrite Hp, bool_decide_eq_true_2 in H3 by done.
    destruct (mapM pred_marker rows) as [ms| |]; simpl in H3; try done.
    injection H3 as <-. exists ms. rewrite !elem_of_app. right. right. by left.
Qed.

Lemma make_map_markers_witness :
  ∃ m ms,
    make_map (Some [Samples.aqi_point 1; Samples.aqi_point 3]) None None "current" = Ok m
    ∧ layers m = [{| name := AQI_LAYER; children := ms |}]
    ∧ Forall2 observation_marker [Samples.aqi_point 1; Samples.aqi_point 3] ms
    ∧ map (fun e => match e with CircleMarker c => color c | HeatMap _ => "" end) ms
      = ["green"; "orange"].
Proof.
  eexists _, _. split; [vm_compute; reflexivity|]. split; [reflexivity|].
  split; [|vm_compute; reflexivity].
  destruct (proj1 (make_map_markers
                     (Some [Samples.aqi_point 1; Samples.aqi_point 3]) None None
                     "current" _ eq_refl) _ (list_elem_of_here _ _))
    as (rows & [= <-] & Hrows).
  exact Hrows.
Defined.

(** The aerosol layer holds one heat map, with one point per aerosol
    row, in row order: the row's latitude, longitude and optical depth. *)
Theorem make_map_heat_points (df_aqi df_aod df_pred : option (list row))
    (show_pred : string) (m : map_doc) (g : feature_group) :
  make_map df_aqi df_aod df_pred show_pred = Ok m ->
  g ∈ layers m -> name g = AOD_LAYER ->
  ∃ rows h, df_aod = Some rows ∧ children g = [HeatMap h]
            ∧ Forall2 heat_point rows (data h).
Proof.
  intros (l1 & l2 & l3 & H1 & H2 & H3 & Hl)%make_map_layers. rewrite Hl.
  rewrite !elem_of_app. intros [Hin|[Hin|Hin]] Hname.
  - assert (name g = AQI_LAYER) as Hn; [|by rewrite Hn in Hname].
    apply (aqi_layer_names _ _ _ _ H1), list_elem_of_fmap. eauto.
  - unfold aod_layer in H2.
    destruct (present df_aod) as [rows|] eqn:Hp; [|injection H2 as <-; by apply elem_of_nil in Hin].
    destruct (mapM heat_line rows) as [hd| |] eqn:Hhd; simpl in H2; try done.
    destruct (mapM validate_line hd) as [d| |] eqn:Hd; simpl in H2; try done.
    injection H2 as <-. apply list_elem_of_singleton in Hin as ->.
    apply present_Some in Hp as [-> _]. eexists rows, _. split; [done|].
    split; [reflexivity|]. simpl. by eapply heat_points.
  - assert (name g = PRED_LAYER) as Hn; [|by rewrite Hn in Hname].
    apply (pred_layer_names _ _ _ _ H3), list_elem_of_fmap. eauto.
Qed.

Lemma make_map_heat_points_witness :
  ∃ m g rows h,
    make_map None (Some Samples.five_aod) None "both" = Ok m
    ∧ layers m = [g] ∧ name g = AOD_LAYER
    ∧ Some Samples.five_aod = Some rows ∧ children g = [HeatMap h]
    ∧ Forall2 heat_point rows (data h).
Proof.
  eexists _, _.
  assert (make_map None (Some Samples.five_aod) None "both" = Ok _) as Hm
    by (vm_compute; reflexivity).
  destruct (make_map_heat_points None (Some Samples.five_aod) None "both" _ _ Hm
              (list_elem_of_here _ _) eq_refl) as (rows & h & Hrows & Hc & Hpts).
  exists rows, h. split; [exact Hm|]. by repeat split.
Defined.

(** *** Tables the selector leaves out, and rows without a column *)

(** A table the selector leaves out is not looked at: the result, be it
    a map or an exception, is what it would be without that table. *)
Theorem make_map_unselected_ignored (df_aqi df_aod df_pred : option (list row))
    (show_pred : string) :
  (show_pred ∉ ["both"; "current"] ->
   make_map df_aqi df_aod df_pred show_pred = make_map None df_aod df_pred show_pred)
  ∧ (show_pred ∉ ["both"; "predicted"] ->
     make_map df_aqi df_aod df_pred show_pred = make_map df_aqi df_aod None show_pred).
Proof.
  unfold make_map, aqi_layer, pred_layer. split; intros Hs.
  - rewrite !(bool_decide_eq_false_2 (show_pred ∈ ["both"; "current"])) by done.
    by destruct (present df_aqi).
  - rewrite !(bool_decide_eq_false_2 (show_pred ∈ ["both"; "predicted"])) by done.
    by destruct (present df_pred).
Qed.

Lemma make_map_unselected_ignored_witness :
  make_map (Some [Samples.bare_row]) None (Some [Samples.pred_point 2]) "predicted"
  = make_map None None (Some [Samples.pred_point 2]) "predicted"
  ∧ (∃ m, make_map (Some [Samples.bare_row]) None (Some [Samples.pred_point 2])
            "predicted" = Ok m)
  ∧ make_map (Some [Samples.bare_row]) None (Some [Samples.pred_point 2]) "both"
    = Raise (KeyError "aqi").
Proof.
  split.
  - apply (proj1 (make_map_unselected_ignored (Some [Samples.bare_row]) None
                    (Some [Samples.pred_point 2]) "predicted")).
    apply (bool_decide_unpack ("predicted" ∉ ["both"; "current"])). vm_compute. exact I.
  - split; [eexists|]; vm_compute; reflexivity.
Defined.

Lemma green_by_default : get_aqi_color (num 0) = Ok "green".
Proof. vm_compute. reflexivity. Qed.

(** The colour lookup tolerates a missing 'aqi' cell, the popup does
    not: a selected table of observations whose first row has none (and
    whose coordinates, where it has them, are numbers) makes [make_map]
    raise KeyError, whatever the other tables hold. *)
Theorem make_map_missing_aqi (r : row) (rest : list row)
    (df_aod df_pred : option (list row)) (show_pred : string) :
  r !! "aqi" = None ->
  (∀ v, r !! "latitude" = Some v -> ∃ q, v = VNum q) ->
  (∀ v, r !! "longitude" = Some v -> ∃ q, v = VNum q) ->
  show_pred ∈ ["both"; "current"] ->
  make_map (Some (r :: rest)) df_aod df_pred show_pred = Raise (KeyError "aqi").
Proof.
  intros Ha Hy Hx Hs.
  assert (aqi_marker r = Raise (KeyError "aqi")) as Hr.
  { unfold aqi_marker, item, get, format_2f. rewrite Ha. simpl default.
    rewrite green_by_default. simpl.
    destruct (r !! "latitude") as [y|];
      [destruct (Hy y eq_refl) as [qy ->]|];
      (destruct (r !! "longitude") as [x|];
       [destruct (Hx x eq_refl) as [qx ->]|]); reflexivity. }
  unfold make_map, aqi_layer. simpl present. cbv iota.
  rewrite bool_decide_eq_true_2 by done. simpl. by rewrite Hr.
Qed.

Lemma make_map_missing_aqi_witness :
  make_map (Some [Samples.bare_row; Samples.aqi_point 1]) (Some Samples.five_aod) None
           "current"
  = Raise (KeyError "aqi").
Proof.
  apply (make_map_missing_aqi Samples.bare_row [Samples.aqi_point 1]
           (Some Samples.five_aod) None "current").
  - vm_compute. reflexivity.
  - intros v. vm_compute. discriminate.
  - intros v. vm_compute. discriminate.
  - apply (bool_decide_unpack ("current" ∈ ["both"; "current"])). vm_compute. exact I.
Defined.

End MapBuilderMore.

(** ** The orchestrator, stage by stage *)

Module MainMore.
Import Main MainSpec.

Lemma main_fetch_exception_propagates_witness :
  result (main Samples.fetch_raises true) = Raise (OtherError "connection reset")
  ∧ ∀ s, called s (main Samples.fetch_raises true) -> s = FetchPastWeek.
Proof.
  apply (main_fetch_exception_propagates Samples.fetch_raises true). reflexivity.
Defined.

(** When the fetch returns None or an empty table, the fallback
    generator is called in its place, outside any [try]: if it raises
    (as the import of a name the module lacks does), the run ends with
    that exception before any other stage is called. *)
Theorem main_empty_fetch_falls_back {DF MODEL : Type} (st : stages DF MODEL)
    (force_refresh : bool) (df_aqi : option DF) (e : exn) :
  fetch_past_week_data st force_refresh = Ok df_aqi ->
  none_or_empty st df_aqi = true ->
  _mock_weekly_data st = Raise e ->
  result (main st force_refresh) = Raise e
  ∧ calls (trace (main st force_refresh)) = [FetchPastWeek; MockWeekly]
  ∧ Print "⚠️ No AQI data available — using fallback mock dataset."
    ∈ trace (main st force_refresh).
Proof.
  intros Hf He Hm. unfold main. simpl. rewrite Hf. simpl. rewrite He. simpl.
  rewrite Hm. simpl. repeat split. in_trace.
Qed.

Lemma main_empty_fetch_falls_back_witness :
  result (main Samples.fetch_empty false) = Raise (ImportError "_mock_weekly_data")
  ∧ calls (trace (main Samples.fetch_empty false)) = [FetchPastWeek; MockWeekly]
  ∧ Print "⚠️ No AQI data available — using fallback mock dataset."
    ∈ trace (main Samples.fetch_empty false).
Proof.
  apply (main_empty_fetch_falls_back Samples.fetch_empty false (Some 0%nat));
    reflexivity.
Defined.

(** Each stage is called once, in a fixed order, and never again after
    it failed: fetch, aerosol load, training, prediction (only if the
    trainer returned a model), map build. *)
Theorem main_calls_in_order {DF MODEL : Type} (st : stages DF MODEL)
    (force_refresh : bool) (df : DF) :
  fetch_past_week_data st force_refresh = Ok (Some df) ->
  len st df ≠ 0%nat ->
  load_aod_data st ≠ Timeout ->
  train_predictor st (Some df) ≠ Timeout ->
  (∀ m, predict_tomorrow st m (Some df) ≠ Timeout) ->
  calls (trace (main st force_refresh))
  = ([FetchPastWeek; LoadAod; TrainPredictor]
     ++ match train_predictor st (Some df) with
        | Ok (Some _) => [PredictTomorrow]
        | _ => []
        end
     ++ [BuildMap])%list.
Proof.
  intros He Hne Haod Htrain Hpred.
  unfold main, none_or_empty. simpl. rewrite He. simpl.
  rewrite bool_decide_eq_false_2 by done. simpl.
  destruct (load_aod_data st) as [aod|ea|] eqn:Ea; [| |done]; simpl;
    (destruct (train_predictor st (Some df)) as [[m|]|et|] eqn:Et; [| | |done]); simpl;
    try (destruct (predict_tomorrow st m (Some df)) as [pr|ep|] eqn:Ep;
         [| |by destruct (Hpred m)]; simpl);
    match goal with
    | |- context [build_map st ?a ?b ?c] => destruct (build_map st a b c) as [u|eb|]
    end; reflexivity.
Qed.

Lemma main_calls_in_order_witness :
  calls (trace (main Samples.training_raises false))
  = [FetchPastWeek; LoadAod; TrainPredictor; BuildMap]
  ∧ calls (trace (main Samples.aod_and_map_raise false))
    = [FetchPastWeek; LoadAod; TrainPredictor; PredictTomorrow; BuildMap].
Proof.
  split.
  - apply (main_calls_in_order Samples.training_raises false 5600%nat);
      try reflexivity; try (simpl; discriminate).
  - apply (main_calls_in_order Samples.aod_and_map_raise false 5600%nat);
      try reflexivity; try (simpl; discriminate).
Defined.

(** The summary line reports the sizes of what the stages left behind:
    the fetched table, and 0 for an aerosol table or for predictions
    that a failure replaced with None. *)
Theorem main_summary_counts {DF MODEL : Type} (st : stages DF MODEL)
    (force_refresh : bool) (df : DF) :
  fetch_past_week_data st force_refresh = Ok (Some df) ->
  len st df ≠ 0%nat ->
  load_aod_data st ≠ Timeout ->
  train_predictor st (Some df) ≠ Timeout ->
  (∀ m, predict_tomorrow st m (Some df) ≠ Timeout) ->
  PrintCounts (len st df)
              (safe_len st (recovered (load_aod_data st)))
              (safe_len st (predictions_for st (Some df)))
  ∈ trace (main st force_refresh).
Proof.
  intros He Hne Haod Htrain Hpred.
  unfold predictions_for, main, none_or_empty. simpl. rewrite He. simpl.
  rewrite bool_decide_eq_false_2 by done. simpl.
  destruct (load_aod_data st) as [aod|ea|] eqn:Ea; [| |done]; simpl;
    (destruct (train_predictor st (Some df)) as [[m|]|et|] eqn:Et; [| | |done]); simpl;
    try (destruct (predict_tomorrow st m (Some df)) as [pr|ep|] eqn:Ep;
         [| |by destruct (Hpred m)]; simpl);
    in_trace.
Qed.

Lemma main_summary_counts_witness :
  PrintCounts 5600 0 3000 ∈ trace (main Samples.aod_and_map_raise false).
Proof.
  apply (main_summary_counts Samples.aod_and_map_raise false 5600%nat);
    try reflexivity; try (simpl; discriminate).
Defined.

End MainMore.

(** ** The historical frame and the real predictions *)

Module PredictAqiMore.
Import PredictAqi PredictAqiSpec.

(** *** The frame of [fetch_past_week_data] *)

Lemma day_frame_clipped d (lat lon a : list number) :
  Forall (fun x => isnan x = false) a ->
  Forall in_aqi_range (day_frame d lat lon (map (fun x => clip x (qc 10 1) (qc 300 1)) a)).
Proof.
  unfold day_frame. intros Ha. generalize (zip lat lon). clear lat lon.
  induction Ha as [|x a Hx _ IH]; intros [|p ps]; simpl; try constructor.
  - by apply clip_range.
  - apply IH.
Qed.

Lemma week_frames_clipped `{RandomState} days (lat lon : list number) s :
  Forall in_aqi_range (week_frames days lat lon s).
Proof.
  revert s. induction days as [|d days IH]; intros s; simpl; [constructor|].
  pose proof (normal_numbers (qc 70 1) (qc 25 1) (length lat) s) as Hn.
  destruct (normal (qc 70 1) (qc 25 1) (length lat) s) as [a s']. simpl in Hn.
  apply Forall_app. split; [by apply day_frame_clipped|apply IH].
Qed.

(** Every AQI value of the historical frame is a number between 10 and
    300. *)
Theorem fetch_past_week_data_clipped `{RandomState} (use_mock force_refresh : bool)
    (today : Z) :
  Forall in_aqi_range (fetch_past_week_data use_mock force_refresh today).
Proof.
  unfold fetch_past_week_data.
  destruct (uniform (qc 25 1) (qc 49 1) 700 (seed 42)) as [lat s1].
  destruct (uniform (qc (-124) 1) (qc (-67) 1) 700 s1) as [lon s2].
  destruct use_mock; apply week_frames_clipped.
Qed.

Lemma day_frame_coords d (lat lon a : list number) :
  length lon = length lat -> length a = length lat ->
  map coords (day_frame d lat lon a) = zip lat lon.
Proof.
  revert lon a. induction lat as [|x lat IH]; intros [|y lon] [|z a]; simpl;
    try done.
  intros [= Hlon] [= Ha]. f_equal. by apply IH.
Qed.

Lemma week_frames_coords `{RandomState} days (lat lon : list number) s :
  length lon = length lat ->
  map coords (week_frames days lat lon s) = concat (replicate (length days) (zip lat lon)).
Proof.
  intros Hlon. revert s. induction days as [|d days IH]; intros s; simpl; [done|].
  pose proof (normal_length (qc 70 1) (qc 25 1) (length lat) s) as Hn.
  destruct (normal (qc 70 1) (qc 25 1) (length lat) s) as [a s']. simpl in Hn.
  rewrite map_app, IH, day_frame_coords; [done|done|].
  by rewrite length_map.
Qed.

(** The frame covers the same 700 locations on each of its days, in the
    same order: one row per day and location. *)
Theorem fetch_past_week_data_locations `{RandomState} (use_mock force_refresh : bool)
    (today : Z) :
  ∃ lat lon : list number,
    length lat = 700%nat ∧ length lon = 700%nat
    ∧ map coords (fetch_past_week_data use_mock force_refresh today)
      = concat (replicate 8 (zip lat lon)).
Proof.
  unfold fetch_past_week_data.
  pose proof (uniform_length (qc 25 1) (qc 49 1) 700 (seed 42)) as H1.
  destruct (uniform (qc 25 1) (qc 49 1) 700 (seed 42)) as [lat s1].
  pose proof (uniform_length (qc (-124) 1) (qc (-67) 1) 700 s1) as H2.
  destruct (uniform (qc (-124) 1) (qc (-67) 1) 700 s1) as [lon s2].
  simpl in H1, H2. exists lat, lon. split; [done|]. split; [done|].
  rewrite date_range_week.
  destruct use_mock; (rewrite week_frames_coords; [done|congruence]).
Qed.

(** *** The synthetic predictions *)

Lemma predict_tomorrow_fallback_witness :
  (@predict_tomorrow counter_state (Some (Samples.stations 7 7))
     (Some (Fitted [qc 1 1; qc 1 1; qc 1 1] (qc 5 1)))
   = Ok (@mock_predictions counter_state)
   ∧ length (@mock_predictions counter_state) = 3000%nat)
  ∧ (@predict_tomorrow counter_state (Some (Samples.stations 20 3)) None
     = Ok (@mock_predictions counter_state)
     ∧ length (@mock_predictions counter_state) = 3000%nat).
Proof.
  split.
  - apply (@predict_tomorrow_fallback counter_state (Some (Samples.stations 7 7))
             (Some (Fitted [qc 1 1; qc 1 1; qc 1 1] (qc 5 1)))).
    right. right. eexists. split; [reflexivity|]. apply Nat.ltb_lt. vm_compute. reflexivity.
  - apply (@predict_tomorrow_fallback counter_state (Some (Samples.stations 20 3)) None).
    by left.
Defined.

(** *** Which locations get a prediction *)

Lemma location_le_total : Total location_le.
Proof.
  intros [a1 a2] [b1 b2]. unfold location_le. simpl.
  destruct (Qclt_le_dec a1 b1) as [?|Hba]; [by left; left|].
  destruct (Qclt_le_dec b1 a1) as [?|Hab]; [by right; left|].
  assert (a1 = b1) as -> by (by apply Qcle_antisym).
  destruct (Qclt_le_dec a2 b2) as [?%Qclt_le_weak|?]; [left|right]; by right.
Qed.

Lemma locations_spec (df : list sample) :
  NoDup (locations df) ∧ Sorted location_le (locations df)
  ∧ ∀ k, k ∈ locations df ↔ ∃ s, s ∈ df ∧ location s = Some k.
Proof.
  unfold locations. split; [|split].
  - rewrite merge_sort_Permutation. apply NoDup_remove_dups.
  - apply (@Sorted_merge_sort _ location_le _ location_le_total).
  - intros k. rewrite merge_sort_Permutation, elem_of_remove_dups.
    apply list_elem_of_omap.
Qed.

Lemma pivot_keys (df : list sample) :
  map fst (pivot df) = List.filter (has_three df) (locations df).
Proof.
  unfold pivot. induction (locations df) as [|k ks IH]; simpl; [done|].
  assert (bool_decide (length (map aqi (tail 3 (group df k))) = 3%nat) = has_three df k)
    as ->.
  { unfold has_three, tail. apply bool_decide_ext.
    rewrite length_map, length_drop. lia. }
  destruct (has_three df k); simpl; by rewrite IH.
Qed.

Lemma predict_length (m : model) (X : list (list number)) (y : list Qc) :
  predict m X = Ok y -> length y = length X.
Proof.
  unfold predict, validate. destruct m as [|coef b]; [done|].
  destruct (decide (X = [])); [done|].
  destruct (mapM all_numbers X) as [X'|] eqn:HX; simpl; [|done].
  destruct (decide _); simpl; [|done]. intros [= <-].
  rewrite length_map. symmetry. by eapply length_mapM.
Qed.

Lemma zip_with_pred_coords (pv : list ((Qc * Qc) * list number)) (y : list Qc) :
  length y = length pv ->
  map pred_coords
    (zip_with (fun p v => {| pred_latitude := Num p.1.1; pred_longitude := Num p.1.2;
                             aqi_pred := clip (Num v) (qc 10 1) (qc 300 1) |}) pv y)
  = map cells (map fst pv).
Proof.
  revert y. induction pv as [|p pv IH]; intros [|v y]; simpl; try done.
  intros [= Hlen]. f_equal. by apply IH.
Qed.

(** On the real path the table has one prediction for each location
    with at least three samples in the frame, and none for the others,
    in ascending order of (latitude, longitude); the locations are the
    distinct coordinate pairs of the frame. *)
Theorem predict_tomorrow_locations `{RandomState} (df : list sample) (m : model)
    (r : list prediction) :
  (50 ≤ length df)%nat ->
  predict_tomorrow (Some df) (Some m) = Ok r ->
  map pred_coords r = map cells (List.filter (has_three df) (locations df))
  ∧ NoDup (locations df) ∧ Sorted location_le (locations df)
  ∧ ∀ k, k ∈ locations df ↔ ∃ s, s ∈ df ∧ location s = Some k.
Proof.
  intros Hlen Hr. split; [|apply locations_spec].
  unfold predict_tomorrow in Hr. destruct (decide (length df < 50)%nat); [lia|].
  destruct (predict m _) as [y| |] eqn:Hy; simpl in Hr; try done.
  injection Hr as <-. apply predict_length in Hy. rewrite length_map in Hy.
  by rewrite zip_with_pred_coords, pivot_keys.
Qed.

Lemma predict_tomorrow_locations_witness :
  ∃ r, @predict_tomorrow counter_state
         (Some (Samples.stations 20 3 ++ Samples.stations 25 2)%list)
         (Some (Fitted [qc 1 1; qc 1 1; qc 1 1] (qc 5 1))) = Ok r
       ∧ length r = 20%nat
       ∧ map pred_coords r
         = map cells (List.filter
                        (has_three (Samples.stations 20 3 ++ Samples.stations 25 2))
                        (locations (Samples.stations 20 3 ++ Samples.stations 25 2))).
Proof.
  eexists. split; [vm_compute; reflexivity|]. split; [reflexivity|].
  apply (@predict_tomorrow_locations counter_state
           (Samples.stations 20 3 ++ Samples.stations 25 2)%list
           (Fitted [qc 1 1; qc 1 1; qc 1 1] (qc 5 1))).
  - apply Nat.leb_le. vm_compute. reflexivity.
  - vm_compute. reflexivity.
Defined.

(** With 50 rows or more but no location sampled three times, the
    feature matrix is empty and [model.predict] raises ValueError. *)
Theorem predict_tomorrow_no_history `{RandomState} (df : list sample)
    (coef : list Qc) (b : Qc) :
  (50 ≤ length df)%nat ->
  Forall (fun k => length (group df k) < 3)%nat (locations df) ->
  predict_tomorrow (Some df) (Some (Fitted coef b))
  = Raise (ValueError "Found array with 0 sample(s)").
Proof.
  intros Hlen Hshort. unfold predict_tomorrow.
  destruct (decide (length df < 50)%nat); [lia|].
  assert (pivot df = []) as ->; [|done].
  apply (fmap_nil_inv fst). rewrite pivot_keys.
  induction Hshort as [|k ks Hk _ IH]; simpl; [done|].
  unfold has_three at 1. by rewrite bool_decide_eq_false_2 by lia.
Qed.

Lemma predict_tomorrow_no_history_witness :
  @predict_tomorrow counter_state (Some (Samples.stations 30 2))
    (Some (Fitted [qc 1 1; qc 1 1; qc 1 1] (qc 5 1)))
  = Raise (ValueError "Found array with 0 sample(s)").
Proof.
  apply (@predict_tomorrow_no_history counter_state (Samples.stations 30 2)).
  - apply Nat.leb_le. vm_compute. reflexivity.
  - apply (bool_decide_unpack
             (Forall (fun k => length (group (Samples.stations 30 2) k) < 3)%nat
                     (locations (Samples.stations 30 2)))).
    vm_compute. exact I.
Defined.

(** *** The lag features of the weekly trainer *)

Lemma group_numeric (df : list sample) (k : Qc * Qc) :
  Forall numeric df -> Forall numeric (group df k).
Proof.
  rewrite !Forall_forall. intros Hdf r Hr.
  apply Hdf. apply list_elem_of_In. apply list_elem_of_In, filter_In in Hr. tauto.
Qed.

Lemma lag_rows_count (df : list sample) (ks : list (Qc * Qc)) :
  Forall numeric df ->
  length (List.filter complete (concat (map (fun k => make_features (group df k)) ks)))
  = sum_list (map (fun k => length (group df k) - 3)%nat ks).
Proof.
  intros Hdf. induction ks as [|k ks IH]; simpl; [done|].
  rewrite List.filter_app, length_app, IH.
  by rewrite make_features_complete by by apply group_numeric.
Qed.

(** In a frame whose AQI values are all numbers, the rows that survive
    the lag construction are, location by location, all but the three
    earliest: their number is the sum over the locations of the number
    of samples less three. *)
Theorem lag_frame_size (df : list sample) :
  Forall numeric df ->
  length (lag_frame df)
  = sum_list (map (fun k => length (group df k) - 3)%nat (locations df)).
Proof. intros Hdf. unfold lag_frame. by apply lag_rows_count. Qed.

Lemma lag_frame_size_witness :
  length (lag_frame (Samples.stations 15 7)) = 60%nat
  ∧ length (lag_frame (Samples.stations 15 7))
    = sum_list (map (fun k => length (group (Samples.stations 15 7) k) - 3)%nat
                    (locations (Samples.stations 15 7))).
Proof.
  split; [vm_compute; reflexivity|].
  apply (lag_frame_size (Samples.stations 15 7)).
  apply (bool_decide_unpack (Forall numeric (Samples.stations 15 7))).
  vm_compute. exact I.
Defined.

(** *** From the fetcher to the trainer *)

Lemma group_cons (r : sample) (df : list sample) (k : Qc * Qc) :
  length (group (r :: df) k)
  = ((if bool_decide (location r = Some k) then 1 else 0) + length (group df k))%nat.
Proof. unfold group. simpl. by destruct (bool_decide _). Qed.

Lemma sum_list_plus {A} (f g : A -> nat) (l : list A) :
  sum_list (map (fun x => f x + g x)%nat l)
  = (sum_list (map f l) + sum_list (map g l))%nat.
Proof. induction l as [|x l IH]; simpl; lia. Qed.

Lemma count_one (ks : list (Qc * Qc)) (r : sample) (k0 : Qc * Qc) :
  NoDup ks -> location r = Some k0 -> k0 ∈ ks ->
  sum_list (map (fun k => if bool_decide (location r = Some k) then 1 else 0)%nat ks)
  = 1%nat.
Proof.
  intros Hnd Hr. rewrite Hr. clear Hr.
  induction Hnd as [|k ks Hk Hnd IH]; intros Hin; [by apply elem_of_nil in Hin|].
  simpl. destruct (decide (k0 = k)) as [->|Hne].
  - rewrite bool_decide_eq_true_2 by done. f_equal. clear IH Hin.
    induction ks as [|k' ks IH]; simpl; [done|].
    apply not_elem_of_cons in Hk as [Hne Hk]. apply NoDup_cons in Hnd as [_ Hnd].
    rewrite bool_decide_eq_false_2 by congruence. by apply IH.
  - rewrite bool_decide_eq_false_2 by congruence.
    apply elem_of_cons in Hin as [?|Hin]; [done|]. by apply IH.
Qed.

(** The rows of a frame whose coordinates are numbers are shared out
    among its locations. *)
Lemma group_count (ks : list (Qc * Qc)) (df : list sample) :
  NoDup ks ->
  Forall (fun r => ∃ k, location r = Some k ∧ k ∈ ks) df ->
  sum_list (map (fun k => length (group df k)) ks) = length df.
Proof.
  intros Hnd Hdf. induction Hdf as [|r df (k0 & Hk0 & Hin) _ IH].
  { clear Hnd. induction ks as [|k ks IHk]; simpl; [done|]. exact IHk. }
  rewrite (list_fmap_ext _ _ _ (fun _ k _ => group_cons r df k)).
  rewrite sum_list_plus, IH, (count_one ks r k0); done.
Qed.

Lemma sum_less_three {A} (f : A -> nat) (l : list A) :
  (sum_list (map f l) ≤ sum_list (map (fun x => f x - 3) l) + 3 * length l)%nat.
Proof. induction l as [|x l IH]; simpl; lia. Qed.

Lemma uniform_cells `{RandomState} lo hi n s :
  ∃ xs, (uniform lo hi n s).1 = map Num xs ∧ length xs = n.
Proof.
  unfold uniform. pose proof (draws_length (draw_uniform lo hi) n s) as Hlen.
  destruct (draws (draw_uniform lo hi) n s) as [xs s']. by exists xs.
Qed.

(** The frame of the fetcher: 5600 rows, at 700 numeric locations at
    most, with numeric AQI. *)
Lemma fetched_frame `{RandomState} (use_mock force_refresh : bool) (today : Z) :
  ∃ ps : list (Qc * Qc),
    length ps = 700%nat
    ∧ map coords (fetch_past_week_data use_mock force_refresh today)
      = concat (replicate 8 (map cells ps)).
Proof.
  unfold fetch_past_week_data.
  destruct (uniform_cells (qc 25 1) (qc 49 1) 700 (seed 42)) as (xs & Hxs & Hx).
  destruct (uniform (qc 25 1) (qc 49 1) 700 (seed 42)) as [lat s1].
  destruct (uniform_cells (qc (-124) 1) (qc (-67) 1) 700 s1) as (ys & Hys & Hy).
  destruct (uniform (qc (-124) 1) (qc (-67) 1) 700 s1) as [lon s2].
  simpl in Hxs, Hys. subst lat lon.
  exists (zip xs ys). split; [rewrite length_zip; lia|].
  rewrite date_range_week.
  assert (map cells (zip xs ys) = zip (map Num xs) (map Num ys)) as ->.
  { clear. revert ys. induction xs as [|x xs IH]; intros [|y ys]; simpl; try done.
    by rewrite IH. }
  destruct use_mock; (rewrite week_frames_coords; [done|by rewrite !length_map, Hx, Hy]).
Qed.

Lemma coords_location (r : sample) (k : Qc * Qc) :
  coords r = cells k -> location r = Some k.
Proof.
  destruct r as [d la lo a], k as [x y]. unfold coords, cells, location. simpl.
  by intros [= -> ->].
Qed.

(** The two functions compose: on the frame [fetch_past_week_data]
    returns, whatever the day and whatever the random draws, at least
    3500 rows have their three lags, so that [train_weekly_predictor]
    takes neither of its fallbacks and returns a fitted model. *)
Theorem train_weekly_predictor_on_fetched `{RandomState} `{LeastSquares}
    (use_mock force_refresh : bool) (today : Z) :
  length (fetch_past_week_data use_mock force_refresh today) = (8 * 700)%nat
  ∧ (3500 ≤ length (lag_frame (fetch_past_week_data use_mock force_refresh today)))%nat
  ∧ ∃ coef b,
      train_weekly_predictor (Some (fetch_past_week_data use_mock force_refresh today))
      = Fitted coef b.
Proof.
  destruct (fetched_frame use_mock force_refresh today) as (ps & Hps & Hco).
  assert (Forall in_aqi_range (fetch_past_week_data use_mock force_refresh today)) as Hr.
  { unfold fetch_past_week_data.
    destruct (uniform (qc 25 1) (qc 49 1) 700 (seed 42)) as [lat s1].
    destruct (uniform (qc (-124) 1) (qc (-67) 1) 700 s1) as [lon s2].
    destruct use_mock; apply week_frames_clipped. }
  generalize dependent (fetch_past_week_data use_mock force_refresh today).
  intros df Hco Hr.
  assert (length df = (8 * 700)%nat) as Hlen.
  { rewrite <- (length_map coords), Hco.
    simpl. rewrite !length_app, !length_map, Hps. reflexivity. }
  assert (Forall (fun r => ∃ k, location r = Some k ∧ k ∈ ps) df) as Hloc.
  { apply Forall_forall. intros r Hr'.
    assert (coords r ∈ concat (replicate 8 (map cells ps))) as Hc.
    { rewrite <- Hco. by apply list_elem_of_fmap_2. }
    simpl in Hc. rewrite !elem_of_app in Hc.
    assert (coords r ∈ map cells ps) as Hc'.
    { destruct Hc as [?|[?|[?|[?|[?|[?|[?|[?|Hn]]]]]]]]; try done.
      by apply elem_of_nil in Hn. }
    apply list_elem_of_fmap in Hc' as (k & Hk & Hin).
    exists k. split; [by apply coords_location|done]. }
  assert (Forall numeric df) as Hnum.
  { eapply Forall_impl; [exact Hr|]. by intros r (q & Hq & _); unfold numeric; rewrite Hq. }
  destruct (locations_spec df) as (Hnd & _ & Hks).
  assert (length (locations df) ≤ 700)%nat as HL.
  { rewrite <- Hps. apply submseteq_length, NoDup_submseteq; [done|].
    intros k (r & Hr' & Hk)%Hks.
    destruct (proj1 (Forall_forall _ _) Hloc r Hr') as (k' & Hk' & Hin). congruence. }
  assert (sum_list (map (fun k => length (group df k)) (locations df)) = (8 * 700)%nat) as Hsum.
  { rewrite group_count; [done|done|].
    apply Forall_forall. intros r Hr'.
    destruct (proj1 (Forall_forall _ _) Hloc r Hr') as (k & Hk & _).
    exists k. split; [done|]. apply Hks. eauto. }
  assert (3500 ≤ length (lag_frame df))%nat as Hlag.
  { unfold lag_frame. rewrite lag_rows_count by done.
    pose proof (sum_less_three (fun k => length (group df k)) (locations df)) as Hs.
    rewrite Hsum in Hs. lia. }
  split; [done|]. split; [done|].
  unfold train_weekly_predictor.
  destruct (decide (length df < 100)%nat); [lia|].
  destruct (decide (length (lag_frame df) < 50)%nat); [lia|]. apply fit_fitted.
Qed.

End PredictAqiMore.

(** ** The aerosol grid *)

Module FetchAodMore.
Import FetchAod FetchAodSpec.

(** *** Flattening the grid *)

Lemma repeat_lookup {A} (a : list A) (n i j : nat) (x : A) :
  a !! i = Some x -> (j < n)%nat -> Numpy.repeat a n !! (i * n + j)%nat = Some x.
Proof.
  unfold Numpy.repeat. revert i. induction a as [|y a IH]; intros i Hi Hj; [done|].
  simpl. destruct i as [|i]; simpl in *.
  - injection Hi as ->. rewrite lookup_app_l by (rewrite length_replicate; lia).
    by apply lookup_replicate_2.
  - rewrite lookup_app_r by (rewrite length_replicate; lia).
    rewrite length_replicate.
    replace (n + i * n + j - n)%nat with (i * n + j)%nat by lia. by apply IH.
Qed.

Lemma tile_lookup {A} (a : list A) (m i j : nat) (x : A) :
  a !! j = Some x -> (i < m)%nat -> Numpy.tile a m !! (i * length a + j)%nat = Some x.
Proof.
  unfold Numpy.tile. intros Hj. pose proof (lookup_lt_Some _ _ _ Hj) as Hlt.
  revert i. induction m as [|m IH]; intros i Hi; [lia|]. simpl.
  destruct i as [|i]; simpl.
  - by rewrite lookup_app_l.
  - rewrite lookup_app_r by lia.
    replace (length a + i * length a + j - length a)%nat with (i * length a + j)%nat by lia.
    apply IH. lia.
Qed.

Lemma repeat_length {A} (a : list A) (n : nat) :
  length (Numpy.repeat a n) = (length a * n)%nat.
Proof.
  unfold Numpy.repeat. induction a as [|x a IH]; simpl; [done|].
  by rewrite length_app, length_replicate, IH.
Qed.

Lemma tile_length {A} (a : list A) (m : nat) :
  length (Numpy.tile a m) = (m * length a)%nat.
Proof.
  unfold Numpy.tile. induction m as [|m IH]; simpl; [done|].
  by rewrite length_app, IH.
Qed.

Lemma zip3_lookup (la lo a : list number) (k : nat) (x y z : number) :
  la !! k = Some x -> lo !! k = Some y -> a !! k = Some z ->
  zip3 la lo a !! k = Some {| latitude := x; longitude := y; aod := z |}.
Proof.
  revert lo a k. induction la as [|x' la IH]; intros [|y' lo] [|z' a] [|k]; simpl;
    try done.
  - by intros [= ->] [= ->] [= ->].
  - apply IH.
Qed.

Lemma zip3_length (la lo a : list number) :
  length lo = length la -> length a = length la -> length (zip3 la lo a) = length la.
Proof.
  revert lo a. induction la as [|x la IH]; intros [|y lo] [|z a]; simpl; try done.
  intros [= Hlo] [= Ha]. f_equal. by apply IH.
Qed.

(** When the variable has one value per grid point, the loader crops the
    frame in which the value at flat index [i * len(lon) + j] stands next
    to latitude [i] and longitude [j]: each optical depth keeps its own
    coordinates. *)
Theorem load_aod_data_grid `{RandomState} (g : granule) :
  length (totexttau g) = (length (lat g) * length (lon g))%nat ->
  ∃ frame,
    load_aod_data (Ok g) = Ok (List.filter in_box frame)
    ∧ length frame = (length (lat g) * length (lon g))%nat
    ∧ ∀ i j la lo, lat g !! i = Some la -> lon g !! j = Some lo ->
        ∃ a, totexttau g !! (i * length (lon g) + j)%nat = Some a
             ∧ frame !! (i * length (lon g) + j)%nat
               = Some {| latitude := la; longitude := lo; aod := a |}.
Proof.
  intros Hsize.
  exists (zip3 (Numpy.repeat (lat g) (length (lon g)))
               (Numpy.tile (lon g) (length (lat g))) (totexttau g)).
  split; [|split].
  - unfold load_aod_data, frame. simpl.
    rewrite decide_True; [done|].
    rewrite repeat_length, tile_length. lia.
  - rewrite zip3_length; rewrite ?repeat_length, ?tile_length; lia.
  - intros i j la lo Hla Hlo.
    pose proof (lookup_lt_Some _ _ _ Hla) as Hi.
    pose proof (lookup_lt_Some _ _ _ Hlo) as Hj.
    destruct (lookup_lt_is_Some_2 (totexttau g) (i * length (lon g) + j)%nat)
      as [a Ha]; [nia|].
    exists a. split; [done|].
    apply zip3_lookup; [by apply repeat_lookup|by apply tile_lookup|done].
Qed.

Lemma load_aod_data_grid_witness :
  ∃ frame,
    @load_aod_data counter_state (Ok Samples.small_granule) = Ok (List.filter in_box frame)
    ∧ length frame = 4%nat
    ∧ frame !! 2%nat
      = Some {| latitude := Num (qc 30 1); longitude := Num (qc (-100) 1);
                aod := Num (qc 3 10) |}.
Proof.
  destruct (@load_aod_data_grid counter_state Samples.small_granule eq_refl)
    as (frame & Hload & Hlen & Hgrid).
  exists frame. split; [exact Hload|]. split; [exact Hlen|].
  destruct (Hgrid 1%nat 0%nat (Num (qc 30 1)) (Num (qc (-100) 1)) eq_refl eq_refl)
    as (a & Ha & Hrow).
  injection Ha as <-. exact Hrow.
Defined.

(** *** Falling back *)

Lemma mock_aod_length `{RandomState} (n : nat) : length (_mock_aod_data n) = n.
Proof.
  unfold _mock_aod_data.
  pose proof (PredictAqiSpec.uniform_length (qc 24 1) (qc 495 10) n (seed 1)) as H1.
  destruct (uniform (qc 24 1) (qc 495 10) n (seed 1)) as [la s1].
  pose proof (PredictAqiSpec.uniform_length (qc (-125) 1) (qc (-665) 10) n s1) as H2.
  destruct (uniform (qc (-125) 1) (qc (-665) 10) n s1) as [lo s2].
  pose proof (PredictAqiSpec.uniform_length (qc 0 1) (qc 1 1) n s2) as H3.
  destruct (uniform (qc 0 1) (qc 1 1) n s2) as [a s3]. simpl in *.
  rewrite zip3_length; congruence.
Qed.

(** Any exception of the archive steps, and also a granule whose
    variable does not have one value per grid point, gives the same
    result: the crop of the 3000 synthetic points, so at most 3000 rows,
    and nothing of the granule. *)
Theorem load_aod_data_falls_back `{RandomState} (archive : outcome granule) :
  (∃ e, archive = Raise e)
  ∨ (∃ g, archive = Ok g
          ∧ length (totexttau g) ≠ (length (lat g) * length (lon g))%nat) ->
  load_aod_data archive = Ok (List.filter in_box (_mock_aod_data 3000))
  ∧ (length (List.filter in_box (_mock_aod_data 3000)) ≤ 3000)%nat.
Proof.
  intros Hc. split.
  - destruct Hc as [[e ->]|(g & -> & Hsize)]; [done|].
    unfold load_aod_data, frame. simpl.
    rewrite decide_False; [done|].
    rewrite repeat_length, tile_length. lia.
  - etrans; [apply filter_length_le|]. by rewrite mock_aod_length.
Qed.

Lemma load_aod_data_falls_back_witness :
  @load_aod_data counter_state (Ok Samples.short_granule)
  = @load_aod_data counter_state (Raise (ImportError "earthaccess"))
  ∧ @load_aod_data counter_state (Ok Samples.short_granule)
    = Ok (List.filter in_box (@_mock_aod_data counter_state 3000)).
Proof.
  destruct (@load_aod_data_falls_back counter_state (Ok Samples.short_granule))
    as [Hshort _].
  { right. exists Samples.short_granule. split; [reflexivity|]. simpl. lia. }
  destruct (@load_aod_data_falls_back counter_state (Raise (ImportError "earthaccess")))
    as [Hraise _].
  { left. by eexists. }
  split; [by rewrite Hshort, Hraise|exact Hshort].
Defined.

End FetchAodMore.

(** ** The generator's words stay non-negative *)

Module RandomMore.
Import MT19937 Random.

Lemma word_nonneg (mt : list Z) (i : nat) :
  Forall (fun w => 0 ≤ w) mt -> 0 ≤ word mt i.
Proof.
  intros Hmt. unfold word. destruct (mt !! i) as [w|] eqn:Hw; simpl; [|done].
  by eapply Forall_lookup_1 in Hw.
Qed.

Lemma u32_nonneg (z : Z) : 0 ≤ u32 z.
Proof. unfold u32. apply Z.mod_pos_bound. done. Qed.

Lemma init_words_nonneg n prev mti : Forall (fun w => 0 ≤ w) (init_words n prev mti).
Proof.
  revert prev mti. induction n as [|n IH]; intros prev mti; simpl; constructor.
  - apply u32_nonneg.
  - apply IH.
Qed.

Lemma wrap_nonneg (mt : list Z) (i : nat) :
  Forall (fun w => 0 ≤ w) mt -> Forall (fun w => 0 ≤ w) (wrap mt i).1.
Proof.
  intros Hmt. unfold wrap. destruct (decide _); simpl; [|done].
  apply Forall_insert; [done|by apply word_nonneg].
Qed.

Lemma key_loop_nonneg k key mt i j :
  Forall (fun w => 0 ≤ w) mt -> Forall (fun w => 0 ≤ w) (key_loop k key mt i j).1.
Proof.
  revert mt i j. induction k as [|k IH]; intros mt i j Hmt; simpl; [done|].
  match goal with |- context [wrap ?m ?n] =>
    pose proof (wrap_nonneg m n) as Hw; destruct (wrap m n) as [mt' i'] end.
  apply IH, Hw, Forall_insert; [done|apply u32_nonneg].
Qed.

Lemma mix_loop_nonneg k mt i :
  Forall (fun w => 0 ≤ w) mt -> Forall (fun w => 0 ≤ w) (mix_loop k mt i).
Proof.
  revert mt i. induction k as [|k IH]; intros mt i Hmt; simpl; [done|].
  match goal with |- context [wrap ?m ?n] =>
    pose proof (wrap_nonneg m n) as Hw; destruct (wrap m n) as [mt' i'] end.
  apply IH, Hw, Forall_insert; [done|apply u32_nonneg].
Qed.

Lemma seed_nonneg (a : Z) : Forall (fun w => 0 ≤ w) (mt (seed a)).
Proof.
  unfold seed, init_by_array.
  match goal with |- context [key_loop ?k ?key ?m ?i ?j] =>
    pose proof (key_loop_nonneg k key m i j) as Hk;
    destruct (key_loop k key m i j) as [mt1 i1] end.
  cbn [mt]. apply Forall_insert; [|done].
  apply mix_loop_nonneg, Hk. unfold init_genrand. cbn [mt].
  constructor; [apply u32_nonneg|]. apply init_words_nonneg.
Qed.

Lemma twist_nonneg (a b c : Z) :
  0 ≤ a -> 0 ≤ b -> 0 ≤ c ->
  0 ≤ Z.lxor (Z.lxor c (Z.shiftr (Z.lor (Z.land a UPPER_MASK) (Z.land b LOWER_MASK)) 1))
             (if Z.testbit (Z.lor (Z.land a UPPER_MASK) (Z.land b LOWER_MASK)) 0
              then MATRIX_A else 0).
Proof.
  intros Ha Hb Hc.
  apply Z.lxor_nonneg. split; intros _; [by destruct (Z.testbit _ 0)|].
  apply Z.lxor_nonneg. split; intros _; [|done].
  apply Z.shiftr_nonneg, Z.lor_nonneg.
  split; apply Z.land_nonneg; by left.
Qed.

Lemma regenerate_nonneg n kk mt :
  Forall (fun w => 0 ≤ w) mt -> Forall (fun w => 0 ≤ w) (regenerate n kk mt).
Proof.
  revert kk mt. induction n as [|n IH]; intros kk mt Hmt; [done|].
  change (regenerate (S n) kk mt)
    with (regenerate n (S kk)
            (<[kk := Z.lxor
                       (Z.lxor (word mt ((kk + M) mod N))
                          (Z.shiftr (Z.lor (Z.land (word mt kk) UPPER_MASK)
                                           (Z.land (word mt (S kk mod N)) LOWER_MASK)) 1))
                       (if Z.testbit (Z.lor (Z.land (word mt kk) UPPER_MASK)
                                            (Z.land (word mt (S kk mod N)) LOWER_MASK)) 0
                        then MATRIX_A else 0)]> mt)).
  apply IH, Forall_insert; [done|].
  apply twist_nonneg; by apply word_nonneg.
Qed.

Lemma temper_nonneg y : 0 ≤ y -> 0 ≤ temper y.
Proof.
  intros Hy. unfold temper.
  repeat (apply Z.lxor_nonneg; split; intros ?;
          try (apply Z.shiftr_nonneg); try (apply Z.land_nonneg; by right); try done).
Qed.

Lemma genrand_nonneg (s : state) :
  Forall (fun w => 0 ≤ w) (mt s) ->
  0 ≤ (genrand_uint32 s).1 ∧ Forall (fun w => 0 ≤ w) (mt (genrand_uint32 s).2).
Proof.
  intros Hs. unfold genrand_uint32.
  pose proof (regenerate_nonneg N 0 _ Hs) as Hr.
  generalize dependent (regenerate N 0 (mt s)). intros mt' Hr.
  destruct (decide _); cbn [fst snd mt index];
    (split; [apply temper_nonneg, word_nonneg|]; assumption).
Qed.

Lemma getrandbits_words_nonneg words k (s : state) :
  Forall (fun w => 0 ≤ w) (mt s) ->
  0 ≤ (getrandbits_words words k s).1
  ∧ Forall (fun w => 0 ≤ w) (mt (getrandbits_words words k s).2).
Proof.
  revert k s. induction words as [|w IH]; intros k s Hs;
    cbn [getrandbits_words]; [by split|].
  destruct (genrand_nonneg s Hs) as [Hy Hs1].
  destruct (genrand_uint32 s) as [r s1]. cbn [fst snd] in Hy, Hs1.
  destruct (IH (k - 32) s1 Hs1) as [Hhi Hs2].
  destruct (getrandbits_words w (k - 32) s1) as [hi s2]. cbn [fst snd] in *.
  split; [|assumption].
  assert (0 ≤ Z.shiftl hi 32) by by apply Z.shiftl_nonneg.
  assert (0 ≤ Z.shiftr r (32 - k)) by by apply Z.shiftr_nonneg.
  destruct (k <? 32); lia.
Qed.

(** The rejection loop hands out an integer of the range asked for. *)
Lemma randbelow_loop_range (fuel : nat) (n k : Z) (s s' : state) (r : Z) :
  Forall (fun w => 0 ≤ w) (mt s) ->
  randbelow_loop fuel n k s = Ok (r, s') ->
  0 ≤ r < n ∧ Forall (fun w => 0 ≤ w) (mt s').
Proof.
  revert s. induction fuel as [|fuel IH]; intros s Hs;
    cbn [randbelow_loop]; [discriminate|].
  unfold getrandbits.
  destruct (getrandbits_words_nonneg (Z.to_nat ((k - 1) / 32 + 1)) k s Hs) as [Hr Hs1].
  destruct (getrandbits_words _ k s) as [r1 s1]. cbn [fst snd] in Hr, Hs1.
  destruct (n <=? r1) eqn:Hn; [by apply IH|].
  intros [= <- <-]. apply Z.leb_gt in Hn. split; [lia|assumption].
Qed.

Lemma randbelow_range (n : Z) (s s' : state) (r : Z) :
  Forall (fun w => 0 ≤ w) (mt s) ->
  _randbelow n s = Ok (r, s') ->
  0 ≤ r < n ∧ Forall (fun w => 0 ≤ w) (mt s').
Proof. unfold _randbelow. apply randbelow_loop_range. Qed.

Lemma choice_member {A} (seq : list A) (s s' : state) (x : A) :
  Forall (fun w => 0 ≤ w) (mt s) ->
  choice seq s = Ok (x, s') ->
  x ∈ seq ∧ Forall (fun w => 0 ≤ w) (mt s').
Proof.
  intros Hs. unfold choice. destruct (decide _); [discriminate|].
  destruct (_randbelow _ s) as [[i s1]| |] eqn:Hi;
    simpl; try discriminate.
  apply randbelow_range in Hi as [_ Hs1]; [|assumption].
  destruct (seq !! Z.to_nat i) as [y|] eqn:Hy; [|discriminate].
  intros [= <- <-]. split; [|assumption]. by eapply list_elem_of_lookup_2.
Qed.

Lemma randint_range (a b : Z) (s s' : state) (x : Z) :
  Forall (fun w => 0 ≤ w) (mt s) ->
  randint a b s = Ok (x, s') ->
  a ≤ x ≤ b ∧ Forall (fun w => 0 ≤ w) (mt s').
Proof.
  intros Hs. unfold randint. destruct (0 <? b + 1 - a); [|discriminate].
  destruct (_randbelow _ s) as [[r s1]| |] eqn:Hr;
    simpl; try discriminate.
  apply randbelow_range in Hr as [Hr Hs1]; [|assumption].
  intros [= <- <-]. split; [lia|assumption].
Qed.

Lemma uniform_nonneg (a b : Z) (s s' : state) (f : float) :
  Forall (fun w => 0 ≤ w) (mt s) ->
  uniform a b s = Ok (f, s') -> Forall (fun w => 0 ≤ w) (mt s').
Proof.
  intros Hs. unfold uniform, random.
  destruct (genrand_nonneg s Hs) as [_ Hs1]. destruct (genrand_uint32 s) as [x s1].
  cbn [snd] in Hs1.
  destruct (genrand_nonneg s1 Hs1) as [_ Hs2]. destruct (genrand_uint32 s1) as [y s2].
  cbn [snd] in Hs2.
  intros [= _ <-]. assumption.
Qed.

End RandomMore.

(** ** The point fetcher, further *)

Module FetchAqiMore.
Import FetchAqi FetchAqiSpec.

(** *** Sequencing *)

Lemma yields_bind {A B} (m : outcome A) (k : A -> outcome B)
    (P : A -> Prop) (Q : B -> Prop) :
  yields m P -> (∀ a, P a -> yields (k a) Q) -> yields (m ≫= k) Q.
Proof.
  intros Hm Hk b. destruct m as [a| |]; try discriminate.
  apply Hk, Hm. reflexivity.
Qed.

Lemma yields_Ok {A} (a : A) (P : A -> Prop) : P a -> yields (Ok a) P.
Proof. intros Ha b [= <-]. exact Ha. Qed.

(** *** The rows of the synthetic table *)

Lemma palette_synthetic (cat : string) :
  cat ∈ ["Good"; "Moderate"; "Unhealthy"] ->
  VStr (if String.eqb cat "Good" then "green"
        else if String.eqb cat "Moderate" then "yellow" else "red")
  = palette (VStr cat).
Proof.
  intros H. repeat (apply elem_of_cons in H as [->|H]; [reflexivity|]).
  by apply elem_of_nil in H.
Qed.

Lemma choice_yields {A} (seq : list A) (s : MT19937.state) :
  Forall (fun w => 0 ≤ w) (MT19937.mt s) ->
  yields (Random.choice seq s)
         (fun p => p.1 ∈ seq ∧ Forall (fun w => 0 ≤ w) (MT19937.mt p.2)).
Proof. intros Hs [x s'] H. exact (RandomMore.choice_member seq s s' x Hs H). Qed.

Lemma uniform_yields (a b : Z) (s : MT19937.state) :
  Forall (fun w => 0 ≤ w) (MT19937.mt s) ->
  yields (Random.uniform a b s) (fun p => Forall (fun w => 0 ≤ w) (MT19937.mt p.2)).
Proof. intros Hs [x s'] H. exact (RandomMore.uniform_nonneg a b s s' x Hs H). Qed.

Lemma randint_yields (a b : Z) (s : MT19937.state) :
  Forall (fun w => 0 ≤ w) (MT19937.mt s) ->
  yields (Random.randint a b s)
         (fun p => a ≤ p.1 ≤ b ∧ Forall (fun w => 0 ≤ w) (MT19937.mt p.2)).
Proof. intros Hs [x s'] H. exact (RandomMore.randint_range a b s s' x Hs H). Qed.

Lemma mock_row_yields (s : MT19937.state) :
  Forall (fun w => 0 ≤ w) (MT19937.mt s) ->
  yields (mock_row s)
         (fun p => synthetic p.1 ∧ Forall (fun w => 0 ≤ w) (MT19937.mt p.2)).
Proof.
  intros Hs. unfold mock_row.
  eapply yields_bind; [exact (choice_yields _ s Hs)|].
  intros [cat s1] [Hcat Hs1]. cbv beta iota. cbn [fst snd] in Hcat, Hs1.
  eapply yields_bind; [exact (uniform_yields _ _ s1 Hs1)|].
  intros [lat s2] Hs2. cbv beta iota. cbn [snd] in Hs2.
  eapply yields_bind; [exact (uniform_yields _ _ s2 Hs2)|].
  intros [lon s3] Hs3. cbv beta iota. cbn [snd] in Hs3.
  eapply yields_bind; [exact (choice_yields _ s3 Hs3)|].
  intros [par s4] [Hpar Hs4]. cbv beta iota. cbn [fst snd] in Hpar, Hs4.
  eapply yields_bind; [exact (randint_yields _ _ s4 Hs4)|].
  intros [a s5] [Ha Hs5]. cbv beta iota. cbn [fst snd] in Ha, Hs5.
  apply yields_Ok. cbn [fst snd]. split; [|exact Hs5].
  unfold synthetic. cbn [category parameter aqi color unit region utc].
  split; [exact (list_elem_of_fmap_2 VStr _ _ Hcat)|].
  split; [exact (list_elem_of_fmap_2 VStr _ _ Hpar)|].
  split; [exists a; split; [reflexivity|exact Ha]|].
  split; [exact (palette_synthetic cat Hcat)|].
  repeat split.
Qed.

Lemma mock_rows_yields (n : nat) (s : MT19937.state) :
  Forall (fun w => 0 ≤ w) (MT19937.mt s) ->
  yields (mock_rows n s) (fun p => length p.1 = n ∧ Forall synthetic p.1).
Proof.
  revert s. induction n as [|n IH]; intros s Hs; cbn [mock_rows].
  { apply yields_Ok. split; [reflexivity|constructor]. }
  eapply yields_bind; [exact (mock_row_yields s Hs)|].
  intros [r s1] [Hr Hs1]. cbv beta iota. cbn [fst snd] in Hr, Hs1.
  eapply yields_bind; [exact (IH s1 Hs1)|].
  intros [rest s2] [Hlen Hrest]. cbv beta iota. cbn [fst snd] in Hlen, Hrest.
  apply yields_Ok. cbn [fst]. split; [cbn [length]; by rewrite Hlen|by constructor].
Qed.

Lemma mock_aqi_data_yields (n : nat) :
  yields (_mock_aqi_data n) (fun rows => length rows = n ∧ Forall synthetic rows).
Proof.
  unfold _mock_aqi_data.
  eapply yields_bind; [exact (mock_rows_yields n _ (RandomMore.seed_nonneg 42))|].
  intros [rows s'] H. cbv beta iota. apply yields_Ok. exact H.
Qed.

(** Asked for [n] rows, [_mock_aqi_data] returns [n] of them, and in
    each the category, the parameter and the AQI are of the sets they
    are drawn from, the colour is that of the category, and unit, region
    and time are the constants of the source. *)
Theorem mock_aqi_data_rows (n : nat) (rows : list obs) :
  _mock_aqi_data n = Ok rows ->
  length rows = n ∧ Forall synthetic rows.
Proof. intros H. exact (mock_aqi_data_yields n rows H). Qed.

Lemma mock_aqi_data_rows_witness :
  ∃ rows, _mock_aqi_data 3 = Ok rows ∧ length rows = 3%nat ∧ Forall synthetic rows.
Proof.
  eexists. split; [vm_compute; reflexivity|].
  apply (mock_aqi_data_rows 3). vm_compute. reflexivity.
Defined.


(** The rows of a smaller table are the first rows of a larger one. *)
Lemma mock_rows_app (n m : nat) (s : MT19937.state) :
  mock_rows (n + m) s
  = '(r1, s1) ← mock_rows n s;
    '(r2, s2) ← mock_rows m s1;
    Ok ((r1 ++ r2)%list, s2).
Proof.
  revert s. induction n as [|n IH]; intros s; cbn [Nat.add mock_rows].
  { cbn [mbind outcome_bind Py.bind].
    destruct (mock_rows m s) as [[r2 s2]| |]; reflexivity. }
  destruct (mock_row s) as [[r s1]| |]; cbn [mbind outcome_bind Py.bind];
    [|reflexivity..].
  rewrite IH.
  destruct (mock_rows n s1) as [[r1 s2]| |]; cbn [mbind outcome_bind Py.bind];
    [|reflexivity..].
  destruct (mock_rows m s2) as [[r2 s3]| |]; reflexivity.
Qed.

Lemma mock_rows_length (n : nat) (s : MT19937.state) :
  yields (mock_rows n s) (fun p => length p.1 = n).
Proof.
  revert s. induction n as [|n IH]; intros s; cbn [mock_rows].
  { by apply yields_Ok. }
  eapply (yields_bind _ _ (fun _ => True)); [done|].
  intros [r s1] _. cbv beta iota.
  eapply yields_bind; [exact (IH s1)|].
  intros [rest s2] Hlen. cbv beta iota. cbn [fst] in Hlen.
  apply yields_Ok. cbn [fst length]. by rewrite Hlen.
Qed.

(** The generator is reseeded at every call, so a table of [n] rows is
    the first [n] rows of any larger one: when the larger one is
    returned, so is the smaller. *)
Theorem mock_aqi_data_prefix (n m : nat) (rows : list obs) :
  (n ≤ m)%nat ->
  _mock_aqi_data m = Ok rows ->
  _mock_aqi_data n = Ok (take n rows).
Proof.
  intros Hnm. replace m with (n + (m - n))%nat by lia.
  revert rows.
  change (yields (_mock_aqi_data (n + (m - n)))
                 (fun rows => _mock_aqi_data n = Ok (take n rows))).
  unfold _mock_aqi_data. rewrite mock_rows_app.
  generalize (Random.seed 42). intros s.
  pose proof (mock_rows_length n s) as Hlen.
  destruct (mock_rows n s) as [[r1 s1]| |]; cbn [mbind outcome_bind Py.bind];
    [|intros ? [=]..].
  specialize (Hlen _ eq_refl). cbn [fst] in Hlen.
  destruct (mock_rows (m - n) s1) as [[r2 s2]| |]; cbn [mbind outcome_bind Py.bind];
    [|intros ? [=]..].
  apply yields_Ok. by rewrite take_app_length'.
Qed.

Lemma mock_aqi_data_prefix_witness :
  ∃ rows, _mock_aqi_data 5 = Ok rows ∧ _mock_aqi_data 2 = Ok (take 2 rows).
Proof.
  eexists. split; [vm_compute; reflexivity|].
  apply (mock_aqi_data_prefix 2 5); [lia|vm_compute; reflexivity].
Defined.

(** *** The thousand rows of the fallback *)

Lemma betweenb_between (lo hi : Z) (v : value) :
  betweenb lo hi v = true -> between lo hi v.
Proof.
  destruct v as [|q|]; try discriminate. simpl.
  intros [H1 H2]%andb_true_iff. apply Qle_bool_iff in H1, H2.
  exists q. split; [reflexivity|]. unfold Qcle, qc. simpl.
  rewrite !Qred_correct. by split.
Qed.

Lemma in_boxb_in_box (r : obs) : in_boxb r = true -> in_box r.
Proof.
  unfold in_boxb, in_box. intros [H1 H2]%andb_true_iff.
  split; by apply betweenb_between.
Qed.

Lemma mock_box_checked :
  match _mock_aqi_data 1000 with
  | Ok df => forallb in_boxb df
  | _ => false
  end = true.
Proof. vm_compute. reflexivity. Qed.

(** The table of the fallback: a thousand rows, drawn in the box, no
    two with the same key. *)
Lemma fallback_table :
  ∃ df, _mock_aqi_data 1000 = Ok df ∧ length df = 1000%nat
        ∧ Forall synthetic df ∧ Forall in_box df.
Proof.
  destruct mock_table as (df & Hmock & Hlen & _).
  pose proof mock_box_checked as Hc. rewrite Hmock in Hc.
  destruct (mock_aqi_data_yields _ df Hmock) as [_ Hs].
  exists df. split; [exact Hmock|]. split; [exact Hlen|]. split; [exact Hs|].
  apply Forall_forall. intros r Hr. apply in_boxb_in_box.
  rewrite forallb_forall in Hc. apply Hc. by apply list_elem_of_In.
Qed.

(** *** Every table [load_aqi_data] returns *)

Lemma between_not_na (lo hi : Z) (v : value) : between lo hi v -> isna v = false.
Proof. by intros (q & -> & _). Qed.

Lemma fallback_row (r : obs) :
  synthetic r -> in_box r ->
  located r ∧ region r = VStr "USA" ∧ color r = palette (category r).
Proof.
  intros (_ & _ & (a & Ha & _) & Hcol & _ & Hreg & _) [Hla Hlo].
  repeat split; try assumption; try by eapply between_not_na.
  by rewrite Ha.
Qed.

Lemma dropna_located (rows : list obs) : Forall located (dropna rows).
Proof.
  apply Forall_forall. intros r Hr.
  apply list_elem_of_In, filter_In in Hr as [_ Hr].
  apply negb_true_iff in Hr. unfold located.
  destruct (isna (latitude r)), (isna (longitude r)), (isna (aqi r)); done.
Qed.

Lemma filter_sublist {A} (f : A -> bool) (l : list A) : List.filter f l `sublist_of` l.
Proof.
  induction l as [|x l IH]; simpl; [constructor|].
  destruct (f x); by constructor.
Qed.

Lemma drop_duplicates_from_sublist seen (df : list obs) :
  drop_duplicates_from seen df `sublist_of` df.
Proof.
  revert seen. induction df as [|r df IH]; intros seen; simpl; [constructor|].
  destruct (decide (key r ∈ seen)); constructor; apply IH.
Qed.

Lemma table_of_sublist (rows : list obs) :
  table_of rows `sublist_of` map with_color_region rows.
Proof.
  unfold table_of. apply fmap_sublist.
  etransitivity; [apply drop_duplicates_from_sublist|apply filter_sublist].
Qed.

Lemma table_of_rows (rows : list obs) :
  Forall (fun r => located r ∧ region r = VStr "USA" ∧ color r = palette (category r))
         (table_of rows).
Proof.
  unfold table_of. apply Forall_fmap, Forall_forall. intros r Hr.
  pose proof (elem_of_sublist _ _ _ Hr (drop_duplicates_from_sublist [] (dropna rows)))
    as Hd.
  destruct (proj1 (Forall_forall _ _) (dropna_located rows) r Hd) as (H1 & H2 & H3).
  unfold located. simpl. by repeat split.
Qed.

(** The fetched branch, and the guard in front of it. *)
Lemma load_aqi_data_branches (net : Qc * Qc -> http) (completion : list (Qc * Qc)) :
  load_aqi_data false net completion
  = if bool_decide (length (all_data net completion) < 10)%nat then _mock_aqi_data 1000
    else if decide (omap normalize (all_data net completion) = [])
         then Raise (KeyError "latitude")
         else Ok (table_of (omap normalize (all_data net completion))).
Proof.
  unfold load_aqi_data. generalize (_mock_aqi_data 1000). intros mock.
  destruct (all_data net completion) as [|it l]; [reflexivity|].
  rewrite bool_decide_eq_false_2 by discriminate. reflexivity.
Qed.

(** Whatever the requests gave and in whatever order, a row of a table
    [load_aqi_data] returns has a latitude, a longitude and an AQI, is
    in region "USA", and is coloured by its category: by the palette, in
    gray when the palette does not list the category. *)
Theorem load_aqi_data_rows (use_mock : bool) (net : Qc * Qc -> http)
    (completion : list (Qc * Qc)) (df : list obs) :
  load_aqi_data use_mock net completion = Ok df ->
  Forall (fun r => located r ∧ region r = VStr "USA" ∧ color r = palette (category r)) df.
Proof.
  destruct fallback_table as (mock & Hmock & _ & Hsyn & Hbox).
  assert (Forall (fun r => located r ∧ region r = VStr "USA"
                           ∧ color r = palette (category r)) mock) as Hm.
  { apply Forall_forall. intros r Hr.
    apply fallback_row; eapply Forall_forall; eassumption. }
  destruct use_mock.
  { unfold load_aqi_data. rewrite Hmock. by intros [= <-]. }
  rewrite load_aqi_data_branches, Hmock.
  destruct (bool_decide _); [by intros [= <-]|].
  destruct (decide _); [discriminate|].
  intros [= <-]. apply table_of_rows.
Qed.

Lemma load_aqi_data_rows_witness :
  ∃ df, load_aqi_data false Samples.seattle_only COORDS = Ok df
        ∧ length df = 9%nat
        ∧ Forall (fun r => located r ∧ region r = VStr "USA"
                           ∧ color r = palette (category r)) df.
Proof.
  eexists. split; [vm_compute; reflexivity|]. split; [vm_compute; reflexivity|].
  apply (load_aqi_data_rows false Samples.seattle_only COORDS).
  vm_compute. reflexivity.
Defined.

(** With [use_mock] set, or with fewer than ten raw records fetched,
    the table returned has a thousand rows, each a synthetic row drawn
    in the box of latitudes 24 to 49 and longitudes -125 to -67. *)
Theorem load_aqi_data_synthetic (use_mock : bool) (net : Qc * Qc -> http)
    (completion : list (Qc * Qc)) :
  use_mock = true ∨ (length (all_data net completion) < 10)%nat ->
  ∃ df, load_aqi_data use_mock net completion = Ok df
        ∧ length df = 1000%nat ∧ Forall synthetic df ∧ Forall in_box df.
Proof.
  destruct fallback_table as (mock & Hmock & Hlen & Hsyn & Hbox).
  intros H. exists mock. split; [|by repeat split].
  destruct use_mock.
  { unfold load_aqi_data. exact Hmock. }
  destruct H as [H|H]; [discriminate|].
  rewrite load_aqi_data_branches, bool_decide_eq_true_2 by exact H. exact Hmock.
Qed.

Lemma load_aqi_data_synthetic_witness :
  ∃ df, load_aqi_data true Samples.seattle_only COORDS = Ok df
        ∧ length df = 1000%nat ∧ Forall synthetic df ∧ Forall in_box df.
Proof.
  apply (load_aqi_data_synthetic true Samples.seattle_only COORDS).
  left. reflexivity.
Defined.

(** *** The fetched table *)

Lemma drop_duplicates_from_keys seen (df : list obs) (k : value * value * value) :
  k ∈ map key (drop_duplicates_from seen df) ↔ k ∈ map key df ∧ k ∉ seen.
Proof.
  revert seen. induction df as [|r df IH]; intros seen; simpl.
  { split; [intros H|intros [H _]]; by apply elem_of_nil in H. }
  destruct (decide (key r ∈ seen)) as [Hin|Hin].
  - rewrite IH, elem_of_cons. split; [tauto|].
    intros [[->|H] Hk]; [done|tauto].
  - simpl. rewrite !elem_of_cons, IH, elem_of_cons.
    destruct (decide (k = key r)) as [->|Hne]; tauto.
Qed.

Lemma table_of_keys (rows : list obs) (k : value * value * value) :
  k ∈ map key (table_of rows) ↔ k ∈ map key (dropna rows).
Proof.
  unfold table_of, drop_duplicates.
  rewrite with_color_region_keys, drop_duplicates_from_keys.
  split; [tauto|]. intros H. split; [exact H|]. apply not_elem_of_nil.
Qed.

(** With ten raw records or more, the table is made of fetched records
    only, in the order they were fetched in, and no record that has a
    latitude, a longitude and an AQI goes unrepresented: a row of the
    table has its key. *)
Theorem load_aqi_data_fetched (net : Qc * Qc -> http) (completion : list (Qc * Qc))
    (df : list obs) :
  (10 ≤ length (all_data net completion))%nat ->
  load_aqi_data false net completion = Ok df ->
  df `sublist_of` map with_color_region (omap normalize (all_data net completion))
  ∧ ∀ r, r ∈ omap normalize (all_data net completion) -> located r ->
         key r ∈ map key df.
Proof.
  intros Hlen. rewrite load_aqi_data_branches, bool_decide_eq_false_2 by lia.
  destruct (decide _); [discriminate|]. intros [= <-].
  split; [apply table_of_sublist|].
  intros r Hr (H1 & H2 & H3). apply table_of_keys, list_elem_of_fmap.
  exists r. split; [reflexivity|].
  apply list_elem_of_In, filter_In. split; [by apply list_elem_of_In|].
  by rewrite H1, H2, H3.
Qed.

Lemma load_aqi_data_fetched_witness :
  ∃ df, load_aqi_data false Samples.two_stations COORDS = Ok df
        ∧ length (all_data Samples.two_stations COORDS) = 12%nat
        ∧ length df = 9%nat
        ∧ df `sublist_of` map with_color_region
                            (omap normalize (all_data Samples.two_stations COORDS)).
Proof.
  eexists. split; [vm_compute; reflexivity|]. split; [vm_compute; reflexivity|].
  split; [vm_compute; reflexivity|].
  apply (load_aqi_data_fetched Samples.two_stations COORDS).
  - apply Nat.leb_le. vm_compute. reflexivity.
  - vm_compute. reflexivity.
Defined.

(** Ten raw elements or more, none of them a JSON object: every element
    is skipped, the frame has no columns, and [dropna] raises KeyError
    where the synthetic table might be expected. *)
Theorem load_aqi_data_no_objects (net : Qc * Qc -> http) (completion : list (Qc * Qc)) :
  (10 ≤ length (all_data net completion))%nat ->
  Forall (fun it => normalize it = None) (all_data net completion) ->
  ∃ k, load_aqi_data false net completion = Raise (KeyError k).
Proof.
  intros Hlen Hnone. rewrite load_aqi_data_branches, bool_decide_eq_false_2 by lia.
  assert (∀ l, Forall (fun it => normalize it = None) l -> omap normalize l = [])
    as Hnil.
  { intros l Hl. induction Hl as [|it l Hit _ IH]; simpl; [reflexivity|].
    by rewrite Hit. }
  rewrite (Hnil _ Hnone). by eexists.
Qed.

Lemma load_aqi_data_no_objects_witness :
  length (all_data Samples.all_errors COORDS) = 25%nat
  ∧ ∃ k, load_aqi_data false Samples.all_errors COORDS = Raise (KeyError k).
Proof.
  split; [vm_compute; reflexivity|].
  apply (load_aqi_data_no_objects Samples.all_errors COORDS).
  - apply Nat.leb_le. vm_compute. reflexivity.
  - apply (bool_decide_unpack
             (Forall (fun it => normalize it = None)
                     (all_data Samples.all_errors COORDS))).
    vm_compute. exact I.
Defined.

(** *** The order in which the requests complete *)

Lemma all_data_Permutation (net : Qc * Qc -> http) (c1 c2 : list (Qc * Qc)) :
  c1 ≡ₚ c2 -> all_data net c1 ≡ₚ all_data net c2.
Proof.
  unfold all_data. induction 1 as [|x l l' _ IH|x y l|l l' l'' _ IH1 _ IH2]; simpl.
  - reflexivity.
  - by apply Permutation_app_head.
  - rewrite !app_assoc. apply Permutation_app_tail, Permutation_app_comm.
  - by etransitivity.
Qed.

Lemma filter_Permutation' {A} (f : A -> bool) (l1 l2 : list A) :
  l1 ≡ₚ l2 -> List.filter f l1 ≡ₚ List.filter f l2.
Proof.
  induction 1 as [|x l l' _ IH|x y l|l l' l'' _ IH1 _ IH2]; simpl.
  - reflexivity.
  - destruct (f x); [by constructor|done].
  - destruct (f x), (f y); try reflexivity. apply perm_swap.
  - by etransitivity.
Qed.

Lemma table_of_Permutation (rows1 rows2 : list obs) :
  rows1 ≡ₚ rows2 -> map key (table_of rows1) ≡ₚ map key (table_of rows2).
Proof.
  intros Hp. apply NoDup_Permutation.
  - unfold table_of. rewrite with_color_region_keys. apply drop_duplicates_nodup.
  - unfold table_of. rewrite with_color_region_keys. apply drop_duplicates_nodup.
  - intros k. rewrite !table_of_keys.
    assert (map key (dropna rows1) ≡ₚ map key (dropna rows2)) as Hk.
    { apply fmap_Permutation. by apply filter_Permutation'. }
    by rewrite Hk.
Qed.

(** The order in which the requests complete decides which of two
    records of one key is kept, and nothing else: the same requests
    completing in another order give a table, the synthetic one, or the
    KeyError alike, and the table has the same keys. *)
Theorem load_aqi_data_completion_order (net : Qc * Qc -> http)
    (c1 c2 : list (Qc * Qc)) (df1 : list obs) :
  c1 ≡ₚ c2 ->
  load_aqi_data false net c1 = Ok df1 ->
  ∃ df2, load_aqi_data false net c2 = Ok df2
         ∧ map key df1 ≡ₚ map key df2
         ∧ length df1 = length df2.
Proof.
  intros Hc. pose proof (all_data_Permutation net _ _ Hc) as Hd.
  pose proof (omap_Permutation normalize _ _ Hd) as Hr.
  rewrite !load_aqi_data_branches, <- (Permutation_length Hd).
  generalize (_mock_aqi_data 1000). intros mock.
  destruct (bool_decide _).
  { intros ->. exists df1. by repeat split. }
  destruct (decide (omap normalize (all_data net c1) = [])) as [|Hne1]; [discriminate|].
  destruct (decide (omap normalize (all_data net c2) = [])) as [He2|Hne2].
  { rewrite He2 in Hr. by apply Permutation_nil_r in Hr. }
  intros [= <-]. eexists. split; [reflexivity|].
  pose proof (table_of_Permutation _ _ Hr) as Hk. split; [exact Hk|].
  apply Permutation_length in Hk. by rewrite !length_map in Hk.
Qed.

Lemma load_aqi_data_completion_order_witness :
  ∃ df1 df2,
    load_aqi_data false Samples.two_stations COORDS = Ok df1
    ∧ load_aqi_data false Samples.two_stations (reverse COORDS) = Ok df2
    ∧ df1 ≠ df2
    ∧ map key df1 ≡ₚ map key df2
    ∧ length df1 = length df2.
Proof.
  destruct (load_aqi_data_completion_order Samples.two_stations COORDS (reverse COORDS)
              _ (symmetry (reverse_Permutation COORDS)) eq_refl)
    as (df2 & H2 & Hk & Hl).
  eexists. exists df2. split; [vm_compute; reflexivity|].
  split; [exact H2|]. split; [|split; [exact Hk|exact Hl]].
  intros Heq. rewrite <- Heq in H2. vm_compute in H2. discriminate H2.
Defined.

End FetchAqiMore.
